(** * Report generator of [src/visualization/plots.py]

    A shallow embedding of the EDA report generator: the table model the
    views work on (a pandas DataFrame), the world the views act on (objects
    on the heap, files on disk, the log, pyplot's open figures), the views
    themselves, and the properties of the views.

    Numbers are exact rationals ([Q]); the statistics that need square roots
    or exponentials (standard deviation, Pearson correlation, the Gaussian
    kernel) and the parsing of dates are fields of the class [Estimators],
    and so are two decisions that the libraries take in floating point or
    on the kind of a value: whether scipy finds a covariance singular, and
    whether seaborn can draw the values of a table. *)

From Stdlib Require Import List String Ascii Bool Arith ZArith QArith Qreduction Qround Lia Lqa.
Import ListNotations.
Close Scope Q_scope.
Open Scope string_scope.
Open Scope nat_scope.

(* ================================================================== *)
(** ** Strings: the Python string operations the views use *)

Module PyStr.

Definition is_upper (c : ascii) : bool :=
  let n := nat_of_ascii c in (65 <=? n) && (n <=? 90).

Definition is_lower (c : ascii) : bool :=
  let n := nat_of_ascii c in (97 <=? n) && (n <=? 122).

Definition upper (c : ascii) : ascii :=
  if is_lower c then ascii_of_nat (nat_of_ascii c - 32) else c.

Definition lower (c : ascii) : ascii :=
  if is_upper c then ascii_of_nat (nat_of_ascii c + 32) else c.

(** [s.replace('_', ' ')] *)
Fixpoint replace_underscore (s : string) : string :=
  match s with
  | EmptyString => EmptyString
  | String c s' =>
      String (if Ascii.eqb c "_"%char then " "%char else c) (replace_underscore s')
  end.

(** [s.title()] on ASCII text: a letter that follows a letter is lowered,
    any other letter is raised. *)
Fixpoint title_from (prev_cased : bool) (s : string) : string :=
  match s with
  | EmptyString => EmptyString
  | String c s' =>
      if is_upper c || is_lower c
      then String (if prev_cased then lower c else upper c) (title_from true s')
      else String c (title_from false s')
  end.

Definition title (s : string) : string := title_from false s.

(** ["=" * n] *)
Fixpoint repeat_char (c : ascii) (n : nat) : string :=
  match n with
  | O => EmptyString
  | S n' => String c (repeat_char c n')
  end.

Definition is_empty (s : string) : bool :=
  match s with EmptyString => true | _ => false end.

Fixpoint starts_with (p s : string) : bool :=
  match p, s with
  | EmptyString, _ => true
  | String a p', String b s' => Ascii.eqb a b && starts_with p' s'
  | String _ _, EmptyString => false
  end.

(** [p in s] *)
Fixpoint contains (p s : string) : bool :=
  starts_with p s ||
  match s with
  | EmptyString => false
  | String _ s' => contains p s'
  end.

Fixpoint last_char (s : string) : option ascii :=
  match s with
  | EmptyString => None
  | String c EmptyString => Some c
  | String _ s' => last_char s'
  end.

(** [os.path.join(d, f)] on a POSIX system. *)
Definition path_join (d f : string) : string :=
  if starts_with "/" f then f
  else if is_empty d then f
  else match last_char d with
       | Some "/"%char => d ++ f
       | _ => d ++ "/" ++ f
       end.

(** [repr] of a list of plain names, as an f-string prints it. *)
Fixpoint repr_items (l : list string) : string :=
  match l with
  | [] => EmptyString
  | [x] => "'" ++ x ++ "'"
  | x :: l' => "'" ++ x ++ "', " ++ repr_items l'
  end.

Definition repr_list (l : list string) : string := "[" ++ repr_items l ++ "]".

(** Text is held as its UTF-8 bytes; a byte from 128 to 191 continues the
    character that an earlier byte began. *)
Definition is_continuation (c : ascii) : bool :=
  let n := nat_of_ascii c in (128 <=? n) && (n <=? 191).

(** [len(s)]: the number of characters, not of bytes. *)
Fixpoint len (s : string) : nat :=
  match s with
  | EmptyString => 0
  | String c s' => (if is_continuation c then 0 else 1) + len s'
  end.

End PyStr.

(* ================================================================== *)
(** ** Tables: the part of pandas the views use *)

Inductive dtype := DInt | DFloat | DBool | DObject | DDatetime.

(** [pd.api.types.is_numeric_dtype] *)
Definition is_numeric_dtype (d : dtype) : bool :=
  match d with
  | DInt | DFloat | DBool => true
  | DObject | DDatetime => false
  end.

(** A cell of a table; [NA] stands for NaN, None and NaT. *)
Inductive cell :=
| NA
| Num (q : Q)
| Str (s : string)
| Bool (b : bool)
| Stamp (t : Z).

Definition is_na (c : cell) : bool :=
  match c with NA => true | _ => false end.

Definition cell_eqb (a b : cell) : bool :=
  match a, b with
  | NA, NA => true
  | Num p, Num q => Qeq_bool p q
  | Str s, Str t => String.eqb s t
  | Bool x, Bool y => Bool.eqb x y
  | Stamp s, Stamp t => Z.eqb s t
  | _, _ => false
  end.

Definition cell_rank (c : cell) : nat :=
  match c with NA => 4 | Bool _ => 0 | Num _ => 1 | Stamp _ => 2 | Str _ => 3 end.

(** The order pandas sorts group keys by; keys of different kinds are
    ordered by kind. *)
Definition cell_leb (a b : cell) : bool :=
  match a, b with
  | Num p, Num q => Qle_bool p q
  | Str s, Str t => String.leb s t
  | Bool x, Bool y => implb x y
  | Stamp s, Stamp t => Z.leb s t
  | _, _ => cell_rank a <=? cell_rank b
  end.

Record DataFrame := mkDF {
  columns : list (string * dtype);
  rows : list (list cell)
}.

Definition column_names (df : DataFrame) : list string := map fst (columns df).

(** [col in df.columns] *)
Definition has_column (df : DataFrame) (c : string) : bool :=
  existsb (String.eqb c) (column_names df).

Fixpoint index_of (c : string) (l : list string) : option nat :=
  match l with
  | [] => None
  | x :: l' => if String.eqb c x then Some 0
               else option_map S (index_of c l')
  end.

Definition get (df : DataFrame) (r : list cell) (c : string) : cell :=
  match index_of c (column_names df) with
  | Some i => nth i r NA
  | None => NA
  end.

(** [df[c]] as the list of its values *)
Definition series (df : DataFrame) (c : string) : list cell :=
  map (fun r => get df r c) (rows df).

Definition column_dtype (df : DataFrame) (c : string) : option dtype :=
  option_map snd (find (fun p => String.eqb c (fst p)) (columns df)).

(** [df.empty]: some axis has length 0. *)
Definition empty (df : DataFrame) : bool :=
  match columns df, rows df with
  | [], _ => true
  | _, [] => true
  | _, _ => false
  end.

Definition row_complete (df : DataFrame) (subset : list string) (r : list cell) : bool :=
  forallb (fun c => negb (is_na (get df r c))) subset.

(** [df.dropna(subset=...)] *)
Definition dropna (subset : list string) (df : DataFrame) : DataFrame :=
  mkDF (columns df) (filter (row_complete df subset) (rows df)).

(** [series.dropna()] *)
Definition series_dropna (l : list cell) : list cell :=
  filter (fun c => negb (is_na c)) l.

Definition mem (c : cell) (l : list cell) : bool := existsb (cell_eqb c) l.

(** [series.unique()]: the distinct values in order of first appearance. *)
Fixpoint unique_from (seen l : list cell) : list cell :=
  match l with
  | [] => []
  | c :: l' => if mem c seen then unique_from seen l'
               else c :: unique_from (c :: seen) l'
  end.

Definition unique (l : list cell) : list cell := unique_from [] l.

(** [series.nunique()] leaves NaN out. *)
Definition nunique (l : list cell) : nat := List.length (unique (series_dropna l)).

(** [df[df[c].isin(allowed)]] *)
Definition filter_isin (c : string) (allowed : list string) (df : DataFrame) : DataFrame :=
  mkDF (columns df)
       (filter (fun r => mem (get df r c) (map Str allowed)) (rows df)).

(** Row-wise assignment [df[name] = values]: replaces the column when it
    exists, appends it otherwise. *)
Fixpoint set_nth (i : nat) (v : cell) (r : list cell) : list cell :=
  match i, r with
  | O, _ :: r' => v :: r'
  | O, [] => [v]
  | S i', c :: r' => c :: set_nth i' v r'
  | S i', [] => NA :: set_nth i' v []
  end.

Definition set_dtype (name : string) (d : dtype) (cols : list (string * dtype)) :=
  map (fun p => if String.eqb name (fst p) then (name, d) else p) cols.

Definition assign (name : string) (d : dtype) (values : list cell) (df : DataFrame)
  : DataFrame :=
  match index_of name (column_names df) with
  | Some i =>
      mkDF (set_dtype name d (columns df))
           (map (fun rv => set_nth i (snd rv) (fst rv)) (combine (rows df) values))
  | None =>
      mkDF (columns df ++ [(name, d)])%list
           (map (fun rv => set_nth (List.length (columns df)) (snd rv) (fst rv))
                (combine (rows df) values))
  end.

(* ------------------------------------------------------------------ *)
(** *** Statistics *)

Definition to_num (c : cell) : option Q :=
  match c with
  | Num q => Some q
  | Bool true => Some 1%Q
  | Bool false => Some 0%Q
  | _ => None
  end.

(** The numbers of a series; NaN is skipped, as every pandas statistic does. *)
Fixpoint numbers (l : list cell) : list Q :=
  match l with
  | [] => []
  | c :: l' => match to_num c with
               | Some q => q :: numbers l'
               | None => numbers l'
               end
  end.

Definition Qsum (l : list Q) : Q := fold_right Qplus 0%Q l.

Definition Qlen (l : list Q) : Q := inject_Z (Z.of_nat (List.length l)).

Definition mean (l : list Q) : cell :=
  match l with
  | [] => NA
  | _ => Num (Qred (Qsum l / Qlen l))
  end.

Fixpoint Qinsert (x : Q) (l : list Q) : list Q :=
  match l with
  | [] => [x]
  | y :: l' => if Qle_bool x y then x :: l else y :: Qinsert x l'
  end.

Definition Qsort (l : list Q) : list Q := fold_right Qinsert [] l.

Definition median (l : list Q) : cell :=
  let s := Qsort l in
  let n := List.length s in
  match n with
  | O => NA
  | _ => if Nat.even n
         then Num (Qred ((nth (n / 2 - 1) s 0 + nth (n / 2) s 0) / 2))
         else Num (Qred (nth (n / 2) s 0))
  end%Q.

Definition Qmin_list (l : list Q) : cell :=
  match l with
  | [] => NA
  | x :: l' => Num (fold_left (fun a b => if Qle_bool b a then b else a) l' x)
  end.

Definition Qmax_list (l : list Q) : cell :=
  match l with
  | [] => NA
  | x :: l' => Num (fold_left (fun a b => if Qle_bool a b then b else a) l' x)
  end.

Definition count (l : list cell) : cell :=
  Num (inject_Z (Z.of_nat (List.length (series_dropna l)))).

Inductive exn :=
| OSError (path : string)
| LinAlgError
| TypeError
| ValueError.

Inductive result (A : Type) :=
| Ok (a : A)
| Raise (e : exn).
Arguments Ok {A} a.
Arguments Raise {A} e.

(** What the numeric and plotting libraries decide in floating point or
    on text, and exact rationals cannot express. *)
Class Estimators := {
  (** [series.std()], the sample standard deviation (NaN below two values) *)
  std : list Q -> cell;
  (** the Pearson coefficient of two columns, [DataFrame.corr] *)
  pearson : list cell -> list cell -> cell;
  (** the density scipy's [gaussian_kde] of a sample evaluates at a point *)
  kernel_density : list Q -> Q -> Q;
  (** whether scipy finds the covariance of a sample singular, which it
      computes in float64: it does for [5, 5], and for two integers so
      large that they round to the same double *)
  singular_covariance : list Q -> bool;
  (** [pd.to_datetime] on text: seconds since the epoch, or a parse failure *)
  parse_datetime : string -> option Z;
  (** the exception [sns.heatmap] raises on values that it cannot convert
      to float, as on text; [None] when it draws them *)
  heatmap_refusal : list (list cell) -> option exn
}.

Inductive stat := Mean | StdDev | Median | Count | Min | Max.

Definition stat_name (s : stat) : string :=
  match s with
  | Mean => "mean" | StdDev => "std" | Median => "median"
  | Count => "count" | Min => "min" | Max => "max"
  end.

Definition stat_dtype (s : stat) : dtype :=
  match s with Count => DInt | _ => DFloat end.

Definition aggregate `{Estimators} (s : stat) (l : list cell) : cell :=
  match s with
  | Mean => mean (numbers l)
  | StdDev => std (numbers l)
  | Median => median (numbers l)
  | Count => count l
  | Min => Qmin_list (numbers l)
  | Max => Qmax_list (numbers l)
  end.

(** NaN-propagating arithmetic on columns. *)
Definition cell_sub (a b : cell) : cell :=
  match to_num a, to_num b with
  | Some p, Some q => Num (Qred (p - q))
  | _, _ => NA
  end.

Definition cell_add (a b : cell) : cell :=
  match to_num a, to_num b with
  | Some p, Some q => Num (Qred (p + q))
  | _, _ => NA
  end.

Definition zip_with (f : cell -> cell -> cell) (a b : list cell) : list cell :=
  map (fun p => f (fst p) (snd p)) (combine a b).

(* ------------------------------------------------------------------ *)
(** *** Grouping and reindexing *)

Definition key := list cell.

Fixpoint key_eqb (a b : key) : bool :=
  match a, b with
  | [], [] => true
  | x :: a', y :: b' => cell_eqb x y && key_eqb a' b'
  | _, _ => false
  end.

Fixpoint key_leb (a b : key) : bool :=
  match a, b with
  | [], _ => true
  | _ :: _, [] => false
  | x :: a', y :: b' =>
      if cell_eqb x y then key_leb a' b' else cell_leb x y
  end.

Definition key_mem (k : key) (l : list key) : bool := existsb (key_eqb k) l.

Fixpoint distinct_from (seen l : list key) : list key :=
  match l with
  | [] => []
  | k :: l' => if key_mem k seen then distinct_from seen l'
               else k :: distinct_from (k :: seen) l'
  end.

Fixpoint key_insert (k : key) (l : list key) : list key :=
  match l with
  | [] => [k]
  | x :: l' => if key_leb k x then k :: l else x :: key_insert k l'
  end.

Definition key_sort (l : list key) : list key := fold_right key_insert [] l.

Definition row_key (df : DataFrame) (by_cols : list string) (r : list cell) : key :=
  map (get df r) by_cols.

Definition complete_key (k : key) : bool :=
  forallb (fun c => negb (is_na c)) k.

(** The group keys of [df.groupby(by_cols)]: distinct and sorted; a row
    with NaN in a key column belongs to no group. *)
Definition group_keys (by_cols : list string) (df : DataFrame) : list key :=
  key_sort (distinct_from []
              (filter complete_key (map (row_key df by_cols) (rows df)))).

Definition group_rows (by_cols : list string) (df : DataFrame) (k : key)
  : list (list cell) :=
  filter (fun r => key_eqb (row_key df by_cols r) k) (rows df).

Definition group_values (by_cols : list string) (value : string) (df : DataFrame) (k : key)
  : list cell :=
  map (fun r => get df r value) (group_rows by_cols df k).

Definition key_columns (by_cols : list string) (df : DataFrame) : list (string * dtype) :=
  map (fun c => (c, match column_dtype df c with Some d => d | None => DObject end))
      by_cols.

(** [df.groupby(by_cols)[value].agg(stats).reset_index()] *)
Definition groupby_agg `{Estimators} (by_cols : list string) (value : string)
    (stats : list stat) (df : DataFrame) : DataFrame :=
  mkDF (key_columns by_cols df ++ map (fun s => (stat_name s, stat_dtype s)) stats)%list
       (map (fun k => (k ++ map (fun s => aggregate s (group_values by_cols value df k)) stats)%list)
            (group_keys by_cols df)).

(** [df.groupby(by_cols)[value].mean().reset_index()] *)
Definition groupby_mean (by_cols : list string) (value : string) (df : DataFrame)
  : DataFrame :=
  mkDF (key_columns by_cols df ++ [(value, DFloat)])%list
       (map (fun k => (k ++ [mean (numbers (group_values by_cols value df k))])%list)
            (group_keys by_cols df)).

(** [pd.MultiIndex.from_product([a, b])] *)
Definition from_product (a b : list cell) : list key :=
  map (fun p => [fst p; snd p]) (list_prod a b).

Definition other_columns (by_cols : list string) (df : DataFrame) : list (string * dtype) :=
  filter (fun p => negb (existsb (String.eqb (fst p)) by_cols)) (columns df).

(** [df.set_index(by_cols).reindex(idx).reset_index()]: one row per entry
    of [idx], in the order of [idx]; an entry the table has no row for gets
    NaN in every other column. *)
Definition reindex (by_cols : list string) (idx : list key) (df : DataFrame) : DataFrame :=
  let others := map fst (other_columns by_cols df) in
  mkDF (key_columns by_cols df ++ other_columns by_cols df)%list
       (map (fun k =>
               match find (fun r => key_eqb (row_key df by_cols r) k) (rows df) with
               | Some r => (k ++ map (get df r) others)%list
               | None => (k ++ map (fun _ => NA) others)%list
               end)
            idx).

(* ------------------------------------------------------------------ *)
(** *** Pivoted tables *)

(** A labelled matrix: what [pivot_table], [pivot] and [corr] return and
    what a heatmap draws. *)
Record Matrix := mkMatrix {
  row_labels : list cell;
  col_labels : list cell;
  entries : list (list cell)
}.

Definition cell_sort (l : list cell) : list cell :=
  map (fun k => hd NA k) (key_sort (map (fun c => [c]) l)).

(** [df.pivot_table(index=i, columns=c, values=v, aggfunc="mean")] *)
Definition pivot_mean (i c v : string) (df : DataFrame) : Matrix :=
  let rs := cell_sort (unique (series df i)) in
  let cs := cell_sort (unique (series df c)) in
  mkMatrix rs cs
    (map (fun a => map (fun b => mean (numbers (group_values [i; c] v df [a; b]))) cs) rs).

(** [m.fillna(0)] *)
Definition fillna0 (m : Matrix) : Matrix :=
  mkMatrix (row_labels m) (col_labels m)
    (map (map (fun x => if is_na x then Num 0 else x)) (entries m)).

(** [df.groupby([c, i]).size()] pivoted on [i] by [c] and filled with 0. *)
Definition pivot_size (i c : string) (df : DataFrame) : Matrix :=
  let rs := cell_sort (unique (series df i)) in
  let cs := cell_sort (unique (series df c)) in
  mkMatrix rs cs
    (map (fun a => map (fun b =>
        Num (inject_Z (Z.of_nat (List.length (group_rows [i; c] df [a; b]))))) cs) rs).

Fixpoint column_sums (width : nat) (rs : list (list cell)) : list Q :=
  match rs with
  | [] => repeat 0%Q width
  | r :: rs' =>
      map (fun p => (match to_num (fst p) with Some q => q | None => 0 end + snd p)%Q)
          (combine r (column_sums width rs'))
  end.

(** [m.div(m.sum(axis=0), axis=1) * 100], in exact arithmetic: pandas
    rounds each quotient and each product to a double. *)
Definition percent_of_column (m : Matrix) : Matrix :=
  let sums := column_sums (List.length (col_labels m)) (entries m) in
  mkMatrix (row_labels m) (col_labels m)
    (map (fun r =>
            map (fun p => match to_num (fst p) with
                          | Some q => if Qeq_bool (snd p) 0 then NA
                                      else Num (Qred (q / snd p * 100))
                          | None => NA
                          end)
                (combine r sums))
         (entries m)).

(** A table read as a matrix: its columns against its row numbers. *)
Definition as_matrix (df : DataFrame) : Matrix :=
  mkMatrix (map (fun i => Num (inject_Z (Z.of_nat i))) (seq 0 (List.length (rows df))))
           (map Str (column_names df))
           (map (fun r => map (get df r) (column_names df)) (rows df)).

(** [df[cols].corr(method="pearson")] *)
Definition corr `{Estimators} (cols : list string) (df : DataFrame) : Matrix :=
  mkMatrix (map Str cols) (map Str cols)
    (map (fun a => map (fun b => pearson (series df a) (series df b)) cols) cols).

(* ------------------------------------------------------------------ *)
(** *** Dates and sampled curves *)

Definition day_names : list string :=
  ["Monday"; "Tuesday"; "Wednesday"; "Thursday"; "Friday"; "Saturday"; "Sunday"].

(** [.dt.day_name()]; day 0 of the epoch was a Thursday. *)
Definition day_name (c : cell) : cell :=
  match c with
  | Stamp t => Str (nth (Z.to_nat ((t / 86400 + 3) mod 7)) day_names "Monday")
  | _ => NA
  end.

(** [pd.to_datetime] of one value: text is parsed, a number counts
    nanoseconds, a boolean is refused. *)
Definition to_datetime `{Estimators} (c : cell) : result cell :=
  match c with
  | NA => Ok NA
  | Stamp t => Ok (Stamp t)
  | Str s => match parse_datetime s with
             | Some t => Ok (Stamp t)
             | None => Raise ValueError
             end
  | Num q => Ok (Stamp (Qfloor (q / 1000000000)))
  | Bool _ => Raise TypeError
  end.

Fixpoint to_datetime_all `{Estimators} (l : list cell) : result (list cell) :=
  match l with
  | [] => Ok []
  | c :: l' =>
      match to_datetime c, to_datetime_all l' with
      | Ok t, Ok ts => Ok (t :: ts)
      | Raise e, _ => Raise e
      | _, Raise e => Raise e
      end
  end.

(** [np.linspace(start, stop, num)]: [num] evenly spaced samples, the last
    one set to [stop]; numpy rounds each sample to a double, which may make
    neighbours equal but never puts them out of order. *)
Definition linspace (start stop : Q) (num : nat) : list Q :=
  match num with
  | 0 => []
  | 1 => [start]
  | S div =>
      let step := ((stop - start) / inject_Z (Z.of_nat div))%Q in
      (map (fun i => (inject_Z (Z.of_nat i) * step + start)%Q) (seq 0 div) ++ [stop])%list
  end.

Definition all_equal (l : list Q) : bool :=
  match l with
  | [] => true
  | x :: l' => forallb (Qeq_bool x) l'
  end.

(** [scipy.stats.gaussian_kde(values)]: the estimator refuses a sample of
    fewer than two points, and one whose covariance it finds singular. *)
Definition gaussian_kde `{Estimators} (values : list Q) : result (Q -> Q) :=
  if List.length values <? 2 then Raise ValueError
  else if singular_covariance values then Raise LinAlgError
  else Ok (kernel_density values).

(* ================================================================== *)
(** ** The world of a view: heap, disk, log and open figures *)

Inductive Chart :=
| BarPlot (data : DataFrame) (x y hue : string) (order : option (list string))
| CountPlot (data : DataFrame) (x hue : string) (order : list string)
| HistPlot (data : DataFrame) (x hue : string) (kde : bool) (bins : option nat)
| HistSeries (values : list cell) (bins : nat) (label : option string)
| ViolinPlot (data : DataFrame) (x y : string)
| BoxPlot (data : DataFrame) (x y hue : string)
| LinePlot (data : DataFrame) (x y hue : string)
| Heatmap (m : Matrix) (fmt : string).

Record Figure := mkFigure {
  figsize : nat * nat;
  charts : list Chart;
  fig_title : string;
  fig_xlabel : string;
  fig_ylabel : string
}.

Inductive file :=
| TextFile (header : string) (table : DataFrame)
| PngFile (fig : Figure) (dpi : nat).

Inductive level := INFO | WARNING | ERROR.

Record World := mkWorld {
  (** the DataFrame objects; a reference is an index *)
  heap : list DataFrame;
  (** the writes done so far, newest first *)
  disk : list (string * file);
  (** the log records, newest first *)
  log : list (level * string);
  (** pyplot's open figures, the current one first *)
  figures : list (nat * Figure);
  next_fig : nat;
  (** whether the file system accepts a write to a path *)
  writable : string -> bool
}.

Definition M (A : Type) : Type := World -> result A * World.

Definition ret {A} (a : A) : M A := fun w => (Ok a, w).

Definition bind {A B} (m : M A) (k : A -> M B) : M B :=
  fun w => match m w with
           | (Ok a, w') => k a w'
           | (Raise e, w') => (Raise e, w')
           end.

Definition raise {A} (e : exn) : M A := fun w => (Raise e, w).

Definition lift {A} (r : result A) : M A := fun w => (r, w).

Notation "x <- m ;; k" := (bind m (fun x => k))
  (at level 61, m at next level, right associativity).
Notation "m ;; k" := (bind m (fun _ => k))
  (at level 61, right associativity).

(** The state a computation ends in, and what it returns. *)
Definition exec {A} (m : M A) (w : World) : World := snd (m w).
Definition outcome {A} (m : M A) (w : World) : result A := fst (m w).

Definition with_heap (h : list DataFrame) (w : World) : World :=
  mkWorld h (disk w) (log w) (figures w) (next_fig w) (writable w).
Definition with_disk (d : list (string * file)) (w : World) : World :=
  mkWorld (heap w) d (log w) (figures w) (next_fig w) (writable w).
Definition with_log (l : list (level * string)) (w : World) : World :=
  mkWorld (heap w) (disk w) l (figures w) (next_fig w) (writable w).
Definition with_figures (f : list (nat * Figure)) (n : nat) (w : World) : World :=
  mkWorld (heap w) (disk w) (log w) f n (writable w).

(** [logger.info / warning / error] *)
Definition logger (lvl : level) (msg : string) : M unit :=
  fun w => (Ok tt, with_log ((lvl, msg) :: log w) w).

(** [open(path, "w")] and the writes into it. *)
Definition write_file (path : string) (content : file) : M unit :=
  fun w => if writable w path
           then (Ok tt, with_disk ((path, content) :: disk w) w)
           else (Raise (OSError path), w).

(** The newest content of a path. *)
Fixpoint read_file (path : string) (d : list (string * file)) : option file :=
  match d with
  | [] => None
  | (p, c) :: d' => if String.eqb path p then Some c else read_file path d'
  end.

(* ------------------------------------------------------------------ *)
(** *** DataFrame objects *)

(** A new DataFrame object: what [.copy()] and the pandas operations that
    build a table return. *)
Definition new_frame (df : DataFrame) : M nat :=
  fun w => (Ok (List.length (heap w)), with_heap (heap w ++ [df]) w).

Definition read_frame (r : nat) : M DataFrame :=
  fun w => (Ok (nth r (heap w) (mkDF [] [])), w).

Fixpoint update_nth {A} (i : nat) (f : A -> A) (l : list A) : list A :=
  match i, l with
  | _, [] => []
  | O, x :: l' => f x :: l'
  | S i', x :: l' => x :: update_nth i' f l'
  end.

(** [frame[name] = values], in place. *)
Definition assign_column (r : nat) (name : string) (d : dtype) (values : list cell)
  : M unit :=
  fun w => (Ok tt, with_heap (update_nth r (assign name d values) (heap w)) w).

(* ------------------------------------------------------------------ *)
(** *** pyplot and seaborn *)

Definition blank (size : nat * nat) : Figure :=
  mkFigure size [] EmptyString EmptyString EmptyString.

(** [plt.figure(figsize=size)]: a new figure, which becomes the current one. *)
Definition plt_figure (size : nat * nat) : M nat :=
  fun w => (Ok (next_fig w),
            with_figures ((next_fig w, blank size) :: figures w) (S (next_fig w)) w).

(** The figure the next drawing call lands on; pyplot opens one when none
    is open. *)
Definition on_current (f : Figure -> Figure) : M unit :=
  fun w => match figures w with
           | (n, g) :: rest => (Ok tt, with_figures ((n, f g) :: rest) (next_fig w) w)
           | [] => (Ok tt, with_figures [(next_fig w, f (blank (6, 4)))] (S (next_fig w)) w)
           end.

Definition draw (c : Chart) : M unit :=
  on_current (fun g => mkFigure (figsize g) (charts g ++ [c]) (fig_title g)
                                (fig_xlabel g) (fig_ylabel g)).

Definition plt_title (s : string) : M unit :=
  on_current (fun g => mkFigure (figsize g) (charts g) s (fig_xlabel g) (fig_ylabel g)).

Definition plt_xlabel (s : string) : M unit :=
  on_current (fun g => mkFigure (figsize g) (charts g) (fig_title g) s (fig_ylabel g)).

Definition plt_ylabel (s : string) : M unit :=
  on_current (fun g => mkFigure (figsize g) (charts g) (fig_title g) (fig_xlabel g) s).

Fixpoint lookup_figure (n : nat) (l : list (nat * Figure)) : option Figure :=
  match l with
  | [] => None
  | (m, g) :: l' => if n =? m then Some g else lookup_figure n l'
  end.

Fixpoint remove_figure (n : nat) (l : list (nat * Figure)) : list (nat * Figure) :=
  match l with
  | [] => []
  | (m, g) :: l' => if n =? m then l' else (m, g) :: remove_figure n l'
  end.

(** [plt.close(fig)] *)
Definition plt_close (fig : nat) : M unit :=
  fun w => (Ok tt, with_figures (remove_figure fig (figures w)) (next_fig w) w).

(** [fig.savefig(path, dpi=300, bbox_inches="tight")] *)
Definition savefig (fig : nat) (path : string) : M unit :=
  fun w => match lookup_figure fig (figures w) with
           | Some g => write_file path (PngFile g 300) w
           | None => write_file path (PngFile (blank (6, 4)) 300) w
           end.

Definition open_figures (w : World) : list nat := map fst (figures w).

(* ================================================================== *)
(** ** The views *)

(** The [config] module the views import. *)
Record Config := mkConfig {
  FIGURES_DIR : string;
  REPORTS_DIR : string;
  (** [None] when the module does not define the attribute *)
  NUMERICAL_FEATURES : option (list string);
  BOOLEAN_FEATURES : option (list string)
}.

Definition nl : string := String (ascii_of_nat 10) EmptyString.

Section Views.

Context {E : Estimators}.
Variable config : Config.

Import PyStr.

Definition save_plot (fig : nat) (filename : string) : M unit :=
  let filepath := path_join (FIGURES_DIR config) filename in
  savefig fig filepath ;;
  plt_close fig ;;
  logger INFO ("Plot saved to: " ++ filepath).

Definition report_header (title : string) : string :=
  if is_empty title then EmptyString
  else title ++ nl ++ repeat_char "="%char (len title) ++ nl ++ nl.

Definition _save_dataframe_as_text (df : DataFrame) (filename title : string) : M unit :=
  let filepath := path_join (REPORTS_DIR config) filename in
  write_file filepath (TextFile (report_header title) df) ;;
  logger INFO ("Table data saved to: " ++ filepath).

(** [frame.dropna(subset=...)] and [frame.copy()] return new objects. *)
Definition df_dropna (r : nat) (subset : list string) : M nat :=
  d <- read_frame r ;; new_frame (dropna subset d).

Definition df_copy (r : nat) : M nat :=
  d <- read_frame r ;; new_frame d.

(** pandas refuses to average text.  The check is by dtype: it stands for
    pandas on a column of a numeric dtype, which passes, and on a column of
    text, which raises; a column of dtype object that holds numbers only is
    not covered. *)
Definition numeric_column (d : DataFrame) (c : string) : bool :=
  match column_dtype d c with
  | Some t => is_numeric_dtype t
  | None => false
  end.

Definition require_numeric (d : DataFrame) (c : string) : M unit :=
  if numeric_column d c then ret tt else raise TypeError.

(** [grouped["lower_bound"] = grouped["mean"] - grouped["std"]] and
    [grouped["upper_bound"] = grouped["mean"] + grouped["std"]] *)
Definition add_bounds (grouped : nat) : M unit :=
  g <- read_frame grouped ;;
  assign_column grouped "lower_bound" DFloat
    (zip_with cell_sub (series g "mean") (series g "std")) ;;
  g <- read_frame grouped ;;
  assign_column grouped "upper_bound" DFloat
    (zip_with cell_add (series g "mean") (series g "std")).

Definition all_periods : list string :=
  ["Before Event"; "During Event"; "After Event"; "Outside Window"].

Definition plot_average_metric_by_time_and_event
    (df : nat) (metric filename_prefix title y_label : string) : M unit :=
  d <- read_frame df ;;
  let required_cols := [metric; "event_name"; "time_period"] in
  if negb (forallb (has_column d) required_cols) then
    logger ERROR ("Missing one or more required columns (" ++ repr_list required_cols
                  ++ ") for '" ++ metric ++ "' plot. Skipping.")
  else
    dropped <- df_dropna df required_cols ;;
    df_filtered <- df_copy dropped ;;
    f <- read_frame df_filtered ;;
    if empty f then
      logger WARNING ("No valid data to plot average '" ++ metric
                      ++ "' after filtering NaNs. Skipping plot.")
    else
      let all_events := unique (series f "event_name") in
      require_numeric f metric ;;
      grouped <- new_frame (groupby_agg ["time_period"; "event_name"] metric
                              [Mean; StdDev; Median; Count] f) ;;
      add_bounds grouped ;;
      g <- read_frame grouped ;;
      let idx := from_product (map Str all_periods) all_events in
      grouped <- new_frame (reindex ["time_period"; "event_name"] idx g) ;;
      g <- read_frame grouped ;;
      _save_dataframe_as_text g
        (filename_prefix ++ "_by_time_period_and_event.txt")
        ("Average " ++ PyStr.title (replace_underscore metric)
         ++ " by Time Period and Event (incl. Range)") ;;
      fig <- plt_figure (10, 6) ;;
      draw (BarPlot g "time_period" "mean" "event_name" None) ;;
      plt_title title ;;
      plt_ylabel y_label ;;
      save_plot fig (filename_prefix ++ "_by_time_period_and_event_extended.png").

(** [if selected_types:] holds for a list that is given and not empty. *)
Definition truthy (l : option (list string)) : bool :=
  match l with
  | Some (_ :: _) => true
  | _ => false
  end.

Definition plot_metric_by_event_and_type
    (df : nat) (metric title filename : string) (selected_types : option (list string))
  : M unit :=
  d <- read_frame df ;;
  let required_cols := [metric; "event_name"; "post_type"] in
  if negb (forallb (has_column d) required_cols) then
    logger ERROR ("Missing one or more required columns (" ++ repr_list required_cols
                  ++ ") for '" ++ metric ++ "' by post type plot. Skipping.")
  else
    dropped <- df_dropna df required_cols ;;
    df_filtered <- df_copy dropped ;;
    df_filtered <-
      (if truthy selected_types then
         f <- read_frame df_filtered ;;
         new_frame (filter_isin "post_type"
                      (match selected_types with Some l => l | None => [] end) f)
       else ret df_filtered) ;;
    f <- read_frame df_filtered ;;
    if empty f then
      logger WARNING ("No valid data to plot average '" ++ metric
                      ++ "' by post type after filtering NaNs/types. Skipping plot.")
    else
      let post_types := unique (series f "post_type") in
      let events := unique (series f "event_name") in
      require_numeric f metric ;;
      grouped <- new_frame (groupby_agg ["post_type"; "event_name"] metric
                              [Mean; StdDev; Median; Count] f) ;;
      add_bounds grouped ;;
      g <- read_frame grouped ;;
      let idx := from_product post_types events in
      grouped <- new_frame (reindex ["post_type"; "event_name"] idx g) ;;
      g <- read_frame grouped ;;
      _save_dataframe_as_text g
        (metric ++ "_by_post_type_and_event.txt")
        (PyStr.title (replace_underscore metric) ++ " by Post Type and Event") ;;
      fig <- plt_figure (12, 7) ;;
      draw (BarPlot g "post_type" "mean" "event_name" None) ;;
      plt_title title ;;
      plt_ylabel ("Mean " ++ PyStr.title (replace_underscore metric)) ;;
      save_plot fig filename.

(** The sampled density curve: 200 points from the least to the greatest
    observation. *)
Definition kde_curve (kde : Q -> Q) (lo hi : Q) : DataFrame :=
  mkDF [("x", DFloat); ("kde_density", DFloat)]
       (map (fun x => [Num x; Num (kde x)]) (linspace lo hi 200)).

(** The one-row summary: [pd.DataFrame.from_dict] of the six statistics. *)
Definition distribution_summary (values : list cell) : DataFrame :=
  let mean_ := mean (numbers values) in
  let std_ := std (numbers values) in
  let median_ := median (numbers values) in
  let count_ := count values in
  mkDF [("Mean", DFloat); ("Median", DFloat); ("Std", DFloat); ("Count", DInt);
        ("Lower Bound (Mean - Std)", DFloat); ("Upper Bound (Mean + Std)", DFloat)]
       [[mean_; median_; std_; count_; cell_sub mean_ std_; cell_add mean_ std_]].

(** The histogram of [plot_feature_distribution]: split by event when the
    dataset names more than one. *)
Definition feature_histogram
    (df : nat) (d : DataFrame) (values : list cell) (feature title x_label : string)
    (bin_count : nat) (filename_prefix : string) : M unit :=
  fig <- plt_figure (10, 6) ;;
  (if has_column d "event_name" && (1 <? nunique (series d "event_name")) then
     dropped <- df_dropna df [feature; "event_name"] ;;
     df_filtered <- df_copy dropped ;;
     f <- read_frame df_filtered ;;
     if negb (empty f) then
       draw (HistPlot f feature "event_name" true (Some bin_count))
     else
       logger WARNING ("No valid data for feature '" ++ feature
         ++ "' with 'event_name' after filtering NaNs. Plotting without hue.") ;;
       draw (HistSeries values bin_count None)
   else
     draw (HistSeries values bin_count None)) ;;
  plt_title title ;;
  plt_xlabel x_label ;;
  plt_ylabel "Count" ;;
  save_plot fig (filename_prefix ++ feature ++ "_histogram_extended.png").

(** The density curve of [plot_feature_distribution]: estimated and
    written when there are at least two observations. *)
Definition save_kde_curve (values : list cell) (feature filename_prefix : string)
  : M unit :=
  if 1 <? List.length values then
    kde <- lift (gaussian_kde (numbers values)) ;;
    match Qmin_list (numbers values), Qmax_list (numbers values) with
    | Num lo, Num hi =>
        _save_dataframe_as_text (kde_curve kde lo hi)
          (filename_prefix ++ feature ++ "_kde_curve.txt")
          (feature ++ " KDE Curve Data")
    | _, _ => raise TypeError
    end
  else
    logger WARNING ("Not enough data points to generate KDE curve for '"
                    ++ feature ++ "'.").

Definition plot_feature_distribution
    (df : nat) (feature title x_label : string) (bin_count : nat)
    (filename_prefix : string) : M unit :=
  d <- read_frame df ;;
  if negb (has_column d feature) then
    logger ERROR ("Feature column '" ++ feature ++ "' not found in DataFrame. Skipping plot.")
  else
    let values := series_dropna (series d feature) in
    if (List.length values =? 0) then
      logger WARNING ("No valid data for feature '" ++ feature
                      ++ "'. Skipping distribution plot.")
    else
      require_numeric d feature ;;
      let summary := distribution_summary values in
      _save_dataframe_as_text summary
        (filename_prefix ++ feature ++ "_summary.txt")
        (feature ++ " Distribution Summary") ;;
      save_kde_curve values feature filename_prefix ;;
      feature_histogram df d values feature title x_label bin_count filename_prefix.

Definition plot_distribution_comparison
    (df : nat) (feature title y_label filename_prefix plot_type : string) : M unit :=
  d <- read_frame df ;;
  let required_cols := [feature; "event_name"] in
  if negb (forallb (has_column d) required_cols) then
    logger ERROR ("Missing one or more required columns (" ++ repr_list required_cols
                  ++ ") for distribution comparison plot. Skipping.")
  else
    dropped <- df_dropna df required_cols ;;
    data <- df_copy dropped ;;
    f <- read_frame data ;;
    if empty f then
      logger WARNING ("No valid data for feature '" ++ feature
        ++ "' after filtering NaNs. Skipping distribution comparison plot.")
    else
      require_numeric f feature ;;
      grouped <- new_frame (groupby_agg ["event_name"] feature
                              [Count; Mean; Median; StdDev; Min; Max] f) ;;
      add_bounds grouped ;;
      g <- read_frame grouped ;;
      _save_dataframe_as_text g
        (filename_prefix ++ feature ++ "_" ++ plot_type ++ "_stats.txt")
        (feature ++ " Distribution by Event (" ++ PyStr.title plot_type ++ " Plot Basis)") ;;
      fig <- plt_figure (10, 6) ;;
      if String.eqb plot_type "violin" then
        draw (ViolinPlot f "event_name" feature) ;;
        plt_title title ;;
        plt_xlabel "Event Name" ;;
        plt_ylabel y_label ;;
        save_plot fig (filename_prefix ++ feature ++ "_" ++ plot_type ++ "_extended.png")
      else if String.eqb plot_type "box" then
        draw (BoxPlot f "event_name" feature "event_name") ;;
        plt_title title ;;
        plt_xlabel "Event Name" ;;
        plt_ylabel y_label ;;
        save_plot fig (filename_prefix ++ feature ++ "_" ++ plot_type ++ "_extended.png")
      else
        logger ERROR ("Invalid plot_type '" ++ plot_type
                      ++ "'. Must be 'box' or 'violin'. Skipping plot.") ;;
        plt_close fig.

Definition plot_posting_behavior_hist
    (df : nat) (x_label hue_label title filename : string) : M unit :=
  d <- read_frame df ;;
  if empty d then
    logger WARNING ("DataFrame is empty, skipping histogram plot for " ++ title ++ ".")
  else if negb (has_column d x_label) || negb (has_column d hue_label) then
    logger ERROR ("Missing required columns '" ++ x_label ++ "' or '" ++ hue_label
                  ++ "' for histogram plot. Skipping.")
  else
    fig <- plt_figure (10, 6) ;;
    draw (HistPlot d x_label hue_label false None) ;;
    plt_title title ;;
    plt_xlabel x_label ;;
    plt_ylabel "Count" ;;
    save_plot fig filename.

(** [sns.heatmap(df, annot=True, fmt=...)] on a table of the caller:
    seaborn converts the values to float first, and draws nothing when it
    cannot. *)
Definition heatmap_of_table (d : DataFrame) (fmt : string) : M unit :=
  match heatmap_refusal (entries (as_matrix d)) with
  | Some e => raise e
  | None => draw (Heatmap (as_matrix d) fmt)
  end.

Definition plot_posting_behavior_heatmap (df : nat) (title filename : string) : M unit :=
  d <- read_frame df ;;
  if empty d then
    logger WARNING ("DataFrame is empty, skipping heatmap plot for " ++ title ++ ".")
  else
    fig <- plt_figure (12, 6) ;;
    heatmap_of_table d ".0f" ;;
    plt_title title ;;
    save_plot fig filename.

Definition plot_score_development
    (df : nat) (x_label y_label hue_label title filename : string) : M unit :=
  d <- read_frame df ;;
  if empty d then
    logger WARNING ("DataFrame is empty, skipping score development plot for "
                    ++ title ++ ".")
  else if negb (forallb (has_column d) [x_label; y_label; hue_label]) then
    logger ERROR ("Missing one or more required columns (" ++ x_label ++ ", " ++ y_label
                  ++ ", " ++ hue_label ++ ") for score development plot. Skipping.")
  else
    fig <- plt_figure (10, 6) ;;
    draw (LinePlot d x_label y_label hue_label) ;;
    plt_title title ;;
    plt_xlabel x_label ;;
    plt_ylabel y_label ;;
    save_plot fig filename.

(** [getattr(config, name, [])] *)
Definition getattr (field : option (list string)) : list string :=
  match field with
  | Some l => l
  | None => []
  end.

Definition additional_numerical_cols : list string :=
  ["comment_score"; "post_score"; "post_num_comments"; "upvote_ratio";
   "compound_sentiment"; "word_count"].

(** [list(set(...))]: each name once; Python leaves the order open. *)
Definition all_potential_numerical_cols : list string :=
  nodup string_dec
    (getattr (NUMERICAL_FEATURES config) ++ getattr (BOOLEAN_FEATURES config)
     ++ additional_numerical_cols)%list.

Definition available_numerical_cols (d : DataFrame) : list string :=
  filter (fun col => has_column d col && numeric_column d col)
         all_potential_numerical_cols.

Definition plot_pearson_correlation (df : nat) (filename : string) : M unit :=
  d <- read_frame df ;;
  if empty d then
    logger WARNING "DataFrame is empty, skipping Pearson correlation analysis."
  else
    let available := available_numerical_cols d in
    if List.length available <? 2 then
      logger WARNING ("Not enough numerical columns available for correlation analysis "
                      ++ "(need at least 2). Skipping plot.")
    else
      logger INFO (nl ++ "--- Calculating Pearson Correlations ---") ;;
      let correlation_matrix := corr available d in
      logger INFO ("Correlation Matrix:" ++ nl ++ "%s") ;;
      fig <- plt_figure (12, 10) ;;
      draw (Heatmap correlation_matrix ".2f") ;;
      plt_title "Pearson Correlation Matrix of Numerical Features" ;;
      save_plot fig filename.

Definition plot_eventwise_heatmap
    (df : nat) (index_col value_col title filename : string) : M unit :=
  d <- read_frame df ;;
  let required_cols := [index_col; "event_name"; value_col] in
  if negb (forallb (has_column d) required_cols) then
    logger ERROR ("Missing one or more required columns (" ++ repr_list required_cols
                  ++ ") for event-wise heatmap. Skipping.")
  else
    dropped <- df_dropna df required_cols ;;
    df_filtered <- df_copy dropped ;;
    f <- read_frame df_filtered ;;
    if empty f then
      logger WARNING "No valid data for event-wise heatmap after filtering NaNs. Skipping plot."
    else
      require_numeric f value_col ;;
      let pivot := pivot_mean index_col "event_name" value_col f in
      fig <- plt_figure (10, 6) ;;
      draw (Heatmap pivot ".2f") ;;
      plt_title title ;;
      save_plot fig filename.

Definition plot_boxplot_with_stats
    (df : nat) (x y hue title filename : string) : M unit :=
  d <- read_frame df ;;
  let required_cols := [x; y; hue] in
  if negb (forallb (has_column d) required_cols) then
    logger ERROR ("Missing one or more required columns (" ++ repr_list required_cols
                  ++ ") for boxplot. Skipping.")
  else
    dropped <- df_dropna df required_cols ;;
    df_filtered <- df_copy dropped ;;
    f <- read_frame df_filtered ;;
    if empty f then
      logger WARNING "No valid data for boxplot after filtering NaNs. Skipping plot."
    else
      fig <- plt_figure (12, 6) ;;
      draw (BoxPlot f x y hue) ;;
      plt_title title ;;
      save_plot fig filename.

Definition plot_event_keyword_distribution
    (df : nat) (keyword_col title filename : string) : M unit :=
  d <- read_frame df ;;
  let required_cols := ["event_name"; keyword_col] in
  if negb (forallb (has_column d) required_cols) then
    logger ERROR ("Missing one or more required columns (" ++ repr_list required_cols
                  ++ ") for keyword distribution plot. Skipping.")
  else
    dropped <- df_dropna df required_cols ;;
    df_filtered <- df_copy dropped ;;
    f <- read_frame df_filtered ;;
    if empty f then
      logger WARNING "No valid data for keyword distribution after filtering NaNs. Skipping plot."
    else
      let pivot := pivot_size keyword_col "event_name" f in
      let pivot_percent := percent_of_column pivot in
      fig <- plt_figure (12, 8) ;;
      draw (Heatmap pivot_percent ".1f") ;;
      plt_title title ;;
      plt_ylabel "Keyword" ;;
      save_plot fig filename.

Definition plot_dual_distribution
    (df : nat) (feature1 feature2 title filename : string) : M unit :=
  d <- read_frame df ;;
  let required_cols := [feature1; feature2] in
  if negb (forallb (has_column d) required_cols) then
    logger ERROR ("Missing one or more required columns (" ++ repr_list required_cols
                  ++ ") for dual distribution plot. Skipping.")
  else
    dropped <- df_dropna df required_cols ;;
    df_filtered <- df_copy dropped ;;
    f <- read_frame df_filtered ;;
    if empty f then
      logger WARNING "No valid data for dual distribution after filtering NaNs. Skipping plot."
    else
      fig <- plt_figure (12, 6) ;;
      draw (HistSeries (series f feature1) 30 (Some feature1)) ;;
      draw (HistSeries (series f feature2) 30 (Some feature2)) ;;
      plt_title title ;;
      save_plot fig filename.

Definition plot_keyword_score_heatmap
    (df : nat) (keyword_col score_col filename title : string) : M unit :=
  d <- read_frame df ;;
  let required_cols := [keyword_col; "event_name"; score_col] in
  if negb (forallb (has_column d) required_cols) then
    logger ERROR ("Missing one or more required columns (" ++ repr_list required_cols
                  ++ ") for keyword score heatmap. Skipping.")
  else
    dropped <- df_dropna df required_cols ;;
    df_filtered <- df_copy dropped ;;
    f <- read_frame df_filtered ;;
    if empty f then
      logger WARNING "No valid data for keyword score heatmap after filtering NaNs. Skipping plot."
    else
      require_numeric f score_col ;;
      let pivot := fillna0 (pivot_mean keyword_col "event_name" score_col f) in
      fig <- plt_figure (12, 8) ;;
      draw (Heatmap pivot ".1f") ;;
      plt_title title ;;
      save_plot fig filename.

Definition plot_engagement_per_day
    (df : nat) (time_col engagement_col filename : string) : M unit :=
  d <- read_frame df ;;
  let required_cols := [time_col; engagement_col; "event_name"] in
  if negb (forallb (has_column d) required_cols) then
    logger ERROR ("Missing one or more required columns (" ++ repr_list required_cols
                  ++ ") for engagement per day plot. Skipping.")
  else
    dropped <- df_dropna df required_cols ;;
    df_filtered <- df_copy dropped ;;
    f <- read_frame df_filtered ;;
    if empty f then
      logger WARNING "No valid data for engagement per day after filtering NaNs. Skipping plot."
    else
      times <- lift (to_datetime_all (series f time_col)) ;;
      assign_column df_filtered time_col DDatetime times ;;
      f <- read_frame df_filtered ;;
      assign_column df_filtered "day_of_week" DObject (map day_name (series f time_col)) ;;
      f <- read_frame df_filtered ;;
      require_numeric f engagement_col ;;
      let grouped := groupby_mean ["day_of_week"; "event_name"] engagement_col f in
      let order := day_names in
      fig <- plt_figure (12, 6) ;;
      draw (BarPlot grouped "day_of_week" engagement_col "event_name" (Some order)) ;;
      plt_title ("Average " ++ PyStr.title (replace_underscore engagement_col)
                 ++ " by Day of Week and Event") ;;
      save_plot fig filename.

(** A view together with the arguments of one call. *)
Inductive View :=
| AverageMetricByTimeAndEvent (metric filename_prefix title y_label : string)
| MetricByEventAndType (metric title filename : string)
                       (selected_types : option (list string))
| FeatureDistribution (feature title x_label : string) (bin_count : nat)
                      (filename_prefix : string)
| DistributionComparison (feature title y_label filename_prefix plot_type : string)
| PostingBehaviorHist (x_label hue_label title filename : string)
| PostingBehaviorHeatmap (title filename : string)
| ScoreDevelopment (x_label y_label hue_label title filename : string)
| PearsonCorrelation (filename : string)
| EventwiseHeatmap (index_col value_col title filename : string)
| BoxplotWithStats (x y hue title filename : string)
| EventKeywordDistribution (keyword_col title filename : string)
| DualDistribution (feature1 feature2 title filename : string)
| KeywordScoreHeatmap (keyword_col score_col filename title : string)
| EngagementPerDay (time_col engagement_col filename : string).

Definition run_view (v : View) (df : nat) : M unit :=
  match v with
  | AverageMetricByTimeAndEvent m p t y => plot_average_metric_by_time_and_event df m p t y
  | MetricByEventAndType m t f s => plot_metric_by_event_and_type df m t f s
  | FeatureDistribution f t x b p => plot_feature_distribution df f t x b p
  | DistributionComparison f t y p k => plot_distribution_comparison df f t y p k
  | PostingBehaviorHist x h t f => plot_posting_behavior_hist df x h t f
  | PostingBehaviorHeatmap t f => plot_posting_behavior_heatmap df t f
  | ScoreDevelopment x y h t f => plot_score_development df x y h t f
  | PearsonCorrelation f => plot_pearson_correlation df f
  | EventwiseHeatmap i v t f => plot_eventwise_heatmap df i v t f
  | BoxplotWithStats x y h t f => plot_boxplot_with_stats df x y h t f
  | EventKeywordDistribution k t f => plot_event_keyword_distribution df k t f
  | DualDistribution a b t f => plot_dual_distribution df a b t f
  | KeywordScoreHeatmap k s f t => plot_keyword_score_heatmap df k s f t
  | EngagementPerDay t e f => plot_engagement_per_day df t e f
  end.

(** The columns a view asks for with [dropna(subset=...)]; the three views
    that test [df.empty] instead, and the feature distribution, which drops
    NaN from the one series it reads, have none. *)
Definition required_cols (v : View) : list string :=
  match v with
  | AverageMetricByTimeAndEvent m _ _ _ => [m; "event_name"; "time_period"]
  | MetricByEventAndType m _ _ _ => [m; "event_name"; "post_type"]
  | FeatureDistribution f _ _ _ _ => [f]
  | DistributionComparison f _ _ _ _ => [f; "event_name"]
  | PostingBehaviorHist x h _ _ => [x; h]
  | PostingBehaviorHeatmap _ _ => []
  | ScoreDevelopment x y h _ _ => [x; y; h]
  | PearsonCorrelation _ => []
  | EventwiseHeatmap i v _ _ => [i; "event_name"; v]
  | BoxplotWithStats x y h _ _ => [x; y; h]
  | EventKeywordDistribution k _ _ => ["event_name"; k]
  | DualDistribution a b _ _ => [a; b]
  | KeywordScoreHeatmap k s _ _ => [k; "event_name"; s]
  | EngagementPerDay t e _ => [t; e; "event_name"]
  end.

(** The views that test [df.empty] before they look at the columns. *)
Definition checks_empty_first (v : View) : bool :=
  match v with
  | PostingBehaviorHist _ _ _ _ | PostingBehaviorHeatmap _ _
  | ScoreDevelopment _ _ _ _ _ | PearsonCorrelation _ => true
  | _ => false
  end.


Definition selected_post_types : list string :=
  ["Player Transfer"; "Other"; "Tournament Result"; "Ranking Update"].

(** The two word-count calls of [generate_all_eda_plots]: all post types,
    then the four selected ones. *)
Definition word_count_by_post_type (df : nat) : M unit :=
  plot_metric_by_event_and_type df "word_count"
    "Average Word Count by Post Type and Event"
    "avg_word_count_by_post_type.png" None ;;
  plot_metric_by_event_and_type df "word_count"
    "Average Word Count by Selected Post Types and Event"
    "filtered_avg_word_count_by_post_type_and_event.png"
    (Some selected_post_types).

End Views.

Arguments run_view {E} config v df _.

(* ================================================================== *)
(** ** The tables the views write, as functions of the filtered data *)

Section Tables.

Context {E : Estimators}.

(** A grouped table after the two bound columns are assigned. *)
Definition with_bounds (g : DataFrame) : DataFrame :=
  let g1 := assign "lower_bound" DFloat
              (zip_with cell_sub (series g "mean") (series g "std")) g in
  assign "upper_bound" DFloat
    (zip_with cell_add (series g1 "mean") (series g1 "std")) g1.

Definition time_event_index (f : DataFrame) : list key :=
  from_product (map Str all_periods) (unique (series f "event_name")).

Definition time_event_table (metric : string) (f : DataFrame) : DataFrame :=
  reindex ["time_period"; "event_name"] (time_event_index f)
    (with_bounds (groupby_agg ["time_period"; "event_name"] metric
                    [Mean; StdDev; Median; Count] f)).

Definition type_event_index (f : DataFrame) : list key :=
  from_product (unique (series f "post_type")) (unique (series f "event_name")).

Definition type_event_table (metric : string) (f : DataFrame) : DataFrame :=
  reindex ["post_type"; "event_name"] (type_event_index f)
    (with_bounds (groupby_agg ["post_type"; "event_name"] metric
                    [Mean; StdDev; Median; Count] f)).

Definition comparison_table (feature : string) (f : DataFrame) : DataFrame :=
  with_bounds (groupby_agg ["event_name"] feature
                 [Count; Mean; Median; StdDev; Min; Max] f).

(** The rows the type-and-event view keeps: complete ones, of an allowed
    type when a list of types is given. *)
Definition type_event_rows (metric : string) (selected_types : option (list string))
    (d : DataFrame) : DataFrame :=
  let f := dropna [metric; "event_name"; "post_type"] d in
  if truthy selected_types
  then filter_isin "post_type" (getattr selected_types) f
  else f.

(** The objects the type-and-event view allocates while it filters. *)
Definition type_event_frames (metric : string) (selected_types : option (list string))
    (d : DataFrame) : list DataFrame :=
  let f := dropna [metric; "event_name"; "post_type"] d in
  if truthy selected_types
  then [f; f; filter_isin "post_type" (getattr selected_types) f]
  else [f; f].

Definition type_event_header (metric : string) : string :=
  report_header (PyStr.title (PyStr.replace_underscore metric)
                 ++ " by Post Type and Event").

Definition type_event_figure (metric title : string) (table : DataFrame) : Figure :=
  mkFigure (12, 7) [BarPlot table "post_type" "mean" "event_name" None] title
    EmptyString ("Mean " ++ PyStr.title (PyStr.replace_underscore metric)).

Definition time_event_header (metric : string) : string :=
  report_header ("Average " ++ PyStr.title (PyStr.replace_underscore metric)
                 ++ " by Time Period and Event (incl. Range)").

Definition time_event_figure (title y_label : string) (table : DataFrame) : Figure :=
  mkFigure (10, 6) [BarPlot table "time_period" "mean" "event_name" None] title
    EmptyString y_label.

(** Where the time-and-event view writes its table and its chart. *)
Definition time_event_txt (config : Config) (prefix : string) : string :=
  PyStr.path_join (REPORTS_DIR config) (prefix ++ "_by_time_period_and_event.txt").

Definition time_event_png (config : Config) (prefix : string) : string :=
  PyStr.path_join (FIGURES_DIR config)
    (prefix ++ "_by_time_period_and_event_extended.png").

(** Where the comparison view writes its table, and under which title. *)
Definition comparison_txt (config : Config) (prefix feature plot_type : string) : string :=
  PyStr.path_join (REPORTS_DIR config)
    (prefix ++ feature ++ "_" ++ plot_type ++ "_stats.txt").

Definition comparison_header (feature plot_type : string) : string :=
  report_header (feature ++ " Distribution by Event (" ++ PyStr.title plot_type
                 ++ " Plot Basis)").

(** Where the feature distribution writes its two tables and its chart. *)
Definition summary_txt (config : Config) (prefix feature : string) : string :=
  PyStr.path_join (REPORTS_DIR config) (prefix ++ feature ++ "_summary.txt").

Definition kde_txt (config : Config) (prefix feature : string) : string :=
  PyStr.path_join (REPORTS_DIR config) (prefix ++ feature ++ "_kde_curve.txt").


Definition kde_header (feature : string) : string :=
  report_header (feature ++ " KDE Curve Data").

Definition histogram_png (config : Config) (prefix feature : string) : string :=
  PyStr.path_join (FIGURES_DIR config) (prefix ++ feature ++ "_histogram_extended.png").

(** Where the type-and-event view writes its table. *)
Definition type_event_txt (config : Config) (metric : string) : string :=
  PyStr.path_join (REPORTS_DIR config) (metric ++ "_by_post_type_and_event.txt").

(** The frame the day-of-week view groups: the complete rows, the time
    column converted and the day name added. *)
Definition with_day_of_week (time_col : string) (times : list cell) (f : DataFrame)
  : DataFrame :=
  let f1 := assign time_col DDatetime times f in
  assign "day_of_week" DObject (map day_name (series f1 time_col)) f1.

(** A table whose rows all have one cell per column. *)
Definition rect (g : DataFrame) : Prop :=
  Forall (fun r => List.length r = List.length (columns g)) (rows g).

(** In every row, the two bound columns hold mean - std and mean + std. *)
Definition bounds_hold (mean_col std_col lower upper : string) (t : DataFrame) : Prop :=
  forall r, In r (rows t) ->
    get t r lower = cell_sub (get t r mean_col) (get t r std_col)
    /\ get t r upper = cell_add (get t r mean_col) (get t r std_col).

(** No row of the table has the key [k] in the columns [by_cols]. *)
Definition no_row_with (by_cols : list string) (k : key) (f : DataFrame) : bool :=
  forallb (fun r => negb (key_eqb (row_key f by_cols r) k)) (rows f).

(** The table has the four columns and the bounds hold in every row. *)
Definition has_bounds (t : DataFrame) : Prop :=
  forallb (has_column t) ["mean"; "std"; "lower_bound"; "upper_bound"] = true
  /\ bounds_hold "mean" "std" "lower_bound" "upper_bound" t.

Definition summary_has_bounds (t : DataFrame) : Prop :=
  forallb (has_column t) ["Mean"; "Std"; "Lower Bound (Mean - Std)";
                          "Upper Bound (Mean + Std)"] = true
  /\ bounds_hold "Mean" "Std" "Lower Bound (Mean - Std)" "Upper Bound (Mean + Std)" t.

(** The table has one row per entry of [idx], in the order of [idx], keyed
    by that entry in its first two columns, and NaN in its six statistics
    when the data [f] has no row with that key. *)
Definition covers (by_cols : list string) (idx : list key) (f t : DataFrame) : Prop :=
  map (firstn 2) (rows t) = idx
  /\ forall i k, nth_error idx i = Some k ->
       no_row_with by_cols k f = true ->
       nth_error (rows t) i = Some (k ++ [NA; NA; NA; NA; NA; NA])%list.

(** The rows of the tables drawn on an image. *)
Definition chart_rows (c : Chart) : list (list cell) :=
  match c with
  | BarPlot data _ _ _ _ | CountPlot data _ _ _ | HistPlot data _ _ _ _
  | ViolinPlot data _ _ | BoxPlot data _ _ _ | LinePlot data _ _ _ => rows data
  | HistSeries _ _ _ | Heatmap _ _ => []
  end.

Definition plotted_rows (c : file) : list (list (list cell)) :=
  match c with
  | PngFile fig _ => map chart_rows (charts fig)
  | TextFile _ _ => []
  end.

(** The rows of the tables on the images of a disk, newest first. *)
Definition plotted_rows_of (d : list (string * file)) : list (list (list cell)) :=
  flat_map (fun pc => plotted_rows (snd pc)) d.

(** The categories on the x axis of a bar chart, in drawing order: seaborn
    takes [order] when it is given, else the values in order of appearance. *)
Definition x_categories (c : Chart) : list cell :=
  match c with
  | BarPlot data x _ _ (Some order) => map Str order
  | BarPlot data x _ _ None => unique (series_dropna (series data x))
  | CountPlot _ _ _ order => map Str order
  | _ => []
  end.

End Tables.

(* ================================================================== *)
(** ** Rational stand-ins for the estimators, to run the views *)

Module Sample.

(** The sample variance, [ddof = 1]. *)
Definition variance (l : list Q) : Q :=
  match mean l with
  | Num m => Qred (Qsum (map (fun x => (x - m) * (x - m)) l) / (Qlen l - 1))
  | _ => 0
  end%Q.

(** The square root, rounded down to six decimals. *)
Definition sqrt6 (q : Q) : Q :=
  Qred (inject_Z (Z.sqrt (Qfloor (q * 1000000000000))) / 1000000)%Q.

Definition std (l : list Q) : cell :=
  if List.length l <? 2 then NA else Num (sqrt6 (variance l)).

Definition covariance (a b : list Q) : Q :=
  match mean a, mean b with
  | Num ma, Num mb =>
      Qred (Qsum (map (fun p => (fst p - ma) * (snd p - mb)) (combine a b)) / (Qlen a - 1))
  | _, _ => 0
  end%Q.

Definition pearson (a b : list cell) : cell :=
  let x := numbers a in
  let y := numbers b in
  let s := (sqrt6 (variance x) * sqrt6 (variance y))%Q in
  if (List.length x <? 2) || Qeq_bool s 0 then NA
  else Num (Qred (covariance x y / s)).

(** A kernel estimate with the rational kernel [1 / (1 + u * u)]. *)
Definition kernel_density (sample : list Q) (x : Q) : Q :=
  Qred (Qsum (map (fun s => 1 / (1 + (x - s) * (x - s))) sample) / Qlen sample)%Q.

(** What seaborn does with one value: text is refused with a [ValueError],
    a time stamp among other values with a [TypeError]. *)
Definition refusal (c : cell) : option exn :=
  match c with
  | Str _ => Some ValueError
  | Stamp _ => Some TypeError
  | _ => None
  end.

(** The first refusal, row by row. *)
Definition heatmap_refusal (values : list (list cell)) : option exn :=
  fold_right (fun c later => match refusal c with
                             | Some e => Some e
                             | None => later
                             end)
             None (List.concat values).

(** The stand-ins agree with the libraries on the sample tables below,
    whose numbers are small integers: there a covariance is singular
    exactly when the points are all equal.  No text is read as a date. *)
Definition estimators : Estimators :=
  Build_Estimators std pearson kernel_density all_equal (fun _ => None) heatmap_refusal.

Definition config : Config := mkConfig "figures" "reports" None None.

(** A world that holds the given tables and nothing else. *)
Definition world (frames : list DataFrame) (ok : string -> bool) : World :=
  mkWorld frames [] [] [] 1 ok.

Definition accept_all (p : string) : bool := true.
Definition refuse_all (p : string) : bool := false.

(** Three comments on two events; day 0 was a Thursday, day 1 a Friday. *)
Definition comments : DataFrame :=
  mkDF [("event_name", DObject); ("time_period", DObject); ("post_type", DObject);
        ("comment_score", DInt); ("word_count", DInt); ("created_utc", DDatetime)]
       [[Str "A"; Str "Before Event"; Str "Other"; Num 1; Num 10; Stamp 0];
        [Str "B"; Str "During Event"; Str "News"; Num 3; Num 20; Stamp 86400];
        [Str "A"; Str "Before Event"; Str "Other"; Num 4; Num 30; Stamp 0]].


(** One comment. *)
Definition single_score : DataFrame :=
  mkDF [("comment_score", DInt)] [[Num 5]].

(** A table with its columns and no rows. *)
Definition no_rows : DataFrame :=
  mkDF [("comment_score", DInt)] [].

(** Posts per weekday, already counted: numbers only. *)
Definition counts : DataFrame :=
  mkDF [("Monday", DInt); ("Tuesday", DInt)] [[Num 1; Num 2]; [Num 3; Num 0]].


(** A title of four characters in five bytes: the word Cafe with an acute
    accent on its last letter, which UTF-8 writes as 195, 169. *)
Definition cafe : string :=
  "Caf" ++ String (ascii_of_nat 195) (String (ascii_of_nat 169) EmptyString).

Definition w0 : World := world [comments] accept_all.

End Sample.

(* ================================================================== *)
(** ** What a computation may do to the figures and to the heap *)

(** The computation leaves pyplot's registry alone, whatever it returns. *)
Definition keeps_figures {A} (m : M A) : Prop :=
  forall w, figures (exec m w) = figures w.

(** The computation at most draws on figure [n], the current one. *)
Definition draws_on (n : nat) {A} (m : M A) : Prop :=
  forall w g rest, figures w = (n, g) :: rest ->
    exists g', figures (exec m w) = (n, g') :: rest.

(** The computation, when it returns, has closed figure [n], the current one. *)
Definition closes (n : nat) {A} (m : M A) : Prop :=
  forall w g rest a, figures w = (n, g) :: rest ->
    outcome m w = Ok a -> figures (exec m w) = rest.

(** The computation, when it returns, leaves open the figures it found. *)
Definition balanced {A} (m : M A) : Prop :=
  forall w a, outcome m w = Ok a -> figures (exec m w) = figures w.

(** The computation leaves the heap alone. *)
Definition keeps_heap {A} (m : M A) : Prop :=
  forall w, heap (exec m w) = heap w.

(** The computation leaves the first [n] objects of the heap as they are
    and, when it returns, returns a value that satisfies [P]. *)
Definition heap_safe (n : nat) {A} (P : A -> Prop) (m : M A) : Prop :=
  forall w, n <= List.length (heap w) ->
    n <= List.length (heap (exec m w))
    /\ firstn n (heap (exec m w)) = firstn n (heap w)
    /\ forall a, outcome m w = Ok a -> P a.

(** The view returned, wrote no file and logged one record, at level [lvl]. *)
Definition skipped (lvl : level) (m : M unit) (w : World) : Prop :=
  outcome m w = Ok tt
  /\ disk (exec m w) = disk w
  /\ exists msg, log (exec m w) = (lvl, msg) :: log w.

Definition fresh (n : nat) (r : nat) : Prop := n <= r.
Definition any {A} (a : A) : Prop := True.

(* ================================================================== *)
(** ** What a computation may write and report *)





(** A write is an image at 300 dpi to the path [png], or a table to one of
    the paths [txts]. *)
Definition report_file (png : string) (txts : list string) (e : string * file) : Prop :=
  match snd e with
  | PngFile _ dpi => dpi = 300 /\ fst e = png
  | TextFile _ _ => In (fst e) txts
  end.

(** The computation only adds writes of these two kinds to the disk. *)
Definition writes_reports (png : string) (txts : list string) {A} (m : M A) : Prop :=
  forall w, exists written,
    disk (exec m w) = (written ++ disk w)%list
    /\ Forall (report_file png txts) written.

Definition is_png (e : string * file) : bool :=
  match snd e with
  | PngFile _ _ => true
  | TextFile _ _ => false
  end.

(** The images among the writes, newest first. *)
Definition images (d : list (string * file)) : list (string * file) :=
  filter is_png d.

(** The computation writes no image. *)
Definition keeps_images {A} (m : M A) : Prop :=
  forall w, images (disk (exec m w)) = images (disk w).

(** The computation, when it returns, has either written one image and
    confirmed it in its last log record, or written no image and ended on
    a warning or an error. *)
Definition saved_or_skipped {A} (m : M A) : Prop :=
  forall w a, outcome m w = Ok a ->
    (exists p g l,
        images (disk (exec m w)) = (p, PngFile g 300) :: images (disk w)
        /\ log (exec m w) = (INFO, "Plot saved to: " ++ p) :: l)
    \/ (exists lvl msg l,
           log (exec m w) = (lvl, msg) :: l
           /\ lvl <> INFO
           /\ images (disk (exec m w)) = images (disk w)).

(** The computation neither opens nor closes a figure, nor draws. *)
Definition pyplot_idle {A} (m : M A) : Prop :=
  forall w, figures (exec m w) = figures w /\ next_fig (exec m w) = next_fig w.

(** The computation closes figure [n], the current one, or raises and
    leaves it open; the figures below it stay as they are. *)
Definition settles (n : nat) {A} (m : M A) : Prop :=
  forall w g rest, figures w = (n, g) :: rest ->
    figures (exec m w) = rest
    \/ exists g' e, figures (exec m w) = (n, g') :: rest /\ outcome m w = Raise e.

(** The computation leaves the open figures as they are, or raises and
    leaves the one it opened on top of them. *)
Definition own_figure {A} (m : M A) : Prop :=
  forall w,
    figures (exec m w) = figures w
    \/ exists g e, figures (exec m w) = (next_fig w, g) :: figures w
                   /\ outcome m w = Raise e.

(** The column whose statistics a view computes before it writes, for the
    six views that compute statistics of their own. *)
Definition averaged_column (v : View) : option string :=
  match v with
  | AverageMetricByTimeAndEvent m _ _ _ => Some m
  | MetricByEventAndType m _ _ _ => Some m
  | FeatureDistribution f _ _ _ _ => Some f
  | DistributionComparison f _ _ _ _ => Some f
  | EventwiseHeatmap _ v _ _ => Some v
  | KeywordScoreHeatmap _ s _ _ => Some s
  | _ => None
  end.

(** Whether a cell holds text. *)
Definition is_text (c : cell) : bool :=
  match c with
  | Str _ => true
  | _ => false
  end.

(** The rows a view keeps of the caller's table. *)
Definition kept_rows (v : View) (d : DataFrame) : DataFrame :=
  match v with
  | MetricByEventAndType m _ _ sel => type_event_rows m sel d
  | _ => dropna (required_cols v) d
  end.

(** The world a view leaves that allocated [frames], saved [fig] under
    [filename] and logged the confirmation of [save_plot]. *)
Definition after_saving (config : Config) (frames : list DataFrame) (fig : Figure)
    (filename : string) (w : World) : World :=
  let path := PyStr.path_join (FIGURES_DIR config) filename in
  mkWorld (heap w ++ frames) ((path, PngFile fig 300) :: disk w)
    ((INFO, "Plot saved to: " ++ path) :: log w)
    (figures w) (S (next_fig w)) (writable w).

(** Column [j] of a matrix, top to bottom. *)
Definition column (j : nat) (m : Matrix) : list cell :=
  map (fun r => nth j r NA) (entries m).

(** The number of rows with [a] in column [i] and [b] in column [c]: an
    entry of [pivot_size]. *)
Definition tally (i c : string) (f : DataFrame) (a b : cell) : Q :=
  inject_Z (Z.of_nat (List.length (group_rows [i; c] f [a; b]))).

(** The entry in row [i] and column [j] of a matrix. *)
Definition entry (i j : nat) (m : Matrix) : cell :=
  nth j (nth i (entries m) []) NA.

(** Keys in the order [groupby] sorts them. *)
Fixpoint ascending (l : list key) : bool :=
  match l with
  | a :: (b :: _) as l' => key_leb a b && ascending l'
  | _ => true
  end.

(** No two keys of the list are equal. *)
Fixpoint distinct_keys (l : list key) : bool :=
  match l with
  | [] => true
  | k :: l' => negb (key_mem k l') && distinct_keys l'
  end.

(** The six statistics of a group, as a row of the two reindexed tables
    lists them. *)
Definition six_statistics `{Estimators} (vals : list cell) : list cell :=
  [mean (numbers vals); std (numbers vals); median (numbers vals); count vals;
   cell_sub (mean (numbers vals)) (std (numbers vals));
   cell_add (mean (numbers vals)) (std (numbers vals))].

(** The histogram of the feature distribution: split by event when the
    dataset names more than one event and some row has both the feature
    and its event, a single series of the observations otherwise. *)
Definition histogram_chart (d : DataFrame) (feature : string) (bin_count : nat) : Chart :=
  let f := dropna [feature; "event_name"] d in
  if has_column d "event_name" && (1 <? nunique (series d "event_name"))
     && negb (empty f)
  then HistPlot f feature "event_name" true (Some bin_count)
  else HistSeries (series_dropna (series d feature)) bin_count None.

(* ================================================================== *)
(** ** Running a view step by step *)

Lemma nth_new {A} (l : list A) x d : nth (List.length l) (l ++ [x]) d = x.
Proof. induction l; simpl; auto. Qed.

Lemma update_nth_new {A} (f : A -> A) (l : list A) x :
  update_nth (List.length l) f (l ++ [x]) = (l ++ [f x])%list.
Proof. induction l; simpl; congruence. Qed.

Lemma remove_figure_head n g l : remove_figure n ((n, g) :: l) = l.
Proof. simpl. now rewrite Nat.eqb_refl. Qed.

Lemma lookup_figure_head n g l : lookup_figure n ((n, g) :: l) = Some g.
Proof. simpl. now rewrite Nat.eqb_refl. Qed.

Section Run.

Context {A B : Type}.
Implicit Types (w : World) (k : A -> M B).

Lemma run_ret (a : A) k w : (x <- ret a ;; k x) w = k a w.
Proof. reflexivity. Qed.

Lemma run_assoc {C} (m : M C) (f : C -> M A) k w :
  (x <- (y <- m ;; f y) ;; k x) w = (y <- m ;; x <- f y ;; k x) w.
Proof. unfold bind. destruct (m w) as [[c|e] w']; reflexivity. Qed.

Lemma run_raise e k w : (x <- raise e ;; k x) w = (Raise e, w).
Proof. reflexivity. Qed.

Lemma run_lift (r : result A) k w :
  (x <- lift r ;; k x) w
  = match r with
    | Ok a => k a w
    | Raise e => (Raise e, w)
    end.
Proof. unfold bind, lift. now destruct r. Qed.

Lemma run_read r (k : DataFrame -> M B) w :
  (x <- read_frame r ;; k x) w = k (nth r (heap w) (mkDF [] [])) w.
Proof. reflexivity. Qed.

Lemma run_new d (k : nat -> M B) w :
  (x <- new_frame d ;; k x) w = k (List.length (heap w)) (with_heap (heap w ++ [d]) w).
Proof. reflexivity. Qed.

Lemma run_logger lvl msg (k : unit -> M B) w :
  (x <- logger lvl msg ;; k x) w = k tt (with_log ((lvl, msg) :: log w) w).
Proof. reflexivity. Qed.

Lemma run_assign r name d vs (k : unit -> M B) w :
  (x <- assign_column r name d vs ;; k x) w
  = k tt (with_heap (update_nth r (assign name d vs) (heap w)) w).
Proof. reflexivity. Qed.

Lemma run_figure size (k : nat -> M B) w :
  (x <- plt_figure size ;; k x) w
  = k (next_fig w)
      (with_figures ((next_fig w, blank size) :: figures w) (S (next_fig w)) w).
Proof. reflexivity. Qed.

Lemma run_close fig (k : unit -> M B) w :
  (x <- plt_close fig ;; k x) w
  = k tt (with_figures (remove_figure fig (figures w)) (next_fig w) w).
Proof. reflexivity. Qed.

Lemma run_on_current f n g rest (k : unit -> M B) w :
  figures w = (n, g) :: rest ->
  (x <- on_current f ;; k x) w = k tt (with_figures ((n, f g) :: rest) (next_fig w) w).
Proof. intros H. unfold bind, on_current. now rewrite H. Qed.

Lemma run_write p c (k : unit -> M B) w :
  writable w p = true ->
  (x <- write_file p c ;; k x) w = k tt (with_disk ((p, c) :: disk w) w).
Proof. intros H. unfold bind, write_file. now rewrite H. Qed.

Lemma run_write_refused p c (k : unit -> M B) w :
  writable w p = false ->
  (x <- write_file p c ;; k x) w = (Raise (OSError p), w).
Proof. intros H. unfold bind, write_file. now rewrite H. Qed.

End Run.

Ltac world_simpl :=
  cbn [heap disk log figures next_fig writable
       with_heap with_disk with_log with_figures];
  rewrite ?nth_new, ?update_nth_new.

Ltac step :=
  first [ rewrite run_assoc | rewrite run_ret | rewrite run_raise | rewrite run_read
        | rewrite run_new | rewrite run_logger | rewrite run_assign
        | rewrite run_figure | rewrite run_close ];
  world_simpl.

Ltac draw_step :=
  unfold draw, plt_title, plt_xlabel, plt_ylabel;
  erewrite run_on_current by reflexivity;
  world_simpl;
  cbn [figsize charts fig_title fig_xlabel fig_ylabel blank app].

Section RunBlocks.

Context {E : Estimators} (config : Config).

(** The private filtered copy a filtering view starts from. *)
Lemma run_filtered {B} df subset (k : nat -> M B) w :
  (dropped <- df_dropna df subset ;; c <- df_copy dropped ;; k c) w
  = let f := dropna subset (nth df (heap w) (mkDF [] [])) in
    k (List.length (heap w ++ [f])) (with_heap ((heap w ++ [f]) ++ [f]) w).
Proof. unfold df_dropna, df_copy. repeat step. reflexivity. Qed.

(** The grouped table is a new object; the bounds are assigned in place. *)
Lemma run_bounds {B} g (k : DataFrame -> M B) w :
  (r <- new_frame g ;; add_bounds r ;; t <- read_frame r ;; k t) w
  = k (with_bounds g) (with_heap (heap w ++ [with_bounds g]) w).
Proof. unfold add_bounds. repeat step. reflexivity. Qed.

Lemma run_save_text {B} t filename title (k : unit -> M B) w :
  let path := PyStr.path_join (REPORTS_DIR config) filename in
  writable w path = true ->
  (x <- _save_dataframe_as_text config t filename title ;; k x) w
  = k tt (with_log ((INFO, "Table data saved to: " ++ path) :: log w)
            (with_disk ((path, TextFile (report_header title) t) :: disk w) w)).
Proof.
  intros path H. unfold _save_dataframe_as_text. fold path.
  rewrite run_assoc, run_write by exact H. step. reflexivity.
Qed.

Lemma run_save_text_refused {B} t filename title (k : unit -> M B) w :
  let path := PyStr.path_join (REPORTS_DIR config) filename in
  writable w path = false ->
  (x <- _save_dataframe_as_text config t filename title ;; k x) w
  = (Raise (OSError path), w).
Proof.
  intros path H. unfold _save_dataframe_as_text. fold path.
  now rewrite run_assoc, run_write_refused by exact H.
Qed.

(** [save_plot] on the current figure, when the file system takes the write. *)
Lemma save_plot_done n g rest filename w :
  let path := PyStr.path_join (FIGURES_DIR config) filename in
  figures w = (n, g) :: rest ->
  writable w path = true ->
  save_plot config n filename w
  = (Ok tt, with_log ((INFO, "Plot saved to: " ++ path) :: log w)
              (with_figures rest (next_fig w)
                 (with_disk ((path, PngFile g 300) :: disk w) w))).
Proof.
  intros path Hf Hw. unfold save_plot. fold path.
  unfold bind at 1. unfold savefig. rewrite Hf, lookup_figure_head.
  unfold write_file. rewrite Hw. step.
  unfold logger. world_simpl. rewrite Hf, remove_figure_head. reflexivity.
Qed.

Lemma save_plot_refused n g rest filename w :
  let path := PyStr.path_join (FIGURES_DIR config) filename in
  figures w = (n, g) :: rest ->
  writable w path = false ->
  save_plot config n filename w = (Raise (OSError path), w).
Proof.
  intros path Hf Hw. unfold save_plot. fold path.
  unfold bind at 1. unfold savefig. rewrite Hf, lookup_figure_head.
  unfold write_file. now rewrite Hw.
Qed.

End RunBlocks.

(* ================================================================== *)
(** ** The distribution comparison and its mode flag *)

Section DistributionComparison.

Context {E : Estimators} (config : Config).

(** What the view does with a mode it does not know, once the data passed
    the checks: the statistics are already on disk when the mode is tested. *)
Lemma distribution_comparison_unknown_mode df feature title y_label prefix plot_type w :
  let d := nth df (heap w) (mkDF [] []) in
  let f := dropna [feature; "event_name"] d in
  let stats := PyStr.path_join (REPORTS_DIR config)
                 (prefix ++ feature ++ "_" ++ plot_type ++ "_stats.txt") in
  forallb (has_column d) [feature; "event_name"] = true ->
  empty f = false ->
  numeric_column f feature = true ->
  writable w stats = true ->
  String.eqb plot_type "violin" = false ->
  String.eqb plot_type "box" = false ->
  plot_distribution_comparison config df feature title y_label prefix plot_type w
  = (Ok tt,
     mkWorld (heap w ++ [f; f; comparison_table feature f])
       ((stats,
         TextFile (report_header (feature ++ " Distribution by Event ("
                                  ++ PyStr.title plot_type ++ " Plot Basis)"))
                  (comparison_table feature f)) :: disk w)
       ((ERROR, "Invalid plot_type '" ++ plot_type
                ++ "'. Must be 'box' or 'violin'. Skipping plot.")
        :: (INFO, "Table data saved to: " ++ stats) :: log w)
       (figures w) (S (next_fig w)) (writable w)).
Proof.
  intros d f stats Hc He Hn Hw Hv Hb.
  unfold plot_distribution_comparison.
  step. fold d. rewrite Hc. cbn [negb].
  rewrite run_filtered. cbv zeta. fold d. fold f.
  step. rewrite He.
  unfold require_numeric. rewrite Hn. step.
  rewrite run_bounds. fold (comparison_table feature f).
  rewrite (run_save_text config) by exact Hw. fold stats.
  step. rewrite Hv, Hb. step.
  unfold plt_close. world_simpl. rewrite remove_figure_head.
  unfold with_figures. world_simpl. rewrite <- !app_assoc. reflexivity.
Qed.

End DistributionComparison.

(** C3, as the code has it: with a mode other than 'box' and 'violin', on
    data that passed the column and NaN checks, the view returns normally,
    logs the error and writes no chart image; the statistics table, named
    after the given mode, is written before the mode is tested and stays on
    disk; the figure it opened is closed. *)
Theorem invalid_plot_type_skips_chart_only :
  forall (E : Estimators) (config : Config)
         (df : nat) (feature title y_label prefix plot_type : string) (w : World),
    forallb (has_column (nth df (heap w) (mkDF [] []))) [feature; "event_name"] = true ->
    empty (dropna [feature; "event_name"] (nth df (heap w) (mkDF [] []))) = false ->
    numeric_column (dropna [feature; "event_name"] (nth df (heap w) (mkDF [] []))) feature
      = true ->
    writable w (PyStr.path_join (REPORTS_DIR config)
                  (prefix ++ feature ++ "_" ++ plot_type ++ "_stats.txt")) = true ->
    String.eqb plot_type "violin" = false ->
    String.eqb plot_type "box" = false ->
    outcome (plot_distribution_comparison config df feature title y_label prefix plot_type) w
      = Ok tt
    /\ disk (exec (plot_distribution_comparison config df feature title y_label prefix
                     plot_type) w)
       = (PyStr.path_join (REPORTS_DIR config)
            (prefix ++ feature ++ "_" ++ plot_type ++ "_stats.txt"),
          TextFile (report_header (feature ++ " Distribution by Event ("
                                   ++ PyStr.title plot_type ++ " Plot Basis)"))
            (comparison_table feature
               (dropna [feature; "event_name"] (nth df (heap w) (mkDF [] [])))))
         :: disk w
    /\ log (exec (plot_distribution_comparison config df feature title y_label prefix
                    plot_type) w)
       = (ERROR, "Invalid plot_type '" ++ plot_type
                 ++ "'. Must be 'box' or 'violin'. Skipping plot.")
         :: (INFO, "Table data saved to: "
                   ++ PyStr.path_join (REPORTS_DIR config)
                        (prefix ++ feature ++ "_" ++ plot_type ++ "_stats.txt"))
         :: log w
    /\ figures (exec (plot_distribution_comparison config df feature title y_label prefix
                        plot_type) w)
       = figures w.
Proof.
  intros E config df feature title y_label prefix plot_type w Hc He Hn Hw Hv Hb.
  unfold outcome, exec.
  rewrite (distribution_comparison_unknown_mode config df feature title y_label prefix
             plot_type w Hc He Hn Hw Hv Hb).
  cbn. repeat split; reflexivity.
Qed.

Lemma invalid_plot_type_skips_chart_only_witness :
  outcome (@plot_distribution_comparison Sample.estimators Sample.config 0
             "comment_score" "Scores" "Score" "dist_comp_" "scatter") Sample.w0
  = Ok tt
  /\ figures (exec (@plot_distribution_comparison Sample.estimators Sample.config 0
                      "comment_score" "Scores" "Score" "dist_comp_" "scatter") Sample.w0)
     = figures Sample.w0.
Proof.
  pose proof (invalid_plot_type_skips_chart_only Sample.estimators Sample.config 0
                "comment_score" "Scores" "Score" "dist_comp_" "scatter" Sample.w0
                eq_refl eq_refl eq_refl eq_refl eq_refl eq_refl) as H.
  split; [exact (proj1 H) | exact (proj2 (proj2 (proj2 H)))].
Defined.

(** C3 fails as stated: a call with the mode "scatter" leaves a file behind,
    the statistics table. *)
Lemma invalid_plot_type_writes_stats_file :
  disk Sample.w0 = []
  /\ outcome (@plot_distribution_comparison Sample.estimators Sample.config 0
                "comment_score" "Scores" "Score" "dist_comp_" "scatter") Sample.w0
     = Ok tt
  /\ map fst (disk (exec (@plot_distribution_comparison Sample.estimators Sample.config 0
                            "comment_score" "Scores" "Score" "dist_comp_" "scatter")
                         Sample.w0))
     = ["reports/dist_comp_comment_score_scatter_stats.txt"].
Proof. vm_compute. repeat split; reflexivity. Qed.

(* ================================================================== *)
(** ** Figures are closed on return *)

Create HintDb figs.

Section Figures.

Context {E : Estimators} (config : Config).

Lemma keeps_ret {A} (a : A) : keeps_figures (ret a).
Proof. intros w. reflexivity. Qed.

Lemma keeps_raise {A} e : keeps_figures (@raise A e).
Proof. intros w. reflexivity. Qed.

Lemma keeps_lift {A} (r : result A) : keeps_figures (lift r).
Proof. intros w. reflexivity. Qed.

Lemma keeps_logger lvl msg : keeps_figures (logger lvl msg).
Proof. intros w. reflexivity. Qed.

Lemma keeps_write p c : keeps_figures (write_file p c).
Proof. intros w. unfold exec, write_file. now destruct (writable w p). Qed.

Lemma keeps_new d : keeps_figures (new_frame d).
Proof. intros w. reflexivity. Qed.

Lemma keeps_read r : keeps_figures (read_frame r).
Proof. intros w. reflexivity. Qed.

Lemma keeps_assign r name d vs : keeps_figures (assign_column r name d vs).
Proof. intros w. reflexivity. Qed.

Lemma keeps_bind {A B} (m : M A) (k : A -> M B) :
  keeps_figures m -> (forall a, keeps_figures (k a)) -> keeps_figures (bind m k).
Proof.
  intros Hm Hk w. specialize (Hm w). unfold exec, bind in *.
  destruct (m w) as [[a|e] w1]; cbn in *; [|exact Hm].
  rewrite <- Hm. apply (Hk a w1).
Qed.

Lemma keeps_draws n {A} (m : M A) : keeps_figures m -> draws_on n m.
Proof. intros H w g rest Hf. exists g. now rewrite H. Qed.

Lemma draws_on_current n f : draws_on n (on_current f).
Proof.
  intros w g rest Hf. unfold exec, on_current. rewrite Hf. cbn. eauto.
Qed.

Lemma draws_bind n {A B} (m : M A) (k : A -> M B) :
  draws_on n m -> (forall a, draws_on n (k a)) -> draws_on n (bind m k).
Proof.
  intros Hm Hk w g rest Hf. destruct (Hm w g rest Hf) as [g1 H1].
  unfold exec, bind in *. destruct (m w) as [[a|e] w1]; cbn in *; [|eauto].
  apply (Hk a w1 g1 rest H1).
Qed.

Lemma closes_bind n {A B} (m : M A) (k : A -> M B) :
  draws_on n m -> (forall a, closes n (k a)) -> closes n (bind m k).
Proof.
  intros Hm Hk w g rest b Hf. destruct (Hm w g rest Hf) as [g1 H1].
  unfold outcome, exec, bind in *. destruct (m w) as [[a|e] w1]; cbn in *.
  - apply (Hk a w1 g1 rest b H1).
  - discriminate.
Qed.

Lemma closes_close n : closes n (plt_close n).
Proof.
  intros w g rest a Hf _. unfold exec, plt_close. cbn. now rewrite Hf, remove_figure_head.
Qed.

Lemma closes_save_plot n filename : closes n (save_plot config n filename).
Proof.
  intros w g rest a Hf. unfold outcome, exec.
  destruct (writable w (PyStr.path_join (FIGURES_DIR config) filename)) eqn:Hw.
  - rewrite (save_plot_done config n g rest filename w Hf Hw). reflexivity.
  - rewrite (save_plot_refused config n g rest filename w Hf Hw). discriminate.
Qed.

Lemma keeps_balanced {A} (m : M A) : keeps_figures m -> balanced m.
Proof. intros H w a _. apply H. Qed.

Lemma balanced_bind {A B} (m : M A) (k : A -> M B) :
  keeps_figures m -> (forall a, balanced (k a)) -> balanced (bind m k).
Proof.
  intros Hm Hk w b. specialize (Hm w). unfold outcome, exec, bind in *.
  destruct (m w) as [[a|e] w1]; cbn in *; [|discriminate].
  intros H. rewrite <- Hm. apply (Hk a w1 b H).
Qed.

Lemma balanced_figure {B} size (k : nat -> M B) :
  (forall n, closes n (k n)) -> balanced (bind (plt_figure size) k).
Proof.
  intros Hk w b. unfold outcome, exec. rewrite run_figure.
  apply (Hk (next_fig w) _ (blank size) (figures w) b). reflexivity.
Qed.

#[local] Hint Resolve keeps_ret keeps_raise keeps_lift keeps_logger keeps_write keeps_new
  keeps_read keeps_assign closes_close closes_save_plot draws_on_current : figs.

Ltac figs :=
  repeat first
    [ progress cbv zeta
    | solve [auto with figs]
    | match goal with
      | |- _ (if ?c then _ else _) => destruct c
      | |- _ (match ?c with _ => _ end) => destruct c
      | |- keeps_figures (bind _ _) => apply keeps_bind; [ | intros ?]
      | |- draws_on _ (bind _ _) => apply draws_bind; [ | intros ?]
      | |- closes _ (bind _ _) => apply closes_bind; [ | intros ?]
      | |- balanced (bind (plt_figure _) _) => apply balanced_figure; intros ?
      | |- balanced (bind _ _) => apply balanced_bind; [ | intros ?]
      | |- balanced _ => apply keeps_balanced
      | |- draws_on _ _ => apply keeps_draws
      end ].

Lemma keeps_save_text t filename title :
  keeps_figures (_save_dataframe_as_text config t filename title).
Proof. unfold _save_dataframe_as_text. figs. Qed.

Lemma keeps_dropna r subset : keeps_figures (df_dropna r subset).
Proof. unfold df_dropna. figs. Qed.

Lemma keeps_copy r : keeps_figures (df_copy r).
Proof. unfold df_copy. figs. Qed.

Lemma keeps_require d c : keeps_figures (require_numeric d c).
Proof. unfold require_numeric. figs. Qed.

Lemma keeps_bounds r : keeps_figures (add_bounds r).
Proof. unfold add_bounds. figs. Qed.

#[local] Hint Resolve keeps_save_text keeps_dropna keeps_copy keeps_require keeps_bounds : figs.

Lemma view_balanced v df : balanced (run_view config v df).
Proof.
  destruct v; cbn [run_view].
  all: unfold plot_average_metric_by_time_and_event, plot_metric_by_event_and_type,
    plot_feature_distribution, save_kde_curve, feature_histogram,
    plot_distribution_comparison,
    plot_posting_behavior_hist,
    plot_posting_behavior_heatmap, heatmap_of_table, plot_score_development,
    plot_pearson_correlation,
    plot_eventwise_heatmap, plot_boxplot_with_stats, plot_event_keyword_distribution,
    plot_dual_distribution, plot_keyword_score_heatmap, plot_engagement_per_day,
    draw, plt_title, plt_xlabel, plt_ylabel.
  all: figs.
Qed.

End Figures.

(** C9, as the code has it: a view that returns leaves open exactly the
    figures it found open; the figure it created was closed, by [save_plot]
    right after the write or by the branch that refuses the mode.  When a
    write raises, the view does not return and nothing closes the figure. *)
Theorem returned_view_closes_figure :
  forall (E : Estimators) (config : Config) (v : View) (df : nat) (w : World),
    outcome (run_view config v df) w = Ok tt ->
    figures (exec (run_view config v df) w) = figures w.
Proof. intros E config v df w H. exact (view_balanced config v df w tt H). Qed.

Lemma returned_view_closes_figure_witness :
  outcome (@run_view Sample.estimators Sample.config
             (PostingBehaviorHeatmap "Posts" "heatmap.png") 0)
          (Sample.world [Sample.counts] Sample.accept_all) = Ok tt
  /\ figures (exec (@run_view Sample.estimators Sample.config
                      (PostingBehaviorHeatmap "Posts" "heatmap.png") 0)
                   (Sample.world [Sample.counts] Sample.accept_all))
     = figures (Sample.world [Sample.counts] Sample.accept_all).
Proof.
  split; [reflexivity|].
  apply (returned_view_closes_figure Sample.estimators Sample.config
           (PostingBehaviorHeatmap "Posts" "heatmap.png") 0
           (Sample.world [Sample.counts] Sample.accept_all)).
  reflexivity.
Defined.

(** C9 fails as stated: when the file system refuses the image, [savefig]
    raises, [plt.close] is not reached and the figure stays open. *)
Lemma failed_save_leaves_figure_open :
  open_figures (Sample.world [Sample.counts] Sample.refuse_all) = []
  /\ outcome (@run_view Sample.estimators Sample.config
                (PostingBehaviorHeatmap "Posts" "heatmap.png") 0)
             (Sample.world [Sample.counts] Sample.refuse_all)
     = Raise (OSError "figures/heatmap.png")
  /\ open_figures (exec (@run_view Sample.estimators Sample.config
                           (PostingBehaviorHeatmap "Posts" "heatmap.png") 0)
                        (Sample.world [Sample.counts] Sample.refuse_all))
     = [1].
Proof. vm_compute. repeat split; reflexivity. Qed.

(* ================================================================== *)
(** ** The caller's table is left as it was *)

Create HintDb heaps.

Section Heap.

Context {E : Estimators} (config : Config).

Lemma firstn_update_nth {A} n i (f : A -> A) (l : list A) :
  n <= i -> firstn n (update_nth i f l) = firstn n l.
Proof.
  revert i l. induction n as [|n IH]; intros i l Hle; [reflexivity|].
  destruct i as [|i]; [lia|]. destruct l as [|x l]; [reflexivity|].
  cbn. f_equal. apply IH. lia.
Qed.

Lemma length_update_nth {A} i (f : A -> A) (l : list A) :
  List.length (update_nth i f l) = List.length l.
Proof.
  revert i. induction l as [|x l IH]; intros [|i]; cbn; auto.
Qed.

Lemma keeps_heap_safe n {A} (m : M A) : keeps_heap m -> heap_safe n any m.
Proof.
  intros H w Hn. rewrite H. repeat split. exact Hn.
Qed.

Lemma safe_weaken n {A} (P Q : A -> Prop) (m : M A) :
  heap_safe n P m -> (forall a, P a -> Q a) -> heap_safe n Q m.
Proof.
  intros H HPQ w Hn. destruct (H w Hn) as (H1 & H2 & H3). repeat split; auto.
Qed.

Lemma safe_ret n {A} (P : A -> Prop) (a : A) : P a -> heap_safe n P (ret a).
Proof.
  intros HP w Hn. repeat split; auto. intros b Hb. now inversion Hb; subst.
Qed.

Lemma safe_bind n {A B} (P : A -> Prop) (Q : B -> Prop) (m : M A) (k : A -> M B) :
  heap_safe n P m -> (forall a, P a -> heap_safe n Q (k a)) -> heap_safe n Q (bind m k).
Proof.
  intros Hm Hk w Hn. destruct (Hm w Hn) as (H1 & H2 & H3).
  unfold outcome, exec, bind in *. destruct (m w) as [[a|e] w1]; cbn in *.
  - destruct (Hk a (H3 a eq_refl) w1 H1) as (K1 & K2 & K3).
    split; [exact K1|]. split; [exact (eq_trans K2 H2)|exact K3].
  - split; [exact H1|]. split; [exact H2|]. discriminate.
Qed.

Lemma safe_new n d : heap_safe n (fresh n) (new_frame d).
Proof.
  intros w Hn. unfold outcome, exec, new_frame. cbn. repeat split.
  - rewrite length_app. lia.
  - rewrite firstn_app. replace (n - List.length (heap w)) with 0 by lia.
    apply app_nil_r.
  - intros a Ha. inversion Ha; subst. exact Hn.
Qed.

Lemma safe_assign n r name d vs :
  fresh n r -> heap_safe n any (assign_column r name d vs).
Proof.
  intros Hr w Hn. unfold outcome, exec, assign_column. cbn. repeat split.
  - now rewrite length_update_nth.
  - now apply firstn_update_nth.
Qed.

Lemma heap_ret {A} (a : A) : keeps_heap (ret a).
Proof. intros w. reflexivity. Qed.

Lemma heap_raise {A} e : keeps_heap (@raise A e).
Proof. intros w. reflexivity. Qed.

Lemma heap_lift {A} (r : result A) : keeps_heap (lift r).
Proof. intros w. reflexivity. Qed.

Lemma heap_logger lvl msg : keeps_heap (logger lvl msg).
Proof. intros w. reflexivity. Qed.

Lemma heap_write p c : keeps_heap (write_file p c).
Proof. intros w. unfold exec, write_file. now destruct (writable w p). Qed.

Lemma heap_read r : keeps_heap (read_frame r).
Proof. intros w. reflexivity. Qed.

Lemma heap_figure size : keeps_heap (plt_figure size).
Proof. intros w. reflexivity. Qed.

Lemma heap_on_current f : keeps_heap (on_current f).
Proof. intros w. unfold exec, on_current. now destruct (figures w) as [|[n g] rest]. Qed.

Lemma heap_close n : keeps_heap (plt_close n).
Proof. intros w. reflexivity. Qed.

Lemma heap_savefig n p : keeps_heap (savefig n p).
Proof.
  intros w. unfold savefig, exec. destruct (lookup_figure n (figures w)); apply heap_write.
Qed.

Lemma heap_bind {A B} (m : M A) (k : A -> M B) :
  keeps_heap m -> (forall a, keeps_heap (k a)) -> keeps_heap (bind m k).
Proof.
  intros Hm Hk w. specialize (Hm w). unfold exec, bind in *.
  destruct (m w) as [[a|e] w1]; cbn in *; [|exact Hm].
  rewrite <- Hm. apply (Hk a w1).
Qed.

#[local] Hint Resolve heap_ret heap_raise heap_lift heap_logger heap_write heap_read
  heap_figure heap_on_current heap_close heap_savefig safe_new safe_assign safe_ret
  keeps_heap_safe : heaps.

Ltac heaps :=
  repeat first
    [ progress cbv zeta
    | solve [eauto with heaps]
    | match goal with
      | |- _ (if ?c then _ else _) => destruct c
      | |- _ (match ?c with _ => _ end) => destruct c
      | |- keeps_heap (bind _ _) => apply heap_bind; [ | intros ?]
      | |- heap_safe _ _ (bind _ _) => eapply safe_bind; [ | intros ? ?]
      end ].

Lemma heap_save_plot n filename : keeps_heap (save_plot config n filename).
Proof. unfold save_plot. heaps. Qed.

Lemma heap_save_text t filename title :
  keeps_heap (_save_dataframe_as_text config t filename title).
Proof. unfold _save_dataframe_as_text. heaps. Qed.

Lemma heap_require d c : keeps_heap (require_numeric d c).
Proof. unfold require_numeric. heaps. Qed.

Lemma safe_dropna n r subset : heap_safe n (fresh n) (df_dropna r subset).
Proof. unfold df_dropna. heaps. Qed.

Lemma safe_copy n r : heap_safe n (fresh n) (df_copy r).
Proof. unfold df_copy. heaps. Qed.

Lemma safe_bounds n r : fresh n r -> heap_safe n any (add_bounds r).
Proof. intros H. unfold add_bounds. heaps. Qed.

#[local] Hint Resolve heap_save_plot heap_save_text heap_require safe_dropna safe_copy
  safe_bounds : heaps.





End Heap.




(* ================================================================== *)
(** ** Missing columns and empty data *)

Section Validation.

Context {E : Estimators} (config : Config).

Lemma empty_without_rows d : rows d = [] -> empty d = true.
Proof. intros H. unfold empty. rewrite H. now destruct (columns d). Qed.

Lemma series_dropna_rows d c :
  series_dropna (series d c) = series (dropna [c] d) c.
Proof.
  unfold series_dropna, series, dropna. cbn [rows].
  induction (rows d) as [|r l IH]; [reflexivity|].
  cbn [map filter row_complete forallb]. rewrite andb_true_r.
  change (get (mkDF (columns d) (filter (row_complete d [c]) l)))
    with (get d) in *.
  change (get (mkDF (columns d)
                 (if negb (is_na (get d r c))
                  then r :: filter (row_complete d [c]) l
                  else filter (row_complete d [c]) l)))
    with (get d).
  destruct (negb (is_na (get d r c))); cbn [map]; now rewrite IH.
Qed.

Lemma forallb_one {A} (p : A -> bool) a : forallb p [a] = p a.
Proof. cbn. apply andb_true_r. Qed.

Lemma forallb_two {A} (p : A -> bool) a b :
  forallb p [a; b] = false -> negb (p a) || negb (p b) = true.
Proof. cbn. destruct (p a), (p b); cbn; congruence. Qed.

Ltac skip_done :=
  unfold skipped, outcome, exec, logger; cbn; repeat split; eauto.

(** A view whose required column is missing logs an error and is over. *)
Lemma missing_column_skips v df w :
  forallb (has_column (nth df (heap w) (mkDF [] []))) (required_cols v) = false ->
  (checks_empty_first v = true -> empty (nth df (heap w) (mkDF [] [])) = false) ->
  skipped ERROR (run_view config v df) w.
Proof.
  intros Hc He.
  destruct v; cbn [run_view required_cols checks_empty_first] in *;
    try discriminate Hc.
  all: try specialize (He eq_refl).
  all: unfold skipped, outcome, exec,
       plot_average_metric_by_time_and_event, plot_metric_by_event_and_type,
       plot_feature_distribution, plot_distribution_comparison, plot_posting_behavior_hist,
       plot_score_development, plot_eventwise_heatmap, plot_boxplot_with_stats,
       plot_event_keyword_distribution, plot_dual_distribution,
       plot_keyword_score_heatmap, plot_engagement_per_day.
  all: rewrite run_read; cbv zeta.
  all: try rewrite He.
  all: try rewrite Hc.
  all: try (rewrite forallb_one in Hc; rewrite Hc).
  all: try (apply forallb_two in Hc; rewrite Hc).
  all: cbn; repeat split; eauto.
Qed.

(** A filtering view that finds no complete row logs a warning and is over. *)
Lemma no_complete_row_skips v df w :
  checks_empty_first v = false ->
  forallb (has_column (nth df (heap w) (mkDF [] []))) (required_cols v) = true ->
  rows (dropna (required_cols v) (nth df (heap w) (mkDF [] []))) = [] ->
  skipped WARNING (run_view config v df) w.
Proof.
  intros Hf Hc Hr. apply empty_without_rows in Hr as He.
  destruct v; cbn [run_view required_cols checks_empty_first] in *;
    try discriminate Hf.
  3:{ (* the feature distribution drops NaN from the one series it reads *)
    unfold skipped, outcome, exec, plot_feature_distribution.
    rewrite run_read. rewrite forallb_one in Hc. rewrite Hc. cbn [negb].
    cbv zeta. rewrite series_dropna_rows. unfold series. rewrite Hr.
    cbn. repeat split; eauto. }
  all: unfold skipped, outcome, exec,
       plot_average_metric_by_time_and_event, plot_metric_by_event_and_type,
       plot_distribution_comparison, plot_eventwise_heatmap, plot_boxplot_with_stats,
       plot_event_keyword_distribution, plot_dual_distribution,
       plot_keyword_score_heatmap, plot_engagement_per_day.
  all: rewrite run_read; cbv zeta; rewrite Hc; cbn [negb].
  all: rewrite run_filtered; cbv zeta.
  2:{ (* the allow-list of post types only removes rows *)
    destruct (truthy selected_types).
    - repeat step. unfold filter_isin, empty. cbn [rows columns]. rewrite Hr.
      cbn [filter]. destruct (columns _); cbn; repeat split; eauto.
    - repeat step. rewrite He. cbn; repeat split; eauto. }
  all: repeat step; rewrite He; cbn; repeat split; eauto.
Qed.

(** A view that tests [df.empty] first logs a warning on an empty table. *)
Lemma empty_table_skips v df w :
  checks_empty_first v = true ->
  empty (nth df (heap w) (mkDF [] [])) = true ->
  skipped WARNING (run_view config v df) w.
Proof.
  intros Hf He.
  destruct v; cbn [run_view checks_empty_first] in *; try discriminate Hf.
  all: unfold skipped, outcome, exec, plot_posting_behavior_hist,
       plot_posting_behavior_heatmap, heatmap_of_table, plot_score_development,
       plot_pearson_correlation.
  all: rewrite run_read; rewrite He; cbn; repeat split; eauto.
Qed.

End Validation.

(** C2, as the code has it.  A view that misses a required column returns,
    writes nothing and logs one error; the views that test [df.empty] first
    do so only on a table that is not empty, and answer an empty table with
    a warning.  A filtering view that finds no row complete in its required
    columns returns, writes nothing and logs one warning. *)
Theorem missing_or_empty_input_skips_view :
  forall (E : Estimators) (config : Config) (v : View) (df : nat) (w : World),
    (forallb (has_column (nth df (heap w) (mkDF [] []))) (required_cols v) = false ->
     (checks_empty_first v = true -> empty (nth df (heap w) (mkDF [] [])) = false) ->
     skipped ERROR (run_view config v df) w)
    /\ (checks_empty_first v = false ->
        forallb (has_column (nth df (heap w) (mkDF [] []))) (required_cols v) = true ->
        rows (dropna (required_cols v) (nth df (heap w) (mkDF [] []))) = [] ->
        skipped WARNING (run_view config v df) w)
    /\ (checks_empty_first v = true ->
        empty (nth df (heap w) (mkDF [] [])) = true ->
        skipped WARNING (run_view config v df) w).
Proof.
  intros E config v df w. split; [|split].
  - apply missing_column_skips.
  - apply no_complete_row_skips.
  - apply empty_table_skips.
Qed.

Lemma missing_or_empty_input_skips_view_witness :
  forallb (has_column (nth 0 (heap Sample.w0) (mkDF [] [])))
          (required_cols (ScoreDevelopment "hour" "comment_score" "event_name"
                            "Scores" "scores.png")) = false
  /\ skipped ERROR
       (@run_view Sample.estimators Sample.config
          (ScoreDevelopment "hour" "comment_score" "event_name" "Scores" "scores.png") 0)
       Sample.w0.
Proof.
  split; [reflexivity|].
  apply (proj1 (missing_or_empty_input_skips_view Sample.estimators Sample.config
                  (ScoreDevelopment "hour" "comment_score" "event_name"
                     "Scores" "scores.png") 0 Sample.w0));
    reflexivity.
Defined.

(** C2 fails as stated: the score development view tests [df.empty] before
    the columns, so on a table without rows that lacks two of its columns
    it logs a warning and no error. *)
Lemma score_development_empty_frame_logs_warning :
  forallb (has_column Sample.no_rows) ["hour"; "comment_score"; "event_name"] = false
  /\ outcome (@plot_score_development Sample.config 0 "hour" "comment_score" "event_name"
                "Scores" "scores.png")
             (Sample.world [Sample.no_rows] Sample.accept_all)
     = Ok tt
  /\ log (exec (@plot_score_development Sample.config 0 "hour" "comment_score"
                  "event_name" "Scores" "scores.png")
               (Sample.world [Sample.no_rows] Sample.accept_all))
     = [(WARNING, "DataFrame is empty, skipping score development plot for Scores.")].
Proof. vm_compute. repeat split; reflexivity. Qed.

(* ================================================================== *)
(** ** The correlation view *)

Section Correlation.

Context {E : Estimators} (config : Config).

Lemma available_spec d c :
  In c (available_numerical_cols config d) <->
  In c (getattr (NUMERICAL_FEATURES config) ++ getattr (BOOLEAN_FEATURES config)
        ++ additional_numerical_cols)%list
  /\ has_column d c = true /\ numeric_column d c = true.
Proof.
  unfold available_numerical_cols, all_potential_numerical_cols.
  rewrite filter_In, nodup_In, andb_true_iff. tauto.
Qed.

Lemma available_NoDup d : NoDup (available_numerical_cols config d).
Proof. apply NoDup_filter, NoDup_nodup. Qed.

Lemma numeric_column_listed d c :
  numeric_column d c = true ->
  In c (map fst (filter (fun p => is_numeric_dtype (snd p)) (columns d))).
Proof.
  unfold numeric_column, column_dtype. intros H.
  destruct (find (fun p => String.eqb c (fst p)) (columns d)) as [p|] eqn:Hf;
    [|discriminate].
  apply find_some in Hf as [Hin Heq]. apply String.eqb_eq in Heq. subst c.
  apply in_map, filter_In. now split.
Qed.

(** The usable columns are at most as many as the numeric columns. *)
Lemma available_bounded d :
  List.length (available_numerical_cols config d)
  <= List.length (filter (fun p => is_numeric_dtype (snd p)) (columns d)).
Proof.
  rewrite <- (length_map fst (filter _ _)).
  apply NoDup_incl_length; [apply available_NoDup|].
  intros c Hc. apply numeric_column_listed. now apply available_spec in Hc.
Qed.

Lemma correlation_skipped df filename w :
  empty (nth df (heap w) (mkDF [] [])) = false ->
  List.length (available_numerical_cols config (nth df (heap w) (mkDF [] []))) < 2 ->
  plot_pearson_correlation config df filename w
  = (Ok tt,
     with_log ((WARNING, "Not enough numerical columns available for correlation analysis "
                         ++ "(need at least 2). Skipping plot.") :: log w) w).
Proof.
  intros He Hn. unfold plot_pearson_correlation.
  step. rewrite He. cbv zeta. apply Nat.ltb_lt in Hn. rewrite Hn. reflexivity.
Qed.

Lemma correlation_drawn df filename w :
  empty (nth df (heap w) (mkDF [] [])) = false ->
  2 <= List.length (available_numerical_cols config (nth df (heap w) (mkDF [] []))) ->
  writable w (PyStr.path_join (FIGURES_DIR config) filename) = true ->
  plot_pearson_correlation config df filename w
  = (Ok tt,
     mkWorld (heap w)
       ((PyStr.path_join (FIGURES_DIR config) filename,
         PngFile (mkFigure (12, 10)
                    [Heatmap (corr (available_numerical_cols config
                                      (nth df (heap w) (mkDF [] [])))
                                   (nth df (heap w) (mkDF [] []))) ".2f"]
                    "Pearson Correlation Matrix of Numerical Features"
                    EmptyString EmptyString) 300) :: disk w)
       ((INFO, "Plot saved to: " ++ PyStr.path_join (FIGURES_DIR config) filename)
        :: (INFO, "Correlation Matrix:" ++ nl ++ "%s")
        :: (INFO, nl ++ "--- Calculating Pearson Correlations ---") :: log w)
       (figures w) (S (next_fig w)) (writable w)).
Proof.
  intros He Hn Hw. unfold plot_pearson_correlation.
  step. rewrite He. cbv zeta.
  apply Nat.ltb_ge in Hn. rewrite Hn.
  repeat step. repeat draw_step.
  erewrite save_plot_done; [reflexivity|reflexivity|exact Hw].
Qed.

End Correlation.

(** C6, as the code has it: on a dataset that is not empty, the usable
    columns are the configured and the built-in names that the dataset has
    with a numeric type, each once; with fewer than two of them (as when the
    dataset has a single numeric column) the view writes nothing and warns
    that it needs at least 2; with two or more, and a file system that takes
    the image, it saves the heatmap of their Pearson matrix. *)
Theorem correlation_columns_and_threshold :
  forall (E : Estimators) (config : Config) (df : nat) (filename : string) (w : World),
    empty (nth df (heap w) (mkDF [] [])) = false ->
    (forall c,
        In c (available_numerical_cols config (nth df (heap w) (mkDF [] []))) <->
        In c (getattr (NUMERICAL_FEATURES config) ++ getattr (BOOLEAN_FEATURES config)
              ++ additional_numerical_cols)%list
        /\ has_column (nth df (heap w) (mkDF [] [])) c = true
        /\ numeric_column (nth df (heap w) (mkDF [] [])) c = true)
    /\ NoDup (available_numerical_cols config (nth df (heap w) (mkDF [] [])))
    /\ (List.length (filter (fun p => is_numeric_dtype (snd p))
                       (columns (nth df (heap w) (mkDF [] [])))) <= 1 ->
        List.length (available_numerical_cols config (nth df (heap w) (mkDF [] []))) < 2)
    /\ (List.length (available_numerical_cols config (nth df (heap w) (mkDF [] []))) < 2 ->
        outcome (plot_pearson_correlation config df filename) w = Ok tt
        /\ disk (exec (plot_pearson_correlation config df filename) w) = disk w
        /\ exists msg,
             log (exec (plot_pearson_correlation config df filename) w)
             = (WARNING, msg) :: log w
             /\ PyStr.contains "need at least 2" msg = true)
    /\ (2 <= List.length (available_numerical_cols config (nth df (heap w) (mkDF [] []))) ->
        writable w (PyStr.path_join (FIGURES_DIR config) filename) = true ->
        outcome (plot_pearson_correlation config df filename) w = Ok tt
        /\ disk (exec (plot_pearson_correlation config df filename) w)
           = (PyStr.path_join (FIGURES_DIR config) filename,
              PngFile (mkFigure (12, 10)
                         [Heatmap (corr (available_numerical_cols config
                                           (nth df (heap w) (mkDF [] [])))
                                        (nth df (heap w) (mkDF [] []))) ".2f"]
                         "Pearson Correlation Matrix of Numerical Features"
                         EmptyString EmptyString) 300) :: disk w).
Proof.
  intros E config df filename w He.
  split; [intros c; apply available_spec|].
  split; [apply available_NoDup|].
  split; [intros H; pose proof (available_bounded config (nth df (heap w) (mkDF [] []))); lia|].
  split.
  - intros Hn. unfold outcome, exec.
    rewrite (correlation_skipped config df filename w He Hn). cbn.
    split; [reflexivity|]. split; [reflexivity|].
    eexists. split; reflexivity.
  - intros Hn Hw. unfold outcome, exec.
    rewrite (correlation_drawn config df filename w He Hn Hw). cbn.
    split; reflexivity.
Qed.

Lemma correlation_columns_and_threshold_witness :
  empty (nth 0 (heap Sample.w0) (mkDF [] [])) = false
  /\ NoDup (available_numerical_cols Sample.config (nth 0 (heap Sample.w0) (mkDF [] []))).
Proof.
  split; [reflexivity|].
  exact (proj1 (proj2 (correlation_columns_and_threshold Sample.estimators Sample.config
                         0 "pearson_correlation_matrix.png" Sample.w0 eq_refl))).
Defined.

(** C6 fails as stated: an empty dataset has fewer than two usable columns,
    yet the warning it gets is the one about the empty table. *)
Lemma empty_frame_correlation_warning :
  List.length (available_numerical_cols Sample.config Sample.no_rows) = 1
  /\ log (exec (@plot_pearson_correlation Sample.estimators Sample.config 0
                  "pearson_correlation_matrix.png")
               (Sample.world [Sample.no_rows] Sample.accept_all))
     = [(WARNING, "DataFrame is empty, skipping Pearson correlation analysis.")]
  /\ PyStr.contains "need at least 2"
       "DataFrame is empty, skipping Pearson correlation analysis." = false.
Proof. vm_compute. repeat split; reflexivity. Qed.

(* ================================================================== *)
(** ** The day-of-week view *)

Section EngagementPerDay.

Context {E : Estimators} (config : Config).

(** The chart the view draws from its filtered copy [f]. *)
Lemma engagement_per_day_drawn df time_col engagement_col filename times w :
  let d := nth df (heap w) (mkDF [] []) in
  let f := dropna [time_col; engagement_col; "event_name"] d in
  let g := with_day_of_week time_col times f in
  let png := PyStr.path_join (FIGURES_DIR config) filename in
  forallb (has_column d) [time_col; engagement_col; "event_name"] = true ->
  empty f = false ->
  to_datetime_all (series f time_col) = Ok times ->
  numeric_column g engagement_col = true ->
  writable w png = true ->
  plot_engagement_per_day config df time_col engagement_col filename w
  = (Ok tt,
     mkWorld (heap w ++ [f; g])
       ((png,
         PngFile (mkFigure (12, 6)
                    [BarPlot (groupby_mean ["day_of_week"; "event_name"] engagement_col g)
                             "day_of_week" engagement_col "event_name" (Some day_names)]
                    ("Average " ++ PyStr.title (PyStr.replace_underscore engagement_col)
                     ++ " by Day of Week and Event")
                    EmptyString EmptyString) 300) :: disk w)
       ((INFO, "Plot saved to: " ++ png) :: log w)
       (figures w) (S (next_fig w)) (writable w)).
Proof.
  intros d f g png Hc He Ht Hn Hw.
  unfold plot_engagement_per_day.
  step. fold d. rewrite Hc. cbn [negb].
  rewrite run_filtered. cbv zeta. fold d. fold f.
  step. rewrite He.
  unfold lift at 1. unfold bind at 1. rewrite Ht.
  repeat step. fold (with_day_of_week time_col times f). fold g.
  unfold require_numeric. rewrite Hn. repeat step. repeat draw_step.
  erewrite save_plot_done; [|reflexivity|exact Hw].
  world_simpl. rewrite <- !app_assoc. reflexivity.
Qed.

(** A view that returned after the checks has drawn that chart. *)
Lemma engagement_per_day_returned df time_col engagement_col filename w :
  let d := nth df (heap w) (mkDF [] []) in
  let f := dropna [time_col; engagement_col; "event_name"] d in
  forallb (has_column d) [time_col; engagement_col; "event_name"] = true ->
  empty f = false ->
  outcome (plot_engagement_per_day config df time_col engagement_col filename) w = Ok tt ->
  exists times,
    to_datetime_all (series f time_col) = Ok times
    /\ numeric_column (with_day_of_week time_col times f) engagement_col = true
    /\ writable w (PyStr.path_join (FIGURES_DIR config) filename) = true.
Proof.
  intros d f Hc He. unfold outcome, plot_engagement_per_day.
  step. fold d. rewrite Hc. cbn [negb].
  rewrite run_filtered. cbv zeta. fold d. fold f.
  step. rewrite He.
  unfold lift at 1. unfold bind at 1.
  destruct (to_datetime_all (series f time_col)) as [times|e] eqn:Ht;
    [|discriminate].
  repeat step. fold (with_day_of_week time_col times f).
  unfold require_numeric.
  destruct (numeric_column (with_day_of_week time_col times f) engagement_col) eqn:Hn;
    [|discriminate].
  repeat step. repeat draw_step.
  destruct (writable w (PyStr.path_join (FIGURES_DIR config) filename)) eqn:Hw.
  - intros _. exists times. auto.
  - erewrite save_plot_refused; [discriminate|reflexivity|exact Hw].
Qed.

End EngagementPerDay.

(** C7: whenever the day-of-week view draws its chart, whatever the rows of
    the dataset and their order, the bars are laid out Monday to Sunday. *)
Theorem day_of_week_bar_order :
  forall (E : Estimators) (config : Config)
         (df : nat) (time_col engagement_col filename : string) (w : World),
    forallb (has_column (nth df (heap w) (mkDF [] [])))
            [time_col; engagement_col; "event_name"] = true ->
    empty (dropna [time_col; engagement_col; "event_name"]
             (nth df (heap w) (mkDF [] []))) = false ->
    outcome (plot_engagement_per_day config df time_col engagement_col filename) w
      = Ok tt ->
    exists fig,
      disk (exec (plot_engagement_per_day config df time_col engagement_col filename) w)
      = (PyStr.path_join (FIGURES_DIR config) filename, PngFile fig 300) :: disk w
      /\ map x_categories (charts fig)
         = [[Str "Monday"; Str "Tuesday"; Str "Wednesday"; Str "Thursday";
             Str "Friday"; Str "Saturday"; Str "Sunday"]].
Proof.
  intros E config df time_col engagement_col filename w Hc He Hok.
  destruct (engagement_per_day_returned config df time_col engagement_col filename w
              Hc He Hok) as (times & Ht & Hn & Hw).
  unfold exec.
  rewrite (engagement_per_day_drawn config df time_col engagement_col filename times w
             Hc He Ht Hn Hw).
  cbn [snd disk]. eexists. split; reflexivity.
Qed.

Lemma day_of_week_bar_order_witness :
  outcome (@plot_engagement_per_day Sample.estimators Sample.config 0
             "created_utc" "comment_score" "days.png") Sample.w0 = Ok tt
  /\ exists fig,
       disk (exec (@plot_engagement_per_day Sample.estimators Sample.config 0
                     "created_utc" "comment_score" "days.png") Sample.w0)
       = (PyStr.path_join (FIGURES_DIR Sample.config) "days.png", PngFile fig 300)
         :: disk Sample.w0
       /\ map x_categories (charts fig)
          = [[Str "Monday"; Str "Tuesday"; Str "Wednesday"; Str "Thursday";
              Str "Friday"; Str "Saturday"; Str "Sunday"]].
Proof.
  split; [reflexivity|].
  exact (day_of_week_bar_order Sample.estimators Sample.config 0
           "created_utc" "comment_score" "days.png" Sample.w0
           eq_refl eq_refl eq_refl).
Defined.

(* ================================================================== *)
(** ** The metric by post type and event *)

Section TypeEvent.

Context {E : Estimators} (config : Config).

Lemma numeric_column_same_columns d1 d2 c :
  columns d1 = columns d2 -> numeric_column d1 c = numeric_column d2 c.
Proof. intros H. unfold numeric_column, column_dtype. now rewrite H. Qed.

Lemma type_event_rows_columns metric sel d :
  columns (type_event_rows metric sel d) = columns d.
Proof. unfold type_event_rows. now destruct (truthy sel). Qed.

(** The filtering prologue of the view: the complete rows and, of those,
    the rows of an allowed type. *)
Lemma run_type_event_rows {B} df metric sel (k : DataFrame -> M B) w :
  (dropped <- df_dropna df [metric; "event_name"; "post_type"] ;;
   df_filtered <- df_copy dropped ;;
   df_filtered <-
     (if truthy sel then
        f <- read_frame df_filtered ;;
        new_frame (filter_isin "post_type"
                     (match sel with Some l => l | None => [] end) f)
      else ret df_filtered) ;;
   f <- read_frame df_filtered ;;
   k f) w
  = k (type_event_rows metric sel (nth df (heap w) (mkDF [] [])))
      (with_heap (heap w ++ type_event_frames metric sel (nth df (heap w) (mkDF [] []))) w).
Proof.
  rewrite run_filtered. cbv zeta. unfold type_event_rows, type_event_frames, getattr.
  destruct (truthy sel); repeat step; rewrite <- !app_assoc; reflexivity.
Qed.

(** The view on data that passes its checks, with a file system that takes
    both writes. *)
Lemma type_event_drawn df metric title filename sel w :
  let d := nth df (heap w) (mkDF [] []) in
  let f := type_event_rows metric sel d in
  let png := PyStr.path_join (FIGURES_DIR config) filename in
  forallb (has_column d) [metric; "event_name"; "post_type"] = true ->
  empty f = false ->
  numeric_column d metric = true ->
  writable w (type_event_txt config metric) = true ->
  writable w png = true ->
  plot_metric_by_event_and_type config df metric title filename sel w
  = (Ok tt,
     mkWorld (heap w ++ type_event_frames metric sel d
              ++ [with_bounds (groupby_agg ["post_type"; "event_name"] metric
                                 [Mean; StdDev; Median; Count] f);
                  type_event_table metric f])
       ((png, PngFile (type_event_figure metric title (type_event_table metric f)) 300)
        :: (type_event_txt config metric,
            TextFile (type_event_header metric) (type_event_table metric f))
        :: disk w)
       ((INFO, "Plot saved to: " ++ png)
        :: (INFO, "Table data saved to: " ++ type_event_txt config metric) :: log w)
       (figures w) (S (next_fig w)) (writable w)).
Proof.
  intros d f png Hc He Hn Htxt Hpng.
  unfold plot_metric_by_event_and_type.
  step. fold d. rewrite Hc. cbn [negb].
  rewrite run_type_event_rows. fold d. fold f. rewrite He. cbv zeta.
  unfold require_numeric.
  rewrite (numeric_column_same_columns f d metric (type_event_rows_columns _ _ _)), Hn.
  step. rewrite run_bounds. repeat step.
  fold (type_event_index f). fold (type_event_table metric f).
  rewrite (run_save_text config) by exact Htxt. fold (type_event_txt config metric).
  repeat step. repeat draw_step.
  erewrite save_plot_done; [|reflexivity|exact Hpng].
  world_simpl. rewrite <- !app_assoc. reflexivity.
Qed.


(** Every path of the view: it writes nothing, or its table, or its table
    and then its chart; the table always goes to the one path named after
    the metric. *)
Lemma type_event_writes df metric title filename sel w :
  let t := type_event_table metric
             (type_event_rows metric sel (nth df (heap w) (mkDF [] []))) in
  disk (exec (plot_metric_by_event_and_type config df metric title filename sel) w)
  = disk w
  \/ disk (exec (plot_metric_by_event_and_type config df metric title filename sel) w)
     = (type_event_txt config metric, TextFile (type_event_header metric) t) :: disk w
  \/ (exists fig,
        disk (exec (plot_metric_by_event_and_type config df metric title filename sel) w)
        = (PyStr.path_join (FIGURES_DIR config) filename, PngFile fig 300)
          :: (type_event_txt config metric, TextFile (type_event_header metric) t)
          :: disk w).
Proof.
  intros t. unfold exec, plot_metric_by_event_and_type.
  step.
  destruct (forallb _ _); cbn [negb]; [|now left].
  rewrite run_type_event_rows.
  destruct (empty _); [now left|]. cbv zeta.
  unfold require_numeric. destruct (numeric_column _ _); [|now left].
  step. rewrite run_bounds. repeat step.
  match goal with
  | |- context [_save_dataframe_as_text config ?t ?f ?h] =>
      destruct (writable w (PyStr.path_join (REPORTS_DIR config) f)) eqn:Htxt;
      [ rewrite (run_save_text config) by exact Htxt
      | rewrite (run_save_text_refused config) by exact Htxt; now left ]
  end.
  repeat step. repeat draw_step.
  destruct (writable w (PyStr.path_join (FIGURES_DIR config) filename)) eqn:Hpng.
  - erewrite save_plot_done; [|reflexivity|exact Hpng].
    right. right. cbn [snd]. world_simpl. eauto.
  - erewrite save_plot_refused; [|reflexivity|exact Hpng].
    right. left. cbn [snd]. world_simpl. reflexivity.
Qed.

Lemma filter_isin_not_empty c allowed f :
  empty (filter_isin c allowed f) = false -> empty f = false.
Proof.
  unfold empty, filter_isin. cbn [columns rows].
  destruct (columns f); [discriminate|].
  destruct (rows f); [cbn; discriminate|reflexivity].
Qed.

Lemma append_cancel_l (d a b : string) : d ++ a = d ++ b -> a = b.
Proof. induction d as [|c d IH]; cbn; intros H; [exact H|]. injection H. exact IH. Qed.

Lemma path_join_relative_inj d a b :
  PyStr.starts_with "/" a = false -> PyStr.starts_with "/" b = false ->
  PyStr.path_join d a = PyStr.path_join d b -> a = b.
Proof.
  intros Ha Hb. unfold PyStr.path_join. rewrite Ha, Hb.
  destruct (PyStr.is_empty d); [auto|].
  destruct (PyStr.last_char d) as [c|]; [|intros H; now apply append_cancel_l in H;
                                           injection H].
  destruct (Ascii.eqb c "/"%char) eqn:Hc.
  - apply Ascii.eqb_eq in Hc. subst c. apply append_cancel_l.
  - assert (forall x, match c with
                      | "/"%char => d ++ x
                      | _ => d ++ "/" ++ x
                      end = d ++ "/" ++ x) as Hm.
    { intros x. destruct c as [[] [] [] [] [] [] [] []]; try reflexivity.
      discriminate Hc. }
    rewrite !Hm. intros H. apply append_cancel_l in H. now injection H.
Qed.

Lemma last_char_append a b :
  b <> EmptyString -> PyStr.last_char (a ++ b) = PyStr.last_char b.
Proof.
  intros Hb. induction a as [|c a IH]; [reflexivity|].
  cbn [append PyStr.last_char]. rewrite IH.
  destruct (a ++ b) eqn:Hab; [|reflexivity].
  destruct a; [cbn in Hab; contradiction|discriminate].
Qed.

Lemma last_char_path_join d f :
  f <> EmptyString -> PyStr.last_char (PyStr.path_join d f) = PyStr.last_char f.
Proof.
  intros Hf. unfold PyStr.path_join.
  destruct (PyStr.starts_with "/" f); [reflexivity|].
  destruct (PyStr.is_empty d); [reflexivity|].
  assert (PyStr.last_char (d ++ "/" ++ f) = PyStr.last_char f) as H1.
  { rewrite last_char_append; [apply (last_char_append "/" f Hf)|].
    cbn. discriminate. }
  destruct (PyStr.last_char d) as [c|]; [|exact H1].
  destruct c as [[] [] [] [] [] [] [] []]; try exact H1.
  now apply last_char_append.
Qed.

End TypeEvent.

Section WordCount.

Context {E : Estimators} (config : Config).

(** The two word-count calls in sequence, when both find data and the file
    system takes the four writes. *)
Lemma word_count_drawn df w :
  let d := nth df (heap w) (mkDF [] []) in
  let f1 := type_event_rows "word_count" None d in
  let f2 := type_event_rows "word_count" (Some selected_post_types) d in
  let txt := type_event_txt config "word_count" in
  let png1 := PyStr.path_join (FIGURES_DIR config) "avg_word_count_by_post_type.png" in
  let png2 := PyStr.path_join (FIGURES_DIR config)
                "filtered_avg_word_count_by_post_type_and_event.png" in
  df < List.length (heap w) ->
  forallb (has_column d) ["word_count"; "event_name"; "post_type"] = true ->
  empty f2 = false ->
  numeric_column d "word_count" = true ->
  writable w txt = true -> writable w png1 = true -> writable w png2 = true ->
  outcome (word_count_by_post_type config df) w = Ok tt
  /\ disk (exec (word_count_by_post_type config df) w)
     = (png2, PngFile (type_event_figure "word_count"
                         "Average Word Count by Selected Post Types and Event"
                         (type_event_table "word_count" f2)) 300)
       :: (txt, TextFile (type_event_header "word_count")
                  (type_event_table "word_count" f2))
       :: (png1, PngFile (type_event_figure "word_count"
                            "Average Word Count by Post Type and Event"
                            (type_event_table "word_count" f1)) 300)
       :: (txt, TextFile (type_event_header "word_count")
                  (type_event_table "word_count" f1))
       :: disk w.
Proof.
  intros d f1 f2 txt png1 png2 Hdf Hc He2 Hn Htxt Hpng1 Hpng2.
  assert (empty f1 = false) as He1.
  { apply (filter_isin_not_empty "post_type" selected_post_types). exact He2. }
  unfold outcome, exec, word_count_by_post_type.
  unfold bind.
  rewrite (type_event_drawn config df "word_count" _
             "avg_word_count_by_post_type.png" None w Hc He1 Hn Htxt Hpng1).
  fold d. fold f1.
  match goal with
  | |- context [plot_metric_by_event_and_type config df ?m ?t ?f ?s ?w1] =>
      assert (nth df (heap w1) (mkDF [] []) = d) as Hd
        by (cbn [heap]; rewrite app_nth1 by exact Hdf; reflexivity);
      pose proof (type_event_drawn config df m t f s w1) as H2
  end.
  cbv zeta in H2. rewrite Hd in H2. fold f2 in H2.
  specialize (H2 Hc He2 Hn Htxt Hpng2). rewrite H2.
  cbn [fst snd disk]. split; reflexivity.
Qed.

End WordCount.

(** C10: whatever the filename and the list of allowed types, a call of the
    type-and-event view writes nothing, or its table, or its table and its
    chart, and the table goes to [<metric>_by_post_type_and_event.txt] in
    the reports directory.  So the two word-count calls of the full report
    write their tables to one path, the second over the first, and their
    charts to two paths. *)
Theorem type_event_report_path :
  forall (E : Estimators) (config : Config) (df : nat) (w : World),
    (forall metric title filename sel,
        disk (exec (plot_metric_by_event_and_type config df metric title filename sel) w)
        = disk w
        \/ (exists t,
              disk (exec (plot_metric_by_event_and_type config df metric title filename
                            sel) w)
              = (PyStr.path_join (REPORTS_DIR config)
                   (metric ++ "_by_post_type_and_event.txt"),
                 TextFile (type_event_header metric) t) :: disk w)
        \/ (exists t fig,
              disk (exec (plot_metric_by_event_and_type config df metric title filename
                            sel) w)
              = (PyStr.path_join (FIGURES_DIR config) filename, PngFile fig 300)
                :: (PyStr.path_join (REPORTS_DIR config)
                      (metric ++ "_by_post_type_and_event.txt"),
                    TextFile (type_event_header metric) t) :: disk w))
    /\ (df < List.length (heap w) ->
        forallb (has_column (nth df (heap w) (mkDF [] [])))
                ["word_count"; "event_name"; "post_type"] = true ->
        empty (type_event_rows "word_count" (Some selected_post_types)
                 (nth df (heap w) (mkDF [] []))) = false ->
        numeric_column (nth df (heap w) (mkDF [] [])) "word_count" = true ->
        writable w (PyStr.path_join (REPORTS_DIR config)
                      "word_count_by_post_type_and_event.txt") = true ->
        writable w (PyStr.path_join (FIGURES_DIR config)
                      "avg_word_count_by_post_type.png") = true ->
        writable w (PyStr.path_join (FIGURES_DIR config)
                      "filtered_avg_word_count_by_post_type_and_event.png") = true ->
        outcome (word_count_by_post_type config df) w = Ok tt
        /\ (exists fig1 fig2,
              disk (exec (word_count_by_post_type config df) w)
              = (PyStr.path_join (FIGURES_DIR config)
                   "filtered_avg_word_count_by_post_type_and_event.png",
                 PngFile fig2 300)
                :: (PyStr.path_join (REPORTS_DIR config)
                      "word_count_by_post_type_and_event.txt",
                    TextFile (type_event_header "word_count")
                      (type_event_table "word_count"
                         (type_event_rows "word_count" (Some selected_post_types)
                            (nth df (heap w) (mkDF [] [])))))
                :: (PyStr.path_join (FIGURES_DIR config)
                      "avg_word_count_by_post_type.png",
                    PngFile fig1 300)
                :: (PyStr.path_join (REPORTS_DIR config)
                      "word_count_by_post_type_and_event.txt",
                    TextFile (type_event_header "word_count")
                      (type_event_table "word_count"
                         (type_event_rows "word_count" None
                            (nth df (heap w) (mkDF [] [])))))
                :: disk w)
        /\ PyStr.path_join (FIGURES_DIR config) "avg_word_count_by_post_type.png"
           <> PyStr.path_join (FIGURES_DIR config)
                "filtered_avg_word_count_by_post_type_and_event.png"
        /\ read_file (PyStr.path_join (REPORTS_DIR config)
                        "word_count_by_post_type_and_event.txt")
                     (disk (exec (word_count_by_post_type config df) w))
           = Some (TextFile (type_event_header "word_count")
                     (type_event_table "word_count"
                        (type_event_rows "word_count" (Some selected_post_types)
                           (nth df (heap w) (mkDF [] [])))))).
Proof.
  intros E config df w. split.
  - intros metric title filename sel.
    destruct (type_event_writes config df metric title filename sel w)
      as [H|[H|[fig H]]]; rewrite H; eauto.
  - intros Hdf Hc He Hn Htxt Hpng1 Hpng2.
    destruct (word_count_drawn config df w Hdf Hc He Hn Htxt Hpng1 Hpng2) as [Hok Hdisk].
    split; [exact Hok|]. split; [eauto|]. split.
    + intros H. apply path_join_relative_inj in H; [discriminate| reflexivity..].
    + rewrite Hdisk. cbn [read_file].
      assert (PyStr.path_join (REPORTS_DIR config) "word_count_by_post_type_and_event.txt"
              <> PyStr.path_join (FIGURES_DIR config)
                   "filtered_avg_word_count_by_post_type_and_event.png") as Hne.
      { intros H. apply (f_equal PyStr.last_char) in H.
        rewrite !last_char_path_join in H by discriminate. discriminate H. }
      apply String.eqb_neq in Hne. unfold type_event_txt.
      cbn [append]. rewrite Hne. now rewrite String.eqb_refl.
Qed.

Lemma type_event_report_path_witness :
  0 < List.length (heap Sample.w0)
  /\ outcome (@word_count_by_post_type Sample.estimators Sample.config 0) Sample.w0
     = Ok tt.
Proof.
  assert (H : 0 < List.length (heap Sample.w0)) by (cbn; lia).
  split; [exact H|].
  exact (proj1 (proj2 (type_event_report_path Sample.estimators Sample.config 0 Sample.w0)
                  H eq_refl eq_refl eq_refl eq_refl eq_refl eq_refl)).
Defined.

(* ================================================================== *)
(** ** Tables: columns by name, assignment, grouping, reindexing *)

Section TableFacts.

Context {E : Estimators}.

Lemma set_nth_end v r : set_nth (List.length r) v r = (r ++ [v])%list.
Proof. induction r as [|c r IH]; cbn; [reflexivity|now rewrite IH]. Qed.

Lemma zip_with_map {A} op (a b : A -> cell) (l : list A) :
  zip_with op (map a l) (map b l) = map (fun x => op (a x) (b x)) l.
Proof.
  unfold zip_with. induction l as [|x l IH]; cbn; [reflexivity|now rewrite IH].
Qed.

Lemma map_combine_map {A B C} (h : A * B -> C) (v : A -> B) (l : list A) :
  map h (combine l (map v l)) = map (fun x => h (x, v x)) l.
Proof. induction l as [|x l IH]; cbn; [reflexivity|now rewrite IH]. Qed.

Lemma index_of_bound c l i : index_of c l = Some i -> i < List.length l.
Proof.
  revert i. induction l as [|x l IH]; cbn; intros i H; [discriminate|].
  destruct (String.eqb c x).
  - injection H as <-. lia.
  - destruct (index_of c l) as [j|]; [|discriminate].
    injection H as <-. specialize (IH j eq_refl). lia.
Qed.

Lemma index_of_nth c l i : index_of c l = Some i -> nth i l EmptyString = c.
Proof.
  revert i. induction l as [|x l IH]; cbn; intros i H; [discriminate|].
  destruct (String.eqb c x) eqn:Hcx.
  - injection H as <-. symmetry. now apply String.eqb_eq.
  - destruct (index_of c l) as [j|]; [|discriminate].
    injection H as <-. now apply IH.
Qed.

Lemma index_of_app_some c l m i :
  index_of c l = Some i -> index_of c (l ++ m) = Some i.
Proof.
  revert i. induction l as [|x l IH]; cbn; intros i H; [discriminate|].
  destruct (String.eqb c x); [exact H|].
  destruct (index_of c l) as [j|]; [|discriminate].
  now rewrite (IH j eq_refl).
Qed.

Lemma index_of_app_none c l m :
  index_of c l = None ->
  index_of c (l ++ m) = option_map (fun j => List.length l + j) (index_of c m).
Proof.
  induction l as [|x l IH]; cbn; intros H.
  - now destruct (index_of c m).
  - destruct (String.eqb c x); [discriminate|].
    destruct (index_of c l) as [j|]; [discriminate|].
    rewrite (IH eq_refl). now destruct (index_of c m).
Qed.

Lemma index_of_none_iff c l : index_of c l = None <-> existsb (String.eqb c) l = false.
Proof.
  induction l as [|x l IH]; cbn; [tauto|].
  destruct (String.eqb c x); cbn; [split; discriminate|].
  destruct (index_of c l) as [j|]; cbn.
  - split; [discriminate|]. intros H. apply IH in H. discriminate.
  - split; [|reflexivity]. intros _. now apply IH.
Qed.

Lemma column_names_length g : List.length (column_names g) = List.length (columns g).
Proof. apply length_map. Qed.

(** Assigning a column the table does not have appends it. *)
Lemma assign_new_column n d op c1 c2 g :
  rect g -> index_of n (column_names g) = None ->
  assign n d (zip_with op (series g c1) (series g c2)) g
  = mkDF (columns g ++ [(n, d)])
         (map (fun r => r ++ [op (get g r c1) (get g r c2)])%list (rows g)).
Proof.
  intros Hr Hn. unfold assign. rewrite Hn. f_equal.
  unfold series. rewrite zip_with_map, map_combine_map. cbn [fst snd].
  apply map_ext_in. intros r Hin.
  unfold rect in Hr. rewrite Forall_forall in Hr. rewrite <- (Hr r Hin).
  apply set_nth_end.
Qed.

Lemma get_appended_old g n d rs r v c :
  List.length r = List.length (columns g) ->
  String.eqb c n = false ->
  get (mkDF (columns g ++ [(n, d)]) rs) (r ++ [v]) c = get g r c.
Proof.
  intros Hlen Hc. unfold get, column_names. cbn [columns].
  rewrite map_app. cbn [map fst]. fold (column_names g).
  destruct (index_of c (column_names g)) as [i|] eqn:Hi.
  - rewrite (index_of_app_some _ _ _ _ Hi). apply app_nth1.
    apply index_of_bound in Hi. rewrite column_names_length in Hi. lia.
  - rewrite (index_of_app_none _ _ _ Hi). cbn. now rewrite Hc.
Qed.

Lemma get_appended_new g n d rs r v :
  List.length r = List.length (columns g) ->
  index_of n (column_names g) = None ->
  get (mkDF (columns g ++ [(n, d)]) rs) (r ++ [v]) n = v.
Proof.
  intros Hlen Hn. unfold get, column_names. cbn [columns].
  rewrite map_app. cbn [map fst]. fold (column_names g).
  rewrite (index_of_app_none _ _ _ Hn). cbn. rewrite String.eqb_refl. cbn.
  rewrite Nat.add_0_r, column_names_length, <- Hlen. apply nth_middle.
Qed.

(** [get] reads the column names only. *)
Lemma get_same_columns g1 g2 r c :
  columns g1 = columns g2 -> get g1 r c = get g2 r c.
Proof. intros H. unfold get, column_names. now rewrite H. Qed.


Lemma rect_appended g n d (v : list cell -> cell) :
  rect g ->
  rect (mkDF (columns g ++ [(n, d)]) (map (fun r => r ++ [v r])%list (rows g))).
Proof.
  unfold rect. cbn [columns rows]. intros H.
  rewrite Forall_map. eapply Forall_impl; [|exact H].
  cbn. intros r Hr. rewrite !length_app, Hr. reflexivity.
Qed.

(** The grouped table with its two bound columns, row by row. *)
Lemma with_bounds_rows g :
  rect g ->
  index_of "lower_bound" (column_names g) = None ->
  index_of "upper_bound" (column_names g) = None ->
  with_bounds g
  = mkDF ((columns g ++ [("lower_bound", DFloat)]) ++ [("upper_bound", DFloat)])
         (map (fun r => (r ++ [cell_sub (get g r "mean") (get g r "std")])
                        ++ [cell_add (get g r "mean") (get g r "std")])%list
              (rows g)).
Proof.
  intros Hr Hl Hu. unfold with_bounds. cbv zeta.
  rewrite (assign_new_column "lower_bound" DFloat cell_sub "mean" "std" g Hr Hl).
  rewrite assign_new_column.
  - cbn [columns rows]. f_equal. rewrite map_map.
    apply map_ext_in. intros r Hin. f_equal. f_equal.
    unfold rect in Hr. rewrite Forall_forall in Hr. specialize (Hr r Hin).
    now rewrite !get_appended_old by (exact Hr || reflexivity).
  - now apply rect_appended.
  - unfold column_names. cbn [columns]. rewrite map_app. cbn [map fst].
    fold (column_names g). rewrite (index_of_app_none _ _ _ Hu). reflexivity.
Qed.

Lemma with_bounds_hold g :
  rect g ->
  index_of "lower_bound" (column_names g) = None ->
  index_of "upper_bound" (column_names g) = None ->
  bounds_hold "mean" "std" "lower_bound" "upper_bound" (with_bounds g).
Proof.
  intros Hr Hl Hu. rewrite (with_bounds_rows g Hr Hl Hu).
  intros r' Hin. cbn [rows] in Hin. apply in_map_iff in Hin as (r & <- & Hin).
  unfold rect in Hr. rewrite Forall_forall in Hr. specialize (Hr r Hin).
  set (g1 := mkDF (columns g ++ [("lower_bound", DFloat)]) (rows g)).
  assert (List.length (r ++ [cell_sub (get g r "mean") (get g r "std")])
          = List.length (columns g1)) as Hr1.
  { cbn [g1 columns]. rewrite !length_app, Hr. reflexivity. }
  assert (index_of "upper_bound" (column_names g1) = None) as Hu1.
  { unfold column_names, g1. cbn [columns]. rewrite map_app. cbn [map fst].
    fold (column_names g). rewrite (index_of_app_none _ _ _ Hu). reflexivity. }
  change ((columns g ++ [("lower_bound", DFloat)]) ++ [("upper_bound", DFloat)])%list
    with (columns g1 ++ [("upper_bound", DFloat)])%list.
  split.
  - rewrite !(get_appended_old g1) by (exact Hr1 || reflexivity).
    unfold g1. rewrite (get_appended_new g) by assumption.
    now rewrite !(get_appended_old g) by (exact Hr || reflexivity).
  - rewrite (get_appended_new g1) by assumption.
    rewrite !(get_appended_old g1) by (exact Hr1 || reflexivity).
    unfold g1. now rewrite !(get_appended_old g) by (exact Hr || reflexivity).
Qed.

(* ------------------------------------------------------------------ *)
(** *** Group keys *)

Lemma key_insert_in k x l : In k (key_insert x l) -> k = x \/ In k l.
Proof.
  induction l as [|y l IH]; cbn.
  - intros [H|[]]. now left.
  - destruct (key_leb x y); cbn.
    + intros [H|H]; [now left|now right].
    + intros [H|H]; [right; now left|].
      apply IH in H as [H|H]; [now left|right; now right].
Qed.

Lemma key_sort_in k l : In k (key_sort l) -> In k l.
Proof.
  induction l as [|x l IH]; cbn; [tauto|].
  intros H. apply key_insert_in in H as [H|H]; [now left|right; auto].
Qed.

Lemma distinct_from_in k seen l : In k (distinct_from seen l) -> In k l.
Proof.
  revert seen. induction l as [|x l IH]; cbn; intros seen; [tauto|].
  destruct (key_mem x seen); cbn.
  - intros H. right. eapply IH, H.
  - intros [H|H]; [now left|right; eapply IH, H].
Qed.

(** Every group key is the key of a row. *)
Lemma group_keys_in by_cols f k :
  In k (group_keys by_cols f) ->
  exists r, In r (rows f) /\ k = row_key f by_cols r.
Proof.
  unfold group_keys. intros H.
  apply key_sort_in, distinct_from_in, filter_In in H as [H _].
  apply in_map_iff in H as (r & Hk & Hr). eauto.
Qed.

Lemma key_length by_cols f k :
  In k (group_keys by_cols f) -> List.length k = List.length by_cols.
Proof.
  intros H. apply group_keys_in in H as (r & _ & ->).
  unfold row_key. apply length_map.
Qed.

Lemma rect_groupby_agg by_cols value stats f :
  rect (groupby_agg by_cols value stats f).
Proof.
  unfold rect, groupby_agg. cbn [columns rows]. rewrite Forall_map.
  apply Forall_forall. intros k Hk. cbn.
  rewrite !length_app, !length_map. unfold key_columns. rewrite length_map.
  now rewrite (key_length by_cols f k Hk).
Qed.

(** The comparison table has its bounds. *)
Lemma comparison_table_bounds feature f :
  bounds_hold "mean" "std" "lower_bound" "upper_bound" (comparison_table feature f).
Proof.
  unfold comparison_table. apply with_bounds_hold.
  - apply rect_groupby_agg.
  - reflexivity.
  - reflexivity.
Qed.

(** So has the one-row summary, under its own column names. *)
Lemma distribution_summary_bounds values :
  bounds_hold "Mean" "Std" "Lower Bound (Mean - Std)" "Upper Bound (Mean + Std)"
    (distribution_summary values).
Proof.
  intros r Hin. unfold distribution_summary in *. cbn [rows] in Hin.
  destruct Hin as [<-|[]]. split; reflexivity.
Qed.


(* ------------------------------------------------------------------ *)
(** *** Reindexing *)

Lemma key_columns_names by_cols g : map fst (key_columns by_cols g) = by_cols.
Proof.
  unfold key_columns. rewrite map_map. cbn [fst]. apply map_id.
Qed.

Lemma reindex_names by_cols idx g :
  column_names (reindex by_cols idx g)
  = (by_cols ++ map fst (other_columns by_cols g))%list.
Proof.
  unfold column_names, reindex. cbn [columns].
  now rewrite map_app, key_columns_names.
Qed.

(** A name outside the key columns is among the other columns exactly when
    the table has it. *)
Lemma other_columns_index by_cols g c :
  existsb (String.eqb c) by_cols = false ->
  index_of c (map fst (other_columns by_cols g)) = None ->
  index_of c (column_names g) = None.
Proof.
  intros Hc. unfold other_columns, column_names.
  induction (columns g) as [|p l IH]; [reflexivity|].
  cbn [filter map index_of].
  destruct (String.eqb c (fst p)) eqn:Hp.
  - apply String.eqb_eq in Hp. subst c. rewrite Hc. cbn [negb map index_of].
    rewrite String.eqb_refl. discriminate.
  - destruct (negb (existsb (String.eqb (fst p)) by_cols)).
    + cbn [map index_of]. rewrite Hp.
      destruct (index_of c (map fst (filter _ l))); [discriminate|].
      intros _. now rewrite (IH eq_refl).
    + intros H. now rewrite (IH H).
Qed.

Lemma other_columns_get by_cols g r c j :
  index_of c (map fst (other_columns by_cols g)) = Some j ->
  nth j (map (get g r) (map fst (other_columns by_cols g))) NA = get g r c.
Proof.
  intros Hj. pose proof (index_of_bound _ _ _ Hj) as Hlt.
  rewrite (nth_indep _ NA (get g r EmptyString)) by now rewrite length_map.
  rewrite map_nth. now rewrite (index_of_nth _ _ _ Hj).
Qed.

(** In a reindexed row that was found, a column outside the keys holds what
    the row held. *)
Lemma get_reindexed by_cols idx g k r c :
  existsb (String.eqb c) by_cols = false ->
  List.length k = List.length by_cols ->
  get (reindex by_cols idx g) (k ++ map (get g r) (map fst (other_columns by_cols g))) c
  = get g r c.
Proof.
  intros Hc Hk. unfold get at 1. rewrite reindex_names.
  apply index_of_none_iff in Hc as Hnone.
  rewrite (index_of_app_none _ _ _ Hnone).
  destruct (index_of c (map fst (other_columns by_cols g))) as [j|] eqn:Hj; cbn.
  - rewrite app_nth2 by lia. rewrite <- Hk.
    replace (List.length k + j - List.length k) with j by lia.
    now apply other_columns_get.
  - apply (other_columns_index by_cols g c Hc) in Hj.
    unfold get. now rewrite Hj.
Qed.

(** In a reindexed row that was not found, it holds NaN. *)
Lemma get_reindexed_missing by_cols idx g k c :
  existsb (String.eqb c) by_cols = false ->
  List.length k = List.length by_cols ->
  get (reindex by_cols idx g)
      (k ++ map (fun _ => NA) (map fst (other_columns by_cols g))) c
  = NA.
Proof.
  intros Hc Hk. unfold get. rewrite reindex_names.
  apply index_of_none_iff in Hc as Hnone.
  rewrite (index_of_app_none _ _ _ Hnone).
  destruct (index_of c (map fst (other_columns by_cols g))) as [j|] eqn:Hj; cbn;
    [|reflexivity].
  rewrite app_nth2 by lia. rewrite <- Hk.
  replace (List.length k + j - List.length k) with j by lia.
  clear. generalize (map fst (other_columns by_cols g)). intros l. revert j.
  induction l as [|x l IH]; intros [|j]; cbn; auto.
Qed.

(** Reindexing keeps the bounds: a row that was found carries them over,
    a row that was not is NaN throughout. *)
Lemma reindex_bounds_hold by_cols idx g m s l u :
  bounds_hold m s l u g ->
  existsb (String.eqb m) by_cols = false ->
  existsb (String.eqb s) by_cols = false ->
  existsb (String.eqb l) by_cols = false ->
  existsb (String.eqb u) by_cols = false ->
  (forall k, In k idx -> List.length k = List.length by_cols) ->
  bounds_hold m s l u (reindex by_cols idx g).
Proof.
  intros Hg Hm Hs Hl Hu Hidx r' Hin.
  unfold reindex in Hin. cbn [rows] in Hin.
  apply in_map_iff in Hin as (k & Hr' & Hk). specialize (Hidx k Hk).
  destruct (find _ (rows g)) as [r|] eqn:Hf; subst r'.
  - apply find_some in Hf as [Hr _].
    rewrite !get_reindexed by assumption. now apply Hg.
  - rewrite !get_reindexed_missing by assumption. split; reflexivity.
Qed.

Lemma from_product_length2 a b k : In k (from_product a b) -> List.length k = 2.
Proof.
  unfold from_product. intros H. apply in_map_iff in H as (p & <- & _). reflexivity.
Qed.

Lemma time_event_table_bounds metric f :
  bounds_hold "mean" "std" "lower_bound" "upper_bound" (time_event_table metric f).
Proof.
  unfold time_event_table. apply reindex_bounds_hold; try reflexivity.
  - apply with_bounds_hold; [apply rect_groupby_agg|reflexivity..].
  - intros k Hk. now apply from_product_length2 in Hk.
Qed.

Lemma type_event_table_bounds metric f :
  bounds_hold "mean" "std" "lower_bound" "upper_bound" (type_event_table metric f).
Proof.
  unfold type_event_table. apply reindex_bounds_hold; try reflexivity.
  - apply with_bounds_hold; [apply rect_groupby_agg|reflexivity..].
  - intros k Hk. now apply from_product_length2 in Hk.
Qed.

End TableFacts.

(* ================================================================== *)
(** ** What the aggregating views put on disk *)

Section Writes.

Context {E : Estimators} (config : Config).

(** The time-and-event view on data that passes its checks, with a file
    system that takes both writes. *)
Lemma time_event_drawn df metric prefix title y_label w :
  let d := nth df (heap w) (mkDF [] []) in
  let f := dropna [metric; "event_name"; "time_period"] d in
  forallb (has_column d) [metric; "event_name"; "time_period"] = true ->
  empty f = false ->
  numeric_column f metric = true ->
  writable w (time_event_txt config prefix) = true ->
  writable w (time_event_png config prefix) = true ->
  plot_average_metric_by_time_and_event config df metric prefix title y_label w
  = (Ok tt,
     mkWorld (heap w ++ [f; f;
                with_bounds (groupby_agg ["time_period"; "event_name"] metric
                               [Mean; StdDev; Median; Count] f);
                time_event_table metric f])
       ((time_event_png config prefix,
         PngFile (time_event_figure title y_label (time_event_table metric f)) 300)
        :: (time_event_txt config prefix,
            TextFile (time_event_header metric) (time_event_table metric f))
        :: disk w)
       ((INFO, "Plot saved to: " ++ time_event_png config prefix)
        :: (INFO, "Table data saved to: " ++ time_event_txt config prefix) :: log w)
       (figures w) (S (next_fig w)) (writable w)).
Proof.
  intros d f Hc He Hn Htxt Hpng.
  unfold plot_average_metric_by_time_and_event.
  step. fold d. rewrite Hc. cbn [negb].
  rewrite run_filtered. cbv zeta. fold d. fold f.
  step. rewrite He. cbv zeta.
  unfold require_numeric. rewrite Hn.
  step. rewrite run_bounds. repeat step.
  fold (time_event_index f). fold (time_event_table metric f).
  rewrite (run_save_text config) by exact Htxt. fold (time_event_txt config prefix).
  repeat step. repeat draw_step.
  erewrite save_plot_done; [|reflexivity|exact Hpng].
  world_simpl. rewrite <- !app_assoc. reflexivity.
Qed.

(** Every path of the time-and-event view. *)
Lemma time_event_writes df metric prefix title y_label w :
  let t := time_event_table metric
             (dropna [metric; "event_name"; "time_period"]
                (nth df (heap w) (mkDF [] []))) in
  disk (exec (plot_average_metric_by_time_and_event config df metric prefix title
                y_label) w)
  = disk w
  \/ disk (exec (plot_average_metric_by_time_and_event config df metric prefix title
                   y_label) w)
     = (time_event_txt config prefix, TextFile (time_event_header metric) t) :: disk w
  \/ (exists fig,
        disk (exec (plot_average_metric_by_time_and_event config df metric prefix title
                      y_label) w)
        = (time_event_png config prefix, PngFile fig 300)
          :: (time_event_txt config prefix, TextFile (time_event_header metric) t)
          :: disk w).
Proof.
  intros t. unfold exec, plot_average_metric_by_time_and_event.
  step.
  destruct (forallb _ _); cbn [negb]; [|now left].
  rewrite run_filtered. cbv zeta. step.
  destruct (empty _); [now left|]. cbv zeta.
  unfold require_numeric. destruct (numeric_column _ _); [|now left].
  step. rewrite run_bounds. repeat step.
  destruct (writable w (time_event_txt config prefix)) eqn:Htxt;
    [ rewrite (run_save_text config) by exact Htxt
    | rewrite (run_save_text_refused config) by exact Htxt; now left ].
  repeat step. repeat draw_step.
  destruct (writable w (time_event_png config prefix)) eqn:Hpng.
  - erewrite save_plot_done; [|reflexivity|exact Hpng].
    right. right. cbn [snd]. world_simpl. eauto.
  - erewrite save_plot_refused; [|reflexivity|exact Hpng].
    right. left. cbn [snd]. world_simpl. reflexivity.
Qed.

(** Every path of the distribution comparison. *)
Lemma comparison_writes df feature title y_label prefix plot_type w :
  let t := comparison_table feature
             (dropna [feature; "event_name"] (nth df (heap w) (mkDF [] []))) in
  disk (exec (plot_distribution_comparison config df feature title y_label prefix
                plot_type) w)
  = disk w
  \/ disk (exec (plot_distribution_comparison config df feature title y_label prefix
                   plot_type) w)
     = (comparison_txt config prefix feature plot_type,
        TextFile (comparison_header feature plot_type) t) :: disk w
  \/ (exists fig,
        disk (exec (plot_distribution_comparison config df feature title y_label prefix
                      plot_type) w)
        = (PyStr.path_join (FIGURES_DIR config)
             (prefix ++ feature ++ "_" ++ plot_type ++ "_extended.png"),
           PngFile fig 300)
          :: (comparison_txt config prefix feature plot_type,
              TextFile (comparison_header feature plot_type) t) :: disk w).
Proof.
  intros t. unfold exec, plot_distribution_comparison.
  step.
  destruct (forallb _ _); cbn [negb]; [|now left].
  rewrite run_filtered. cbv zeta. step.
  destruct (empty _); [now left|].
  unfold require_numeric. destruct (numeric_column _ _); [|now left].
  step. rewrite run_bounds.
  destruct (writable w (comparison_txt config prefix feature plot_type)) eqn:Htxt;
    [ rewrite (run_save_text config) by exact Htxt
    | rewrite (run_save_text_refused config) by exact Htxt; now left ].
  step.
  destruct (writable w (PyStr.path_join (FIGURES_DIR config)
              (prefix ++ feature ++ "_" ++ plot_type ++ "_extended.png"))) eqn:Hpng.
  - destruct (String.eqb plot_type "violin"); [|destruct (String.eqb plot_type "box")].
    + repeat draw_step. erewrite save_plot_done; [|reflexivity|exact Hpng].
      right. right. cbn [snd]. world_simpl. eauto.
    + repeat draw_step. erewrite save_plot_done; [|reflexivity|exact Hpng].
      right. right. cbn [snd]. world_simpl. eauto.
    + step. right. left. reflexivity.
  - destruct (String.eqb plot_type "violin"); [|destruct (String.eqb plot_type "box")].
    + repeat draw_step. erewrite save_plot_refused; [|reflexivity|exact Hpng].
      right. left. reflexivity.
    + repeat draw_step. erewrite save_plot_refused; [|reflexivity|exact Hpng].
      right. left. reflexivity.
    + step. right. left. reflexivity.
Qed.

End Writes.

(* ================================================================== *)
(** ** Extremes of a sample and evenly spaced points *)

Section Numbers.

Open Scope Q_scope.















End Numbers.

(* ================================================================== *)
(** ** The feature distribution and its density curve *)

Section FeatureDistribution.

Context {E : Estimators} (config : Config).

Lemma numbers_length l : List.length (numbers l) <= List.length l.
Proof.
  induction l as [|c l IH]; cbn; [lia|]. destruct (to_num c); cbn; lia.
Qed.

(** The histogram, when the file system takes the image: one image more on
    disk, and the log has only grown. *)
Lemma feature_histogram_saved df d values feature title x_label bins prefix w :
  writable w (histogram_png config prefix feature) = true ->
  outcome (feature_histogram config df d values feature title x_label bins prefix) w
    = Ok tt
  /\ (exists fig,
        disk (exec (feature_histogram config df d values feature title x_label bins
                      prefix) w)
        = (histogram_png config prefix feature, PngFile fig 300) :: disk w)
  /\ incl (log w)
          (log (exec (feature_histogram config df d values feature title x_label bins
                        prefix) w)).
Proof.
  intros Hw. unfold outcome, exec, feature_histogram. step.
  destruct (has_column d "event_name" && (1 <? nunique (series d "event_name"))).
  - unfold df_dropna, df_copy. repeat step.
    destruct (negb (empty _)).
    + repeat draw_step. erewrite save_plot_done; [|reflexivity|exact Hw].
      cbn [fst snd]. world_simpl. split; [reflexivity|]. split; [eauto|].
      intros x Hx. now right.
    + repeat step. repeat draw_step.
      erewrite save_plot_done; [|reflexivity|exact Hw].
      cbn [fst snd]. world_simpl. split; [reflexivity|]. split; [eauto|].
      intros x Hx. right. now right.
  - repeat draw_step. erewrite save_plot_done; [|reflexivity|exact Hw].
    cbn [fst snd]. world_simpl. split; [reflexivity|]. split; [eauto|].
    intros x Hx. now right.
Qed.

(** The histogram on every path: the image, or nothing. *)
Lemma feature_histogram_writes df d values feature title x_label bins prefix w :
  disk (exec (feature_histogram config df d values feature title x_label bins prefix) w)
  = disk w
  \/ exists fig,
       disk (exec (feature_histogram config df d values feature title x_label bins
                     prefix) w)
       = (histogram_png config prefix feature, PngFile fig 300) :: disk w.
Proof.
  destruct (writable w (histogram_png config prefix feature)) eqn:Hw.
  - right. apply (feature_histogram_saved df d values feature title x_label bins prefix
                    w Hw).
  - left. unfold exec, feature_histogram. step.
    destruct (has_column d "event_name" && (1 <? nunique (series d "event_name"))).
    + unfold df_dropna, df_copy. repeat step.
      destruct (negb (empty _)).
      * repeat draw_step. erewrite save_plot_refused; [|reflexivity|exact Hw].
        reflexivity.
      * repeat step. repeat draw_step.
        erewrite save_plot_refused; [|reflexivity|exact Hw]. reflexivity.
    + repeat draw_step. erewrite save_plot_refused; [|reflexivity|exact Hw].
      reflexivity.
Qed.


(** The density curve of a sample that scipy refuses. *)
Lemma save_kde_curve_singular values feature prefix w :
  2 <= List.length (numbers values) ->
  singular_covariance (numbers values) = true ->
  save_kde_curve config values feature prefix w = (Raise LinAlgError, w).
Proof.
  intros Hn He. unfold save_kde_curve.
  pose proof (numbers_length values) as Hlen.
  replace (1 <? List.length values) with true by (symmetry; apply Nat.ltb_lt; lia).
  unfold gaussian_kde.
  replace (List.length (numbers values) <? 2) with false
    by (symmetry; apply Nat.ltb_ge; lia).
  now rewrite He.
Qed.


(** The density curve on every path: one table, or nothing. *)
Lemma save_kde_curve_writes values feature prefix w :
  disk (exec (save_kde_curve config values feature prefix) w) = disk w
  \/ exists kde lo hi,
       disk (exec (save_kde_curve config values feature prefix) w)
       = (kde_txt config prefix feature,
          TextFile (kde_header feature) (kde_curve kde lo hi)) :: disk w.
Proof.
  unfold exec, save_kde_curve.
  destruct (1 <? List.length values); [|now left].
  rewrite !run_lift.
  destruct (gaussian_kde (numbers values)) as [kde|e]; [|now left].
  destruct (Qmin_list (numbers values)) as [|lo| | |]; try now left.
  destruct (Qmax_list (numbers values)) as [|hi| | |]; try now left.
  unfold _save_dataframe_as_text. fold (kde_txt config prefix feature).
  destruct (writable w (kde_txt config prefix feature)) eqn:Hw.
  - rewrite !run_write by exact Hw. right. unfold logger. world_simpl.
    cbn [snd]. world_simpl. eauto.
  - rewrite !run_write_refused by exact Hw. now left.
Qed.

End FeatureDistribution.

(* ================================================================== *)
(** ** The reindexed tables cover the product of their keys *)

Section Cover.

Context {E : Estimators}.

Lemma index_of_prefix by_cols rest i :
  NoDup by_cols -> i < List.length by_cols ->
  index_of (nth i by_cols EmptyString) (by_cols ++ rest) = Some i.
Proof.
  intros Hnd. revert i. induction Hnd as [|b l Hb Hnd IH]; intros i Hi; [cbn in Hi; lia|].
  destruct i as [|i]; cbn.
  - now rewrite String.eqb_refl.
  - cbn in Hi. assert (i < List.length l) as Hi' by lia.
    destruct (String.eqb (nth i l EmptyString) b) eqn:Heq.
    + apply String.eqb_eq in Heq. exfalso. apply Hb. rewrite <- Heq. now apply nth_In.
    + now rewrite (IH i Hi').
Qed.

(** The key columns of a row that starts with its key. *)
Lemma row_key_prefix g by_cols rest k x :
  NoDup by_cols -> column_names g = (by_cols ++ rest)%list ->
  List.length k = List.length by_cols ->
  row_key g by_cols (k ++ x) = k.
Proof.
  intros Hnd Hnames Hk. unfold row_key.
  apply (nth_ext _ _ NA NA); [now rewrite length_map|].
  intros n Hn. rewrite length_map in Hn.
  rewrite (nth_indep _ NA (get g (k ++ x) EmptyString)) by now rewrite length_map.
  rewrite map_nth. unfold get. rewrite Hnames, (index_of_prefix _ _ _ Hnd Hn).
  apply app_nth1. lia.
Qed.

(** A row of the grouped table, bounds included, has the key of a row of
    the data. *)
Lemma grouped_row_key by_cols value stats f r :
  NoDup by_cols ->
  index_of "lower_bound" (column_names (groupby_agg by_cols value stats f)) = None ->
  index_of "upper_bound" (column_names (groupby_agg by_cols value stats f)) = None ->
  In r (rows (with_bounds (groupby_agg by_cols value stats f))) ->
  exists r0, In r0 (rows f)
    /\ row_key (with_bounds (groupby_agg by_cols value stats f)) by_cols r
       = row_key f by_cols r0.
Proof.
  intros Hnd Hl Hu Hin.
  rewrite (with_bounds_rows _ (rect_groupby_agg by_cols value stats f) Hl Hu) in *.
  cbn [rows] in Hin. apply in_map_iff in Hin as (rg & <- & Hin).
  unfold groupby_agg in Hin. cbn [rows] in Hin.
  apply in_map_iff in Hin as (k & <- & Hk).
  pose proof (key_length by_cols f k Hk) as Hlen.
  apply group_keys_in in Hk as (r0 & Hr0 & Hkey).
  exists r0. split; [exact Hr0|]. rewrite <- Hkey.
  rewrite <- !app_assoc.
  eapply row_key_prefix; [exact Hnd| |exact Hlen].
  unfold column_names, groupby_agg. cbn [columns].
  rewrite !map_app, key_columns_names, <- !app_assoc. reflexivity.
Qed.

(** A key no row of the data has is not found in the grouped table. *)
Lemma absent_key_not_found by_cols value stats f k :
  NoDup by_cols ->
  index_of "lower_bound" (column_names (groupby_agg by_cols value stats f)) = None ->
  index_of "upper_bound" (column_names (groupby_agg by_cols value stats f)) = None ->
  no_row_with by_cols k f = true ->
  find (fun r => key_eqb (row_key (with_bounds (groupby_agg by_cols value stats f))
                            by_cols r) k)
       (rows (with_bounds (groupby_agg by_cols value stats f)))
  = None.
Proof.
  intros Hnd Hl Hu Habs.
  destruct (find _ _) as [r|] eqn:Hf; [exfalso|reflexivity].
  apply find_some in Hf as [Hin Hkey].
  destruct (grouped_row_key by_cols value stats f r Hnd Hl Hu Hin) as (r0 & Hr0 & Heq).
  rewrite Heq in Hkey. unfold no_row_with in Habs.
  rewrite forallb_forall in Habs. specialize (Habs r0 Hr0).
  now rewrite Hkey in Habs.
Qed.

Lemma firstn_key {A} (k x : list A) n :
  List.length k = n -> firstn n (k ++ x) = k.
Proof.
  intros <-. rewrite firstn_app, Nat.sub_diag, firstn_all. cbn. apply app_nil_r.
Qed.

Lemma reindex_keys by_cols idx g :
  (forall k, In k idx -> List.length k = 2) ->
  map (firstn 2) (rows (reindex by_cols idx g)) = idx.
Proof.
  intros Hidx. unfold reindex. cbn [rows]. rewrite map_map.
  rewrite <- (map_id idx) at 2. apply map_ext_in. intros k Hk.
  specialize (Hidx k Hk).
  destruct (find _ _); now apply firstn_key.
Qed.

Lemma reindex_absent by_cols idx g i k :
  nth_error idx i = Some k ->
  find (fun r => key_eqb (row_key g by_cols r) k) (rows g) = None ->
  nth_error (rows (reindex by_cols idx g)) i
  = Some (k ++ map (fun _ => NA) (map fst (other_columns by_cols g)))%list.
Proof.
  intros Hi Hf. unfold reindex. cbn [rows].
  rewrite nth_error_map, Hi. cbn [option_map]. now rewrite Hf.
Qed.

Lemma NoDup_two (a b : string) : String.eqb a b = false -> NoDup [a; b].
Proof.
  intros H. apply String.eqb_neq in H.
  constructor; [intros [Hab|[]]; congruence|]. constructor; [intros []|constructor].
Qed.

Lemma time_event_table_covers metric f :
  covers ["time_period"; "event_name"] (time_event_index f) f (time_event_table metric f).
Proof.
  split.
  - apply reindex_keys. intros k Hk. now apply from_product_length2 in Hk.
  - intros i k Hi Habs. unfold time_event_table.
    erewrite reindex_absent; [reflexivity|exact Hi|].
    apply absent_key_not_found; [now apply NoDup_two|reflexivity..|exact Habs].
Qed.

Lemma type_event_table_covers metric f :
  covers ["post_type"; "event_name"] (type_event_index f) f (type_event_table metric f).
Proof.
  split.
  - apply reindex_keys. intros k Hk. now apply from_product_length2 in Hk.
  - intros i k Hi Habs. unfold type_event_table.
    erewrite reindex_absent; [reflexivity|exact Hi|].
    apply absent_key_not_found; [now apply NoDup_two|reflexivity..|exact Habs].
Qed.

Lemma from_product_length a b :
  List.length (from_product a b) = List.length a * List.length b.
Proof. unfold from_product. now rewrite length_map, length_prod. Qed.

(** The day-of-week table has a row for a key only when the data has one. *)
Lemma groupby_mean_rows by_cols value f r :
  In r (rows (groupby_mean by_cols value f)) ->
  exists r0, In r0 (rows f) /\ firstn (List.length by_cols) r = row_key f by_cols r0.
Proof.
  unfold groupby_mean. cbn [rows]. intros Hin.
  apply in_map_iff in Hin as (k & <- & Hk).
  apply group_keys_in in Hk as (r0 & Hr0 & ->).
  exists r0. split; [exact Hr0|].
  apply firstn_key. unfold row_key. apply length_map.
Qed.

End Cover.

(** C1, as the code has it.  The time-and-event view and the type-and-event
    view, on data that passes their checks, write and plot a table with one
    row per element of the product of the expected keys (the four periods
    by the events of the filtered data, the post types by the events of the
    filtered data), in that order, with NaN in all six statistics where the
    data has no row for the key.  The day-of-week view does not reindex: the
    table it plots has a row for a day and an event only when the data has
    one. *)
Theorem aggregation_tables_cover_key_product :
  forall (E : Estimators) (config : Config) (df : nat) (w : World),
    (forall metric prefix title y_label,
        forallb (has_column (nth df (heap w) (mkDF [] [])))
                [metric; "event_name"; "time_period"] = true ->
        empty (dropna [metric; "event_name"; "time_period"]
                 (nth df (heap w) (mkDF [] []))) = false ->
        numeric_column (dropna [metric; "event_name"; "time_period"]
                          (nth df (heap w) (mkDF [] []))) metric = true ->
        writable w (time_event_txt config prefix) = true ->
        writable w (time_event_png config prefix) = true ->
        exists t,
          disk (exec (plot_average_metric_by_time_and_event config df metric prefix title
                        y_label) w)
          = (time_event_png config prefix,
             PngFile (time_event_figure title y_label t) 300)
            :: (time_event_txt config prefix, TextFile (time_event_header metric) t)
            :: disk w
          /\ covers ["time_period"; "event_name"]
               (from_product (map Str all_periods)
                  (unique (series (dropna [metric; "event_name"; "time_period"]
                                     (nth df (heap w) (mkDF [] []))) "event_name")))
               (dropna [metric; "event_name"; "time_period"]
                  (nth df (heap w) (mkDF [] [])))
               t
          /\ List.length (rows t)
             = 4 * List.length
                     (unique (series (dropna [metric; "event_name"; "time_period"]
                                        (nth df (heap w) (mkDF [] []))) "event_name")))
    /\ (forall metric title filename sel,
          forallb (has_column (nth df (heap w) (mkDF [] [])))
                  [metric; "event_name"; "post_type"] = true ->
          empty (type_event_rows metric sel (nth df (heap w) (mkDF [] []))) = false ->
          numeric_column (nth df (heap w) (mkDF [] [])) metric = true ->
          writable w (type_event_txt config metric) = true ->
          writable w (PyStr.path_join (FIGURES_DIR config) filename) = true ->
          exists t,
            disk (exec (plot_metric_by_event_and_type config df metric title filename
                          sel) w)
            = (PyStr.path_join (FIGURES_DIR config) filename,
               PngFile (type_event_figure metric title t) 300)
              :: (type_event_txt config metric, TextFile (type_event_header metric) t)
              :: disk w
            /\ covers ["post_type"; "event_name"]
                 (from_product
                    (unique (series (type_event_rows metric sel
                                       (nth df (heap w) (mkDF [] []))) "post_type"))
                    (unique (series (type_event_rows metric sel
                                       (nth df (heap w) (mkDF [] []))) "event_name")))
                 (type_event_rows metric sel (nth df (heap w) (mkDF [] [])))
                 t
            /\ List.length (rows t)
               = List.length
                   (unique (series (type_event_rows metric sel
                                      (nth df (heap w) (mkDF [] []))) "post_type"))
                 * List.length
                     (unique (series (type_event_rows metric sel
                                        (nth df (heap w) (mkDF [] []))) "event_name")))
    /\ (forall time_col engagement_col filename,
          forallb (has_column (nth df (heap w) (mkDF [] [])))
                  [time_col; engagement_col; "event_name"] = true ->
          empty (dropna [time_col; engagement_col; "event_name"]
                   (nth df (heap w) (mkDF [] []))) = false ->
          outcome (plot_engagement_per_day config df time_col engagement_col filename) w
            = Ok tt ->
          exists times fig,
            to_datetime_all
              (series (dropna [time_col; engagement_col; "event_name"]
                         (nth df (heap w) (mkDF [] []))) time_col) = Ok times
            /\ disk (exec (plot_engagement_per_day config df time_col engagement_col
                             filename) w)
               = (PyStr.path_join (FIGURES_DIR config) filename, PngFile fig 300)
                 :: disk w
            /\ map chart_rows (charts fig)
               = [rows (groupby_mean ["day_of_week"; "event_name"] engagement_col
                          (with_day_of_week time_col times
                             (dropna [time_col; engagement_col; "event_name"]
                                (nth df (heap w) (mkDF [] [])))))]
            /\ forall r,
                 In r (rows (groupby_mean ["day_of_week"; "event_name"] engagement_col
                               (with_day_of_week time_col times
                                  (dropna [time_col; engagement_col; "event_name"]
                                     (nth df (heap w) (mkDF [] [])))))) ->
                 exists r0,
                   In r0 (rows (with_day_of_week time_col times
                                  (dropna [time_col; engagement_col; "event_name"]
                                     (nth df (heap w) (mkDF [] [])))))
                   /\ firstn 2 r
                      = row_key (with_day_of_week time_col times
                                   (dropna [time_col; engagement_col; "event_name"]
                                      (nth df (heap w) (mkDF [] []))))
                          ["day_of_week"; "event_name"] r0).
Proof.
  intros E config df w. split; [|split].
  - intros metric prefix title y_label Hc He Hn Htxt Hpng.
    eexists. unfold exec.
    rewrite (time_event_drawn config df metric prefix title y_label w Hc He Hn Htxt Hpng).
    cbn [snd disk]. split; [reflexivity|]. split.
    + apply time_event_table_covers.
    + pose proof (time_event_table_covers metric
                    (dropna [metric; "event_name"; "time_period"]
                       (nth df (heap w) (mkDF [] [])))) as [Hkeys _].
      apply (f_equal (@List.length _)) in Hkeys.
      rewrite length_map in Hkeys. rewrite Hkeys.
      unfold time_event_index. now rewrite from_product_length.
  - intros metric title filename sel Hc He Hn Htxt Hpng.
    eexists. unfold exec.
    rewrite (type_event_drawn config df metric title filename sel w Hc He Hn Htxt Hpng).
    cbn [snd disk]. split; [reflexivity|]. split.
    + apply type_event_table_covers.
    + pose proof (type_event_table_covers metric
                    (type_event_rows metric sel (nth df (heap w) (mkDF [] []))))
        as [Hkeys _].
      apply (f_equal (@List.length _)) in Hkeys.
      rewrite length_map in Hkeys. rewrite Hkeys.
      unfold type_event_index. now rewrite from_product_length.
  - intros time_col engagement_col filename Hc He Hok.
    destruct (engagement_per_day_returned config df time_col engagement_col filename w
                Hc He Hok) as (times & Ht & Hn & Hw).
    unfold exec.
    rewrite (engagement_per_day_drawn config df time_col engagement_col filename times w
               Hc He Ht Hn Hw).
    cbn [snd disk]. exists times. eexists. split; [exact Ht|].
    split; [reflexivity|]. split; [reflexivity|].
    intros r Hr.
    apply (groupby_mean_rows ["day_of_week"; "event_name"] engagement_col _ r Hr).
Qed.

Lemma aggregation_tables_cover_key_product_witness :
  exists t,
    disk (exec (@plot_average_metric_by_time_and_event Sample.estimators Sample.config 0
                  "comment_score" "avg_comment_score" "Scores" "Score") Sample.w0)
    = (time_event_png Sample.config "avg_comment_score",
       PngFile (time_event_figure "Scores" "Score" t) 300)
      :: (time_event_txt Sample.config "avg_comment_score",
          TextFile (time_event_header "comment_score") t)
      :: disk Sample.w0
    /\ List.length (rows t) = 8.
Proof.
  destruct (proj1 (aggregation_tables_cover_key_product Sample.estimators Sample.config
                     0 Sample.w0)
              "comment_score" "avg_comment_score" "Scores" "Score"
              eq_refl eq_refl eq_refl eq_refl eq_refl) as (t & Hdisk & _ & Hlen).
  exists t. split; [exact Hdisk|exact Hlen].
Defined.

(** C1 fails as stated: the day-of-week view plots the grouped table as it
    is.  With comments on a Thursday (event A) and a Friday (event B) the
    table has two rows, not one for each of the seven days and two events. *)
Lemma engagement_per_day_omits_absent_days :
  plotted_rows_of
    (disk (exec (@plot_engagement_per_day Sample.estimators Sample.config 0
                   "created_utc" "comment_score" "days.png") Sample.w0))
  = [[[Str "Friday"; Str "B"; Num 3];
      [Str "Thursday"; Str "A"; Num (5 # 2)]]].
Proof. vm_compute. reflexivity. Qed.

(* ================================================================== *)
(** ** Bounds in the tables on disk *)

Section Bounds.

Context {E : Estimators} (config : Config).

(** A view that writes at most its table and then its chart puts no other
    table on disk. *)
Lemma new_text_table (d0 d1 : list (string * file)) txt h (T : DataFrame) png p hdr t :
  d1 = d0
  \/ d1 = (txt, TextFile h T) :: d0
  \/ (exists fig, d1 = (png, PngFile fig 300) :: (txt, TextFile h T) :: d0) ->
  In (p, TextFile hdr t) d1 ->
  In (p, TextFile hdr t) d0 \/ t = T.
Proof.
  intros [->|[->|[fig ->]]] Hin; [now left| |].
  - destruct Hin as [Heq|Hin]; [right; congruence|now left].
  - destruct Hin as [Heq|[Heq|Hin]]; [discriminate|right; congruence|now left].
Qed.

Lemma time_event_table_has_bounds metric f : has_bounds (time_event_table metric f).
Proof. split; [reflexivity|apply time_event_table_bounds]. Qed.

Lemma type_event_table_has_bounds metric f : has_bounds (type_event_table metric f).
Proof. split; [reflexivity|apply type_event_table_bounds]. Qed.

Lemma comparison_table_has_bounds feature f : has_bounds (comparison_table feature f).
Proof. split; [reflexivity|apply comparison_table_bounds]. Qed.

Lemma distribution_summary_has_bounds values :
  summary_has_bounds (distribution_summary values).
Proof. split; [reflexivity|apply distribution_summary_bounds]. Qed.

(** Every path of the feature distribution: the tables it writes are its
    summary and its density curve. *)
Lemma feature_distribution_tables df feature title x_label bins prefix w p hdr t :
  In (p, TextFile hdr t)
     (disk (exec (plot_feature_distribution config df feature title x_label bins prefix)
                 w)) ->
  In (p, TextFile hdr t) (disk w)
  \/ t = distribution_summary
           (series_dropna (series (nth df (heap w) (mkDF [] [])) feature))
  \/ exists kde lo hi, t = kde_curve kde lo hi.
Proof.
  unfold exec, plot_feature_distribution. step.
  destruct (negb _); [now left|]. cbv zeta.
  destruct (_ =? 0); [now left|].
  unfold require_numeric. destruct (numeric_column _ _); [|now left].
  step.
  destruct (writable w (summary_txt config prefix feature)) eqn:Hs;
    [ rewrite (run_save_text config) by exact Hs
    | rewrite (run_save_text_refused config) by exact Hs; now left ].
  unfold bind.
  match goal with
  | |- context [save_kde_curve config ?v ?f ?p ?w1] =>
      pose proof (save_kde_curve_writes config v f p w1) as Hk;
      unfold exec in Hk;
      destruct (save_kde_curve config v f p w1) as [[[]|e] w2]
  end.
  - match goal with
    | |- context [feature_histogram config ?a ?b ?c ?d ?e ?f ?g ?h w2] =>
        pose proof (feature_histogram_writes config a b c d e f g h w2) as Hh;
        unfold exec in Hh
    end.
    cbn [snd disk with_log with_disk] in Hk.
    intros Hin. cbn [snd] in *.
    destruct Hh as [Hh|[fig Hh]]; rewrite Hh in Hin;
      destruct Hk as [Hk|(kde & lo & hi & Hk)]; rewrite Hk in Hin; cbn [In] in Hin.
    + destruct Hin as [Heq|Hin]; [right; left; congruence|now left].
    + destruct Hin as [Heq|[Heq|Hin]];
        [right; right; exists kde, lo, hi; congruence|right; left; congruence|now left].
    + destruct Hin as [Heq|[Heq|Hin]];
        [discriminate|right; left; congruence|now left].
    + destruct Hin as [Heq|[Heq|[Heq|Hin]]];
        [discriminate|right; right; exists kde, lo, hi; congruence
        |right; left; congruence|now left].
  - cbn [snd disk with_log with_disk] in Hk. intros Hin. cbn [snd] in *.
    destruct Hk as [Hk|(kde & lo & hi & Hk)]; rewrite Hk in Hin; cbn [In] in Hin.
    + destruct Hin as [Heq|Hin]; [right; left; congruence|now left].
    + destruct Hin as [Heq|[Heq|Hin]];
        [right; right; exists kde, lo, hi; congruence|right; left; congruence|now left].
Qed.

End Bounds.

(** C5: every table the four views put on disk, on any path, has its bound
    columns equal to mean - std and mean + std in every row, the rows that
    reindexing filled with NaN included; the feature distribution also
    writes its density curve, which has no bounds. *)
Theorem bounds_are_mean_minus_plus_std :
  forall (E : Estimators) (config : Config) (df : nat) (w : World)
         (p hdr : string) (t : DataFrame),
    (forall metric prefix title y_label,
        In (p, TextFile hdr t)
           (disk (exec (plot_average_metric_by_time_and_event config df metric prefix
                          title y_label) w)) ->
        In (p, TextFile hdr t) (disk w) \/ has_bounds t)
    /\ (forall metric title filename sel,
          In (p, TextFile hdr t)
             (disk (exec (plot_metric_by_event_and_type config df metric title filename
                            sel) w)) ->
          In (p, TextFile hdr t) (disk w) \/ has_bounds t)
    /\ (forall feature title y_label prefix plot_type,
          In (p, TextFile hdr t)
             (disk (exec (plot_distribution_comparison config df feature title y_label
                            prefix plot_type) w)) ->
          In (p, TextFile hdr t) (disk w) \/ has_bounds t)
    /\ (forall feature title x_label bins prefix,
          In (p, TextFile hdr t)
             (disk (exec (plot_feature_distribution config df feature title x_label bins
                            prefix) w)) ->
          In (p, TextFile hdr t) (disk w)
          \/ summary_has_bounds t
          \/ exists kde lo hi, t = kde_curve kde lo hi).
Proof.
  intros E config df w p hdr t. repeat split.
  - intros metric prefix title y_label Hin.
    destruct (new_text_table _ _ _ _ _ _ _ _ _
                (time_event_writes config df metric prefix title y_label w) Hin)
      as [H| ->]; [now left|right; apply time_event_table_has_bounds].
  - intros metric title filename sel Hin.
    destruct (new_text_table _ _ _ _ _ _ _ _ _
                (type_event_writes config df metric title filename sel w) Hin)
      as [H| ->]; [now left|right; apply type_event_table_has_bounds].
  - intros feature title y_label prefix plot_type Hin.
    destruct (new_text_table _ _ _ _ _ _ _ _ _
                (comparison_writes config df feature title y_label prefix plot_type w)
                Hin)
      as [H| ->]; [now left|right; apply comparison_table_has_bounds].
  - intros feature title x_label bins prefix Hin.
    destruct (feature_distribution_tables config df feature title x_label bins prefix w
                p hdr t Hin) as [H|[-> |H]];
      [now left|right; left; apply distribution_summary_has_bounds|now right; right].
Qed.

Lemma bounds_are_mean_minus_plus_std_witness :
  In (time_event_txt Sample.config "avg_comment_score",
      TextFile (time_event_header "comment_score")
        (@time_event_table Sample.estimators "comment_score"
           (dropna ["comment_score"; "event_name"; "time_period"] Sample.comments)))
     (disk (exec (@plot_average_metric_by_time_and_event Sample.estimators Sample.config 0
                    "comment_score" "avg_comment_score" "Scores" "Score") Sample.w0))
  /\ (In (time_event_txt Sample.config "avg_comment_score",
          TextFile (time_event_header "comment_score")
            (@time_event_table Sample.estimators "comment_score"
               (dropna ["comment_score"; "event_name"; "time_period"] Sample.comments)))
         (disk Sample.w0)
      \/ has_bounds
           (@time_event_table Sample.estimators "comment_score"
              (dropna ["comment_score"; "event_name"; "time_period"] Sample.comments))).
Proof.
  assert (In (time_event_txt Sample.config "avg_comment_score",
              TextFile (time_event_header "comment_score")
                (@time_event_table Sample.estimators "comment_score"
                   (dropna ["comment_score"; "event_name"; "time_period"]
                      Sample.comments)))
             (disk (exec (@plot_average_metric_by_time_and_event Sample.estimators
                            Sample.config 0 "comment_score" "avg_comment_score"
                            "Scores" "Score") Sample.w0))) as H.
  { vm_compute. right. left. reflexivity. }
  split; [exact H|].
  exact (proj1 (bounds_are_mean_minus_plus_std Sample.estimators Sample.config 0
                  Sample.w0 _ _ _)
           "comment_score" "avg_comment_score" "Scores" "Score" H).
Defined.

(* ================================================================== *)
(** ** The density curve of the feature distribution *)

Section DensityCurve.

Context {E : Estimators} (config : Config).



End DensityCurve.




(* ================================================================== *)
(** ** Where the views write *)

Ltac unfold_views :=
  unfold plot_average_metric_by_time_and_event, plot_metric_by_event_and_type,
    plot_feature_distribution, save_kde_curve, feature_histogram,
    plot_distribution_comparison, plot_posting_behavior_hist,
    plot_posting_behavior_heatmap, heatmap_of_table, plot_score_development,
    plot_pearson_correlation,
    plot_eventwise_heatmap, plot_boxplot_with_stats, plot_event_keyword_distribution,
    plot_dual_distribution, plot_keyword_score_heatmap, plot_engagement_per_day,
    draw, plt_title, plt_xlabel, plt_ylabel.

Create HintDb disks.

Section Disk.

Context {E : Estimators} (config : Config) (png : string) (txts : list string).

Lemma writes_nothing {A} (m : M A) :
  (forall w, disk (exec m w) = disk w) -> writes_reports png txts m.
Proof. intros H w. exists []. split; [apply H | constructor]. Qed.


Lemma writes_on_current f : writes_reports png txts (on_current f).
Proof.
  apply writes_nothing. intros w. unfold exec, on_current.
  now destruct (figures w) as [|[n g] rest].
Qed.




End Disk.

#[local] Hint Resolve writes_on_current : disks.




(* ================================================================== *)
(** ** What a view that returns has reported *)

Create HintDb reports.

Section Reports.

Context {E : Estimators} (config : Config).

Lemma images_kept {A} (m : M A) :
  (forall w, disk (exec m w) = disk w) -> keeps_images m.
Proof. intros H w. now rewrite H. Qed.

Lemma images_bind {A B} (m : M A) (k : A -> M B) :
  keeps_images m -> (forall a, keeps_images (k a)) -> keeps_images (bind m k).
Proof.
  intros Hm Hk w. specialize (Hm w). unfold exec, bind in *.
  destruct (m w) as [[a|e] w1]; cbn in *; [|exact Hm].
  rewrite <- Hm. apply (Hk a w1).
Qed.

Lemma images_on_current f : keeps_images (on_current f).
Proof.
  apply images_kept. intros w. unfold exec, on_current.
  now destruct (figures w) as [|[n g] rest].
Qed.

Lemma images_save_text t filename title :
  keeps_images (_save_dataframe_as_text config t filename title).
Proof.
  intros w. unfold exec, _save_dataframe_as_text, bind, write_file.
  now destruct (writable w (PyStr.path_join (REPORTS_DIR config) filename)).
Qed.

Lemma reports_bind {A B} (m : M A) (k : A -> M B) :
  keeps_images m -> (forall a, saved_or_skipped (k a)) -> saved_or_skipped (bind m k).
Proof.
  intros Hm Hk w b. specialize (Hm w). unfold outcome, exec, bind in *.
  destruct (m w) as [[a|e] w1]; cbn in *; [|discriminate].
  intros H. rewrite <- Hm. apply (Hk a w1 b H).
Qed.

Lemma reports_warning msg : saved_or_skipped (logger WARNING msg).
Proof.
  intros w a _. right. exists WARNING, msg, (log w).
  repeat split. discriminate.
Qed.

Lemma reports_error msg : saved_or_skipped (logger ERROR msg).
Proof.
  intros w a _. right. exists ERROR, msg, (log w).
  repeat split. discriminate.
Qed.

(** The branch that refuses the mode: the error, then [plt.close]. *)
Lemma reports_error_close msg n :
  saved_or_skipped (logger ERROR msg ;; plt_close n).
Proof.
  intros w a _. right. exists ERROR, msg, (log w).
  repeat split. discriminate.
Qed.

Lemma reports_save_plot n filename : saved_or_skipped (save_plot config n filename).
Proof.
  intros w a. unfold outcome, exec, save_plot, bind, savefig, write_file.
  destruct (lookup_figure n (figures w)) as [g|];
    destruct (writable w (PyStr.path_join (FIGURES_DIR config) filename));
    cbn; try discriminate; intros _; left.
  - exists (PyStr.path_join (FIGURES_DIR config) filename), g, (log w). now split.
  - exists (PyStr.path_join (FIGURES_DIR config) filename), (blank (6, 4)), (log w).
    now split.
Qed.

#[local] Hint Resolve images_on_current images_save_text reports_warning reports_error
  reports_error_close reports_save_plot : reports.

Ltac reports :=
  repeat first
    [ progress cbv zeta
    | solve [auto with reports]
    | solve [apply images_kept; intros ?; reflexivity]
    | match goal with
      | |- _ (if ?c then _ else _) => destruct c
      | |- _ (match ?c with _ => _ end) => destruct c
      | |- keeps_images (bind _ _) => apply images_bind; [ | intros ?]
      | |- saved_or_skipped (bind _ _) => apply reports_bind; [ | intros ?]
      end ].

Lemma view_saved_or_skipped v df : saved_or_skipped (run_view config v df).
Proof.
  destruct v; cbn [run_view]; unfold_views;
    unfold df_dropna, df_copy, require_numeric, add_bounds.
  all: reports.
Qed.

End Reports.

(** A view that returns has either written exactly one image, a PNG at
    300 dpi, and confirmed its path in its last log record, at level info;
    or it has written no image and its last log record is a warning or an
    error. *)
Theorem returned_view_saved_or_said_why :
  forall (E : Estimators) (config : Config) (v : View) (df : nat) (w : World),
    outcome (run_view config v df) w = Ok tt ->
    (exists path fig earlier,
        images (disk (exec (run_view config v df) w))
        = (path, PngFile fig 300) :: images (disk w)
        /\ log (exec (run_view config v df) w)
           = (INFO, "Plot saved to: " ++ path) :: earlier)
    \/ (exists lvl msg earlier,
           log (exec (run_view config v df) w) = (lvl, msg) :: earlier
           /\ (lvl = WARNING \/ lvl = ERROR)
           /\ images (disk (exec (run_view config v df) w)) = images (disk w)).
Proof.
  intros E config v df w H.
  destruct (view_saved_or_skipped config v df w tt H)
    as [(p & g & l & H1 & H2) | (lvl & msg & l & H1 & H2 & H3)].
  - left. eauto.
  - right. exists lvl, msg, l. repeat split; auto.
    destruct lvl; auto. congruence.
Qed.

Lemma returned_view_saved_or_said_why_witness :
  let m := @run_view Sample.estimators Sample.config
             (PostingBehaviorHeatmap "Posts" "heatmap.png") 0 in
  let w := Sample.world [Sample.counts] Sample.accept_all in
  outcome m w = Ok tt
  /\ ((exists path fig earlier,
          images (disk (exec m w)) = (path, PngFile fig 300) :: images (disk w)
          /\ log (exec m w) = (INFO, "Plot saved to: " ++ path) :: earlier)
      \/ (exists lvl msg earlier,
             log (exec m w) = (lvl, msg) :: earlier
             /\ (lvl = WARNING \/ lvl = ERROR)
             /\ images (disk (exec m w)) = images (disk w))).
Proof.
  split; [reflexivity|].
  apply (returned_view_saved_or_said_why Sample.estimators Sample.config
           (PostingBehaviorHeatmap "Posts" "heatmap.png") 0
           (Sample.world [Sample.counts] Sample.accept_all)).
  reflexivity.
Defined.

(* ================================================================== *)
(** ** The figures that were open before a view ran *)

Create HintDb own.

Section OwnFigure.

Context {E : Estimators} (config : Config).

Lemma idle_bind {A B} (m : M A) (k : A -> M B) :
  pyplot_idle m -> (forall a, pyplot_idle (k a)) -> pyplot_idle (bind m k).
Proof.
  intros Hm Hk w. destruct (Hm w) as [H1 H2]. unfold exec, bind in *.
  destruct (m w) as [[a|e] w1]; cbn in *; [|now split].
  rewrite <- H1, <- H2. apply (Hk a w1).
Qed.

Lemma idle_write p c : pyplot_idle (write_file p c).
Proof. intros w. unfold exec, write_file. now destruct (writable w p). Qed.

Lemma settles_bind n {A B} (m : M A) (k : A -> M B) :
  draws_on n m -> (forall a, settles n (k a)) -> settles n (bind m k).
Proof.
  intros Hm Hk w g rest Hf. destruct (Hm w g rest Hf) as [g1 H1].
  unfold outcome, exec, bind in *. destruct (m w) as [[a|e] w1]; cbn in *.
  - apply (Hk a w1 g1 rest H1).
  - right. eauto.
Qed.

Lemma settles_close n : settles n (plt_close n).
Proof.
  intros w g rest Hf. left. unfold exec, plt_close. cbn.
  now rewrite Hf, remove_figure_head.
Qed.

Lemma settles_save_plot n filename : settles n (save_plot config n filename).
Proof.
  intros w g rest Hf. unfold outcome, exec.
  destruct (writable w (PyStr.path_join (FIGURES_DIR config) filename)) eqn:Hw.
  - rewrite (save_plot_done config n g rest filename w Hf Hw). now left.
  - rewrite (save_plot_refused config n g rest filename w Hf Hw). right.
    exists g, (OSError (PyStr.path_join (FIGURES_DIR config) filename)).
    split; [exact Hf | reflexivity].
Qed.

Lemma own_idle {A} (m : M A) : pyplot_idle m -> own_figure m.
Proof. intros H w. left. apply H. Qed.

Lemma own_bind {A B} (m : M A) (k : A -> M B) :
  pyplot_idle m -> (forall a, own_figure (k a)) -> own_figure (bind m k).
Proof.
  intros Hm Hk w. destruct (Hm w) as [H1 H2]. unfold outcome, exec, bind in *.
  destruct (m w) as [[a|e] w1]; cbn in *; [|now left].
  rewrite <- H1, <- H2. apply (Hk a w1).
Qed.

Lemma own_new_figure {B} size (k : nat -> M B) :
  (forall n, settles n (k n)) -> own_figure (bind (plt_figure size) k).
Proof.
  intros Hk w. unfold outcome, exec. rewrite run_figure.
  destruct (Hk (next_fig w)
              (with_figures ((next_fig w, blank size) :: figures w) (S (next_fig w)) w)
              (blank size) (figures w) eq_refl)
    as [H | (g & e & H1 & H2)].
  - left. exact H.
  - right. exists g, e. split; [exact H1 | exact H2].
Qed.

#[local] Hint Resolve idle_write settles_close settles_save_plot draws_on_current
  keeps_ret keeps_raise keeps_lift keeps_logger keeps_write keeps_new
  keeps_read keeps_assign keeps_save_text keeps_dropna keeps_copy keeps_require
  keeps_bounds : own.

Ltac own :=
  repeat first
    [ progress cbv zeta
    | solve [auto with own]
    | solve [intros ?; split; reflexivity]
    | match goal with
      | |- _ (if ?c then _ else _) => destruct c
      | |- _ (match ?c with _ => _ end) => destruct c
      | |- pyplot_idle (bind _ _) => apply idle_bind; [ | intros ?]
      | |- keeps_figures (bind _ _) => apply keeps_bind; [ | intros ?]
      | |- draws_on _ (bind _ _) => apply draws_bind; [ | intros ?]
      | |- settles _ (bind _ _) => apply settles_bind; [ | intros ?]
      | |- own_figure (bind (plt_figure _) _) => apply own_new_figure; intros ?
      | |- own_figure (bind _ _) => apply own_bind; [ | intros ?]
      | |- own_figure _ => apply own_idle
      | |- draws_on _ _ => apply keeps_draws
      end ].

Lemma view_own_figure v df : own_figure (run_view config v df).
Proof.
  destruct v; cbn [run_view]; unfold_views;
    unfold _save_dataframe_as_text, df_dropna, df_copy, require_numeric, add_bounds.
  all: own.
Qed.

End OwnFigure.

(** A view never draws on, reorders or closes a figure that was open when
    it was called.  Whatever it does, pyplot's registry ends as it was
    found, or, when the view raised, with the figure the view itself
    opened left on top of it. *)
Theorem view_touches_only_its_own_figure :
  forall (E : Estimators) (config : Config) (v : View) (df : nat) (w : World),
    figures (exec (run_view config v df) w) = figures w
    \/ exists fig e,
         figures (exec (run_view config v df) w) = (next_fig w, fig) :: figures w
         /\ outcome (run_view config v df) w = Raise e.
Proof. intros E config v df w. exact (view_own_figure config v df w). Qed.

(* ================================================================== *)
(** ** A column that is not numeric *)

Section NotNumeric.

Context {E : Estimators} (config : Config).

Lemma series_dropna_length d c :
  List.length (series_dropna (series d c)) = List.length (rows (dropna [c] d)).
Proof.
  unfold series_dropna, series, dropna, row_complete. cbn [rows forallb].
  induction (rows d) as [|r l IH]; [reflexivity|].
  cbn [map filter]. rewrite andb_true_r.
  destruct (negb (is_na (get d r c))); cbn [List.length]; now rewrite IH.
Qed.

Lemma kept_rows_columns v d : columns (kept_rows v d) = columns d.
Proof.
  destruct v; cbn [kept_rows]; try reflexivity.
  unfold type_event_rows. now destruct (truthy selected_types).
Qed.

(** Each of the six views, on data that passes its checks, stops at the
    first statistic of a column of a dtype that is not numeric. *)
Lemma not_numeric_raises v df c w :
  let d := nth df (heap w) (mkDF [] []) in
  averaged_column v = Some c ->
  forallb (has_column d) (required_cols v) = true ->
  empty (kept_rows v d) = false ->
  numeric_column d c = false ->
  exists frames,
    run_view config v df w = (Raise TypeError, with_heap (heap w ++ frames) w).
Proof.
  intros d Hv Hc He Hn.
  assert (Hk : numeric_column (kept_rows v d) c = false).
  { rewrite <- Hn. unfold numeric_column, column_dtype. now rewrite kept_rows_columns. }
  destruct v; cbn [averaged_column] in Hv; try discriminate; injection Hv as ->;
    cbn [run_view required_cols kept_rows] in *.
  - exists [kept_rows (AverageMetricByTimeAndEvent c filename_prefix title y_label) d;
            kept_rows (AverageMetricByTimeAndEvent c filename_prefix title y_label) d].
    cbn [kept_rows required_cols].
    unfold plot_average_metric_by_time_and_event.
    step. fold d. rewrite Hc. cbn [negb].
    rewrite run_filtered. cbv zeta. fold d. step. rewrite He. cbv zeta.
    unfold require_numeric. rewrite Hk. step. now rewrite <- app_assoc.
  - exists (type_event_frames c selected_types d).
    unfold plot_metric_by_event_and_type.
    step. fold d. rewrite Hc. cbn [negb].
    rewrite run_type_event_rows. fold d. rewrite He. cbv zeta.
    unfold require_numeric. rewrite Hk. step. reflexivity.
  - exists [].
    unfold plot_feature_distribution.
    step. fold d. cbn [forallb] in Hc. rewrite andb_true_r in Hc. rewrite Hc.
    cbn [negb]. cbv zeta.
    rewrite series_dropna_length.
    destruct (rows (dropna [c] d)) as [|r l] eqn:Hr.
    { exfalso. revert He. unfold empty. rewrite Hr. now destruct (columns _). }
    cbn [List.length Nat.eqb].
    unfold require_numeric. rewrite Hn. step.
    unfold with_heap. rewrite app_nil_r. now destruct w.
  - exists [dropna [c; "event_name"] d; dropna [c; "event_name"] d].
    unfold plot_distribution_comparison.
    step. fold d. rewrite Hc. cbn [negb].
    rewrite run_filtered. cbv zeta. fold d. step. rewrite He.
    unfold require_numeric. rewrite Hk. step. now rewrite <- app_assoc.
  - exists [dropna [index_col; "event_name"; c] d; dropna [index_col; "event_name"; c] d].
    unfold plot_eventwise_heatmap.
    step. fold d. rewrite Hc. cbn [negb].
    rewrite run_filtered. cbv zeta. fold d. step. rewrite He.
    unfold require_numeric. rewrite Hk. step. now rewrite <- app_assoc.
  - exists [dropna [keyword_col; "event_name"; c] d;
            dropna [keyword_col; "event_name"; c] d].
    unfold plot_keyword_score_heatmap.
    step. fold d. rewrite Hc. cbn [negb].
    rewrite run_filtered. cbv zeta. fold d. step. rewrite He.
    unfold require_numeric. rewrite Hk. step. now rewrite <- app_assoc.
Qed.

End NotNumeric.

(** The six views that compute statistics of a column (the two averages by
    event, the feature distribution, the distribution comparison and the
    two heatmaps of means), on data that has the required columns, all
    different, and keeps at least one row, raise a type error when that
    column is a column of text: of dtype object, with text in every row the
    view keeps.  They do so at their first statistic, before anything is
    written, logged or drawn: the disk, the log and pyplot's registry are
    as the view found them. *)
Theorem text_column_fails_before_any_output :
  forall (E : Estimators) (config : Config) (v : View) (df : nat) (c : string) (w : World),
    let d := nth df (heap w) (mkDF [] []) in
    averaged_column v = Some c ->
    NoDup (required_cols v) ->
    forallb (has_column d) (required_cols v) = true ->
    empty (kept_rows v d) = false ->
    column_dtype d c = Some DObject ->
    forallb (fun r => is_text (get d r c)) (rows (kept_rows v d)) = true ->
    outcome (run_view config v df) w = Raise TypeError
    /\ disk (exec (run_view config v df) w) = disk w
    /\ log (exec (run_view config v df) w) = log w
    /\ figures (exec (run_view config v df) w) = figures w
    /\ next_fig (exec (run_view config v df) w) = next_fig w.
Proof.
  intros E config v df c w d Hv _ Hc He Ht _.
  assert (Hn : numeric_column d c = false) by (unfold numeric_column; now rewrite Ht).
  destruct (not_numeric_raises config v df c w Hv Hc He Hn) as [frames H].
  unfold outcome, exec. rewrite H. repeat split.
Qed.

Lemma text_column_fails_before_any_output_witness :
  let v := DistributionComparison "post_type" "Types" "Type" "cmp_" "violin" in
  let m := @run_view Sample.estimators Sample.config v 0 in
  outcome m Sample.w0 = Raise TypeError
  /\ disk (exec m Sample.w0) = disk Sample.w0
  /\ log (exec m Sample.w0) = log Sample.w0
  /\ figures (exec m Sample.w0) = figures Sample.w0
  /\ next_fig (exec m Sample.w0) = next_fig Sample.w0.
Proof.
  apply (text_column_fails_before_any_output Sample.estimators Sample.config
           (DistributionComparison "post_type" "Types" "Type" "cmp_" "violin") 0
           "post_type" Sample.w0); try reflexivity.
  cbn [required_cols]. constructor.
  - cbn. intros [H|[]]. discriminate H.
  - constructor; [intros []|constructor].
Defined.

(* ================================================================== *)
(** ** The views that render without a table of their own *)

Section Rendered.

Context {E : Estimators} (config : Config).




Lemma boxplot_drawn df x y hue title filename w :
  let d := nth df (heap w) (mkDF [] []) in
  let f := dropna [x; y; hue] d in
  forallb (has_column d) [x; y; hue] = true ->
  empty f = false ->
  writable w (PyStr.path_join (FIGURES_DIR config) filename) = true ->
  plot_boxplot_with_stats config df x y hue title filename w
  = (Ok tt, after_saving config [f; f] (mkFigure (12, 6) [BoxPlot f x y hue] title
                            EmptyString EmptyString) filename w).
Proof.
  intros d f Hc He Hw. unfold plot_boxplot_with_stats.
  step. fold d. rewrite Hc. cbn [negb].
  rewrite run_filtered. cbv zeta. fold d. fold f.
  step. rewrite He.
  repeat step. repeat draw_step.
  erewrite save_plot_done; [|reflexivity|exact Hw].
  unfold after_saving. world_simpl. now rewrite <- !app_assoc.
Qed.

Lemma dual_distribution_drawn df feature1 feature2 title filename w :
  let d := nth df (heap w) (mkDF [] []) in
  let f := dropna [feature1; feature2] d in
  forallb (has_column d) [feature1; feature2] = true ->
  empty f = false ->
  writable w (PyStr.path_join (FIGURES_DIR config) filename) = true ->
  plot_dual_distribution config df feature1 feature2 title filename w
  = (Ok tt, after_saving config [f; f]
              (mkFigure (12, 6)
                 [HistSeries (series f feature1) 30 (Some feature1);
                  HistSeries (series f feature2) 30 (Some feature2)]
                 title EmptyString EmptyString) filename w).
Proof.
  intros d f Hc He Hw. unfold plot_dual_distribution.
  step. fold d. rewrite Hc. cbn [negb].
  rewrite run_filtered. cbv zeta. fold d. fold f.
  step. rewrite He.
  repeat step. repeat draw_step.
  erewrite save_plot_done; [|reflexivity|exact Hw].
  unfold after_saving. world_simpl. now rewrite <- !app_assoc.
Qed.

Lemma keyword_distribution_drawn df keyword_col title filename w :
  let d := nth df (heap w) (mkDF [] []) in
  let f := dropna ["event_name"; keyword_col] d in
  forallb (has_column d) ["event_name"; keyword_col] = true ->
  empty f = false ->
  writable w (PyStr.path_join (FIGURES_DIR config) filename) = true ->
  plot_event_keyword_distribution config df keyword_col title filename w
  = (Ok tt, after_saving config [f; f]
              (mkFigure (12, 8)
                 [Heatmap (percent_of_column (pivot_size keyword_col "event_name" f))
                    ".1f"]
                 title EmptyString "Keyword") filename w).
Proof.
  intros d f Hc He Hw. unfold plot_event_keyword_distribution.
  step. fold d. rewrite Hc. cbn [negb].
  rewrite run_filtered. cbv zeta. fold d. fold f.
  step. rewrite He.
  repeat step. repeat draw_step.
  erewrite save_plot_done; [|reflexivity|exact Hw].
  unfold after_saving. world_simpl. now rewrite <- !app_assoc.
Qed.

Lemma keyword_score_heatmap_drawn df keyword_col score_col filename title w :
  let d := nth df (heap w) (mkDF [] []) in
  let f := dropna [keyword_col; "event_name"; score_col] d in
  forallb (has_column d) [keyword_col; "event_name"; score_col] = true ->
  empty f = false ->
  numeric_column f score_col = true ->
  writable w (PyStr.path_join (FIGURES_DIR config) filename) = true ->
  plot_keyword_score_heatmap config df keyword_col score_col filename title w
  = (Ok tt, after_saving config [f; f]
              (mkFigure (12, 8)
                 [Heatmap (fillna0 (pivot_mean keyword_col "event_name" score_col f))
                    ".1f"]
                 title EmptyString EmptyString) filename w).
Proof.
  intros d f Hc He Hn Hw. unfold plot_keyword_score_heatmap.
  step. fold d. rewrite Hc. cbn [negb].
  rewrite run_filtered. cbv zeta. fold d. fold f.
  step. rewrite He.
  unfold require_numeric. rewrite Hn.
  repeat step. repeat draw_step.
  erewrite save_plot_done; [|reflexivity|exact Hw].
  unfold after_saving. world_simpl. now rewrite <- !app_assoc.
Qed.

Lemma eventwise_heatmap_drawn df index_col value_col title filename w :
  let d := nth df (heap w) (mkDF [] []) in
  let f := dropna [index_col; "event_name"; value_col] d in
  forallb (has_column d) [index_col; "event_name"; value_col] = true ->
  empty f = false ->
  numeric_column f value_col = true ->
  writable w (PyStr.path_join (FIGURES_DIR config) filename) = true ->
  plot_eventwise_heatmap config df index_col value_col title filename w
  = (Ok tt, after_saving config [f; f]
              (mkFigure (10, 6)
                 [Heatmap (pivot_mean index_col "event_name" value_col f) ".2f"]
                 title EmptyString EmptyString) filename w).
Proof.
  intros d f Hc He Hn Hw. unfold plot_eventwise_heatmap.
  step. fold d. rewrite Hc. cbn [negb].
  rewrite run_filtered. cbv zeta. fold d. fold f.
  step. rewrite He.
  unfold require_numeric. rewrite Hn.
  repeat step. repeat draw_step.
  erewrite save_plot_done; [|reflexivity|exact Hw].
  unfold after_saving. world_simpl. now rewrite <- !app_assoc.
Qed.

End Rendered.

(* ================================================================== *)
(** ** The keyword shares of an event add up to 100 *)

Section Shares.

Lemma cell_eqb_refl c : cell_eqb c c = true.
Proof.
  destruct c; cbn; auto.
  - apply Qeq_bool_iff. reflexivity.
  - apply String.eqb_refl.
  - now destruct b.
  - apply Z.eqb_refl.
Qed.

(** [unique] keeps a representative of every value. *)
Lemma unique_from_rep x seen l :
  In x l -> mem x seen = true \/ exists y, In y (unique_from seen l) /\ cell_eqb x y = true.
Proof.
  revert seen. induction l as [|c l IH]; intros seen Hin; [destruct Hin|].
  cbn [unique_from]. destruct Hin as [<- | Hin].
  - destruct (mem c seen) eqn:Hm; [now left|].
    right. exists c. split; [now left | apply cell_eqb_refl].
  - destruct (mem c seen) eqn:Hm.
    + apply IH, Hin.
    + destruct (IH (c :: seen) Hin) as [H | (y & Hy & He)].
      * cbn in H. apply orb_true_iff in H as [H | H]; [|now left].
        right. exists c. split; [now left | exact H].
      * right. exists y. split; [now right | exact He].
Qed.

Lemma unique_rep x l : In x l -> exists y, In y (unique l) /\ cell_eqb x y = true.
Proof.
  intros H. destruct (unique_from_rep x [] l H) as [Hm | Hy]; [discriminate | exact Hy].
Qed.

Lemma unique_from_in x seen l : In x (unique_from seen l) -> In x l.
Proof.
  revert seen. induction l as [|c l IH]; intros seen; cbn; [tauto|].
  destruct (mem c seen); [eauto|]. intros [H | H]; eauto.
Qed.

Lemma in_key_insert k x l : k = x \/ In k l -> In k (key_insert x l).
Proof.
  induction l as [|y l IH]; cbn.
  - intros [H | []]; now left.
  - destruct (key_leb x y); cbn; intros [H | [H | H]]; auto.
Qed.

Lemma in_key_sort k l : In k l -> In k (key_sort l).
Proof.
  induction l as [|x l IH]; cbn; [tauto|].
  intros [H | H]; apply in_key_insert; auto.
Qed.

Lemma in_cell_sort c l : In c (cell_sort l) <-> In c l.
Proof.
  unfold cell_sort. split.
  - intros H. apply in_map_iff in H as (k & <- & Hk).
    apply key_sort_in, in_map_iff in Hk as (c & <- & Hc). exact Hc.
  - intros H. apply in_map_iff. exists [c]. split; [reflexivity|].
    apply in_key_sort. apply (in_map (fun c => [c])). exact H.
Qed.

Lemma numbers_map_Num {A} (h : A -> Q) l : numbers (map (fun a => Num (h a)) l) = map h l.
Proof. induction l; cbn; congruence. Qed.

Lemma column_sums_length n es :
  Forall (fun r : list cell => List.length r = n) es ->
  List.length (column_sums n es) = n.
Proof.
  induction 1 as [|r es Hr _ IH]; cbn.
  - apply repeat_length.
  - rewrite length_map, length_combine, IH, Hr. apply Nat.min_id.
Qed.

Lemma Qsum_numbers_cons c l :
  (Qsum (numbers (c :: l))
   == match to_num c with Some q => q | None => 0 end + Qsum (numbers l))%Q.
Proof.
  cbn [numbers]. destruct (to_num c); unfold Qsum; cbn [fold_right].
  - reflexivity.
  - now rewrite Qplus_0_l.
Qed.

(** A column sum is the sum of the numbers of that column. *)
Lemma column_sums_nth n es j :
  Forall (fun r : list cell => List.length r = n) es -> j < n ->
  (nth j (column_sums n es) 0 == Qsum (numbers (map (fun r => nth j r NA) es)))%Q.
Proof.
  intros H Hj. induction H as [|r es Hr Hes IH].
  - cbn. rewrite nth_repeat. reflexivity.
  - cbn [column_sums map]. rewrite Qsum_numbers_cons, <- IH.
    set (g := fun p : cell * Q =>
                (match to_num (fst p) with Some q => q | None => 0 end + snd p)%Q).
    rewrite (nth_indep _ 0%Q (g (NA, 0%Q)))
      by (rewrite length_map, length_combine, (column_sums_length n es Hes), Hr, Nat.min_id;
          exact Hj).
    rewrite map_nth, combine_nth by (now rewrite (column_sums_length n es Hes)).
    reflexivity.
Qed.

Lemma Qsum_cons x l : Qsum (x :: l) = (x + Qsum l)%Q.
Proof. reflexivity. Qed.

Lemma Qsum_nonneg {A} (h : A -> Q) l :
  (forall a, 0 <= h a)%Q -> (0 <= Qsum (map h l))%Q.
Proof.
  intros Hh. induction l as [|a l IH]; cbn [map]; [apply Qle_refl|].
  rewrite Qsum_cons. specialize (Hh a). lra.
Qed.

Lemma Qsum_member {A} (h : A -> Q) l a :
  (forall a, 0 <= h a)%Q -> In a l -> (h a <= Qsum (map h l))%Q.
Proof.
  intros Hh. induction l as [|b l IH]; intros Hin; [destruct Hin|].
  cbn [map]. rewrite Qsum_cons. destruct Hin as [-> | Hin].
  - pose proof (Qsum_nonneg h l Hh). lra.
  - specialize (IH Hin). specialize (Hh b). lra.
Qed.

Lemma tally_nonneg i c f a b : (0 <= tally i c f a b)%Q.
Proof.
  unfold tally. change 0%Q with (inject_Z 0). rewrite <- Zle_Qle. lia.
Qed.

(** Every column of the pivot has a row that counts at least one. *)
Lemma observed_column_counts i c f b :
  In b (cell_sort (unique (series f c))) ->
  exists a, In a (cell_sort (unique (series f i))) /\ (1 <= tally i c f a b)%Q.
Proof.
  intros Hb. apply in_cell_sort, unique_from_in, in_map_iff in Hb as (r & Hr & Hin).
  destruct (unique_rep (get f r i) (series f i)) as (a & Ha & He).
  { apply in_map_iff. eauto. }
  exists a. split; [now apply in_cell_sort|].
  unfold tally, group_rows.
  assert (Hk : In r (filter (fun r0 => key_eqb (row_key f [i; c] r0) [a; b]) (rows f))).
  { apply filter_In. split; [exact Hin|]. cbn. rewrite He, Hr, cell_eqb_refl. reflexivity. }
  destruct (filter _ (rows f)) as [|x l]; [destruct Hk|].
  change 1%Q with (inject_Z 1). rewrite <- Zle_Qle. cbn [List.length]. lia.
Qed.

Lemma pivot_size_rows i c f :
  Forall (fun r : list cell =>
            List.length r = List.length (col_labels (pivot_size i c f)))
         (entries (pivot_size i c f)).
Proof.
  cbn. apply Forall_forall. intros r Hr. apply in_map_iff in Hr as (a & <- & _).
  now rewrite !length_map.
Qed.

Lemma pivot_size_column i c f j :
  j < List.length (col_labels (pivot_size i c f)) ->
  map (fun r => nth j r NA) (entries (pivot_size i c f))
  = map (fun a => Num (tally i c f a (nth j (col_labels (pivot_size i c f)) NA)))
        (row_labels (pivot_size i c f)).
Proof.
  intros Hj. cbn in *. rewrite map_map. apply map_ext. intros a.
  set (h := fun b => Num (inject_Z (Z.of_nat (List.length (group_rows [i; c] f [a; b]))))).
  rewrite (nth_indep _ NA (h NA)) by (now rewrite length_map).
  now rewrite map_nth.
Qed.

(** The total of a column of the pivot is not zero. *)
Lemma pivot_size_total i c f j :
  j < List.length (col_labels (pivot_size i c f)) ->
  (0 < nth j (column_sums (List.length (col_labels (pivot_size i c f)))
                 (entries (pivot_size i c f))) 0)%Q.
Proof.
  intros Hj.
  rewrite (column_sums_nth _ _ j (pivot_size_rows i c f) Hj).
  rewrite (pivot_size_column i c f j Hj), numbers_map_Num.
  destruct (observed_column_counts i c f (nth j (col_labels (pivot_size i c f)) NA))
    as (a & Ha & H1).
  { apply nth_In. exact Hj. }
  pose proof (Qsum_member (fun a => tally i c f a (nth j (col_labels (pivot_size i c f)) NA))
                (row_labels (pivot_size i c f)) a
                (fun a => tally_nonneg i c f a _) Ha) as H2.
  cbn beta in H2. lra.
Qed.

(** Column [j] of the percentages, entry by entry. *)
Lemma percent_column i c f j :
  j < List.length (col_labels (pivot_size i c f)) ->
  let s := nth j (column_sums (List.length (col_labels (pivot_size i c f)))
                    (entries (pivot_size i c f))) 0%Q in
  column j (percent_of_column (pivot_size i c f))
  = map (fun a => Num (Qred (tally i c f a (nth j (col_labels (pivot_size i c f)) NA)
                             / s * 100)))
        (row_labels (pivot_size i c f)).
Proof.
  intros Hj s.
  assert (Hs : Qeq_bool s 0 = false).
  { destruct (Qeq_bool s 0) eqn:H; [|reflexivity].
    apply Qeq_bool_iff in H. pose proof (pivot_size_total i c f j Hj) as Hp.
    fold s in Hp. lra. }
  unfold column, percent_of_column. cbn [entries].
  set (sums := column_sums _ _) in *.
  assert (Hl : List.length sums = List.length (col_labels (pivot_size i c f))).
  { apply column_sums_length, pivot_size_rows. }
  rewrite map_map.
  transitivity
    (map (fun r =>
            match to_num (nth j r NA) with
            | Some q => Num (Qred (q / s * 100))
            | None => NA
            end) (entries (pivot_size i c f))).
  - apply map_ext_in. intros r Hr.
    pose proof (pivot_size_rows i c f) as Hrows. rewrite Forall_forall in Hrows.
    specialize (Hrows r Hr).
    set (g := fun p : cell * Q =>
                match to_num (fst p) with
                | Some q => if Qeq_bool (snd p) 0 then NA else Num (Qred (q / snd p * 100))
                | None => NA
                end).
    change NA with (g (NA, 0%Q)) at 1.
    rewrite map_nth, combine_nth by congruence.
    unfold g. cbn [fst snd]. fold s. rewrite Hs. reflexivity.
  - rewrite <- (map_map (fun r => nth j r NA)
                  (fun x => match to_num x with
                            | Some q => Num (Qred (q / s * 100))
                            | None => NA
                            end)).
    rewrite (pivot_size_column i c f j Hj), map_map. reflexivity.
Qed.

(** An entry of a matrix, read through its column. *)
Lemma entry_in_column a b m :
  a < List.length (entries m) -> entry a b m = nth a (column b m) NA.
Proof.
  intros Ha. unfold entry, column.
  rewrite (nth_indep (map (fun r => nth b r NA) (entries m)) NA
             ((fun r : list cell => nth b r NA) []))
    by (now rewrite length_map).
  now rewrite (map_nth (fun r : list cell => nth b r NA)).
Qed.

Lemma pivot_size_height i c f :
  List.length (entries (pivot_size i c f)) = List.length (row_labels (pivot_size i c f)).
Proof. cbn. now rewrite length_map. Qed.

(** A share of a total: between 0 and 100, zero for a count of zero only,
    and no smaller for a larger count. *)
Lemma share_bounds (t s : Q) :
  (0 <= t)%Q -> (t <= s)%Q -> (0 < s)%Q ->
  (0 <= t / s * 100 <= 100)%Q /\ (t / s * 100 == 0 <-> t == 0)%Q.
Proof.
  intros Ht Hts Hs.
  assert (Hk : (0 < / s)%Q) by now apply Qinv_lt_0_compat.
  assert (H1 : (s * / s == 1)%Q) by (apply Qmult_inv_r; lra).
  unfold Qdiv. set (k := (/ s)%Q) in *.
  assert (H0 : (0 <= t * k)%Q) by (apply Qmult_le_0_compat; lra).
  assert (H2 : (t * k <= s * k)%Q) by (apply Qmult_le_compat_r; lra).
  split; [split; lra|]. split.
  - intros H. assert (Htk : (t * k == 0)%Q) by lra.
    destruct (Qlt_le_dec 0 t) as [Hpos|Hle]; [|lra].
    pose proof (Qmult_lt_0_compat t k Hpos Hk). lra.
  - intros H. rewrite H. ring.
Qed.

Lemma share_monotone (t t' s : Q) :
  (0 < s)%Q -> (t <= t')%Q -> (t / s * 100 <= t' / s * 100)%Q.
Proof.
  intros Hs Ht.
  assert (Hk : (0 < / s)%Q) by now apply Qinv_lt_0_compat.
  unfold Qdiv. set (k := (/ s)%Q) in *.
  assert (H2 : (t * k <= t' * k)%Q) by (apply Qmult_le_compat_r; lra).
  lra.
Qed.

(** The entries of the percentages of a pivot of counts. *)
Lemma percent_entry i c f a b :
  a < List.length (row_labels (pivot_size i c f)) ->
  b < List.length (col_labels (pivot_size i c f)) ->
  let count := fun k => tally i c f (nth k (row_labels (pivot_size i c f)) NA)
                          (nth b (col_labels (pivot_size i c f)) NA) in
  exists total,
    (0 < total)%Q
    /\ (forall k, k < List.length (row_labels (pivot_size i c f)) ->
        (count k <= total)%Q)
    /\ forall k, k < List.length (row_labels (pivot_size i c f)) ->
         entry k b (percent_of_column (pivot_size i c f))
         = Num (Qred (count k / total * 100)).
Proof.
  intros Ha Hb count.
  exists (nth b (column_sums (List.length (col_labels (pivot_size i c f)))
                   (entries (pivot_size i c f))) 0%Q).
  split; [apply pivot_size_total; exact Hb|]. split.
  - intros k Hk.
    rewrite (column_sums_nth _ _ b (pivot_size_rows i c f) Hb).
    rewrite (pivot_size_column i c f b Hb), numbers_map_Num.
    apply (Qsum_member (fun x => tally i c f x (nth b (col_labels (pivot_size i c f)) NA))
             (row_labels (pivot_size i c f)) _ (fun x => tally_nonneg i c f x _)).
    apply nth_In. exact Hk.
  - intros k Hk.
    rewrite entry_in_column.
    2:{ unfold percent_of_column. cbn [entries]. rewrite length_map.
        rewrite pivot_size_height. exact Hk. }
    rewrite (percent_column i c f b Hb). cbv zeta.
    set (h := fun x => Num (Qred (tally i c f x (nth b (col_labels (pivot_size i c f)) NA)
                                 / _ * 100))).
    rewrite (nth_indep _ NA (h NA)) by (now rewrite length_map).
    now rewrite (map_nth h).
Qed.


End Shares.

(** The heatmap of [plot_event_keyword_distribution] has one row per keyword
    and one column per event of the complete rows, each in sorted order.
    Every entry is a number from 0 to 100 and never NaN; it is 0 exactly
    when no complete row has that keyword in that event; and within the
    column of an event, a keyword that occurs in at least as many rows as
    another has at least its share. *)
Theorem keyword_shares_are_percentages :
  forall (config : Config) (df : nat) (keyword_col title filename : string) (w : World),
    let d := nth df (heap w) (mkDF [] []) in
    let f := dropna ["event_name"; keyword_col] d in
    String.eqb keyword_col "event_name" = false ->
    forallb (has_column d) ["event_name"; keyword_col] = true ->
    empty f = false ->
    writable w (PyStr.path_join (FIGURES_DIR config) filename) = true ->
    exists shares,
      disk (exec (plot_event_keyword_distribution config df keyword_col title filename) w)
      = (PyStr.path_join (FIGURES_DIR config) filename,
         PngFile (mkFigure (12, 8) [Heatmap shares ".1f"] title EmptyString "Keyword") 300)
        :: disk w
      /\ row_labels shares = cell_sort (unique (series f keyword_col))
      /\ col_labels shares = cell_sort (unique (series f "event_name"))
      /\ forall b, b < List.length (col_labels shares) ->
           let count := fun a => tally keyword_col "event_name" f
                                   (nth a (row_labels shares) NA)
                                   (nth b (col_labels shares) NA) in
           forall a, a < List.length (row_labels shares) ->
             exists share,
               entry a b shares = Num share
               /\ (0 <= share <= 100)%Q
               /\ (share == 0 <-> count a == 0)%Q
               /\ forall a' share',
                    a' < List.length (row_labels shares) ->
                    entry a' b shares = Num share' ->
                    (count a <= count a')%Q -> (share <= share')%Q.
Proof.
  intros config df keyword_col title filename w d f _ Hc He Hw.
  exists (percent_of_column (pivot_size keyword_col "event_name" f)).
  split; [|split; [reflexivity|split; [reflexivity|]]].
  - unfold exec.
    rewrite (keyword_distribution_drawn config df keyword_col title filename w Hc He Hw).
    reflexivity.
  - intros b Hb count a Ha.
    change (row_labels (percent_of_column (pivot_size keyword_col "event_name" f)))
      with (row_labels (pivot_size keyword_col "event_name" f)) in *.
    change (col_labels (percent_of_column (pivot_size keyword_col "event_name" f)))
      with (col_labels (pivot_size keyword_col "event_name" f)) in *.
    destruct (percent_entry keyword_col "event_name" f a b Ha Hb)
      as (total & Hpos & Hle & Hentry).
    fold count in Hle, Hentry.
    assert (Hnn : forall k, (0 <= count k)%Q) by (intros k; apply tally_nonneg).
    exists (Qred (count a / total * 100)).
    destruct (share_bounds (count a) total (Hnn a) (Hle a Ha) Hpos) as [Hb1 Hb2].
    split; [apply Hentry; exact Ha|].
    split; [rewrite Qred_correct; exact Hb1|].
    split; [rewrite Qred_correct; exact Hb2|].
    intros a' share' Ha' He' Hcount.
    assert (Hs : Num share' = Num (Qred (count a' / total * 100)))
      by (rewrite <- He'; apply Hentry; exact Ha').
    assert (share' = Qred (count a' / total * 100)) as ->
      by exact (f_equal (fun x => match x with Num q => q | _ => share' end) Hs).
    rewrite !Qred_correct. now apply share_monotone.
Qed.

Lemma keyword_shares_are_percentages_witness :
  let f := dropna ["event_name"; "post_type"] Sample.comments in
  exists shares,
    disk (exec (plot_event_keyword_distribution Sample.config 0 "post_type" "Types"
                  "types.png") Sample.w0)
    = ("figures/types.png",
       PngFile (mkFigure (12, 8) [Heatmap shares ".1f"] "Types" EmptyString "Keyword") 300)
      :: disk Sample.w0
    /\ row_labels shares = [Str "News"; Str "Other"]
    /\ col_labels shares = [Str "A"; Str "B"]
    /\ exists share, entry 0 0 shares = Num share /\ (share == 0)%Q.
Proof.
  destruct (keyword_shares_are_percentages Sample.config 0 "post_type" "Types"
              "types.png" Sample.w0 eq_refl eq_refl eq_refl eq_refl)
    as (shares & Hd & Hr & Hc & Hs).
  exists shares. split; [exact Hd|]. split; [exact Hr|]. split; [exact Hc|].
  assert (Hb : 0 < List.length (col_labels shares)) by (rewrite Hc; cbn; lia).
  assert (Ha : 0 < List.length (row_labels shares)) by (rewrite Hr; cbn; lia).
  destruct (Hs 0 Hb 0 Ha) as (share & He & _ & Hz & _).
  exists share. split; [exact He|]. apply Hz. rewrite Hr, Hc. reflexivity.
Defined.

(* ================================================================== *)
(** ** The two heatmaps of means *)

Section Means.

Lemma nth_grid {A B} (F : A -> B -> cell) (rs : list A) (cs : list B) i j da db :
  i < List.length rs -> j < List.length cs ->
  nth j (nth i (map (fun a => map (F a) cs) rs) []) NA = F (nth i rs da) (nth j cs db).
Proof.
  intros Hi Hj.
  rewrite (nth_indep _ [] (map (F da) cs)) by (now rewrite length_map).
  rewrite (map_nth (fun a => map (F a) cs)).
  rewrite (nth_indep _ NA (F (nth i rs da) db)) by (now rewrite length_map).
  now rewrite map_nth.
Qed.

Lemma absent_group by_cols f k :
  no_row_with by_cols k f = true -> group_rows by_cols f k = [].
Proof.
  unfold no_row_with, group_rows. induction (rows f) as [|r l IH]; cbn; [reflexivity|].
  intros H. apply andb_true_iff in H as [H1 H2].
  apply negb_true_iff in H1. rewrite H1. apply IH, H2.
Qed.

Lemma pivot_mean_entry i c v f a b :
  a < List.length (row_labels (pivot_mean i c v f)) ->
  b < List.length (col_labels (pivot_mean i c v f)) ->
  entry a b (pivot_mean i c v f)
  = mean (numbers (group_values [i; c] v f
                     [nth a (row_labels (pivot_mean i c v f)) NA;
                      nth b (col_labels (pivot_mean i c v f)) NA])).
Proof.
  intros Ha Hb. unfold entry. cbn [pivot_mean entries row_labels col_labels] in *.
  apply (nth_grid (fun x y => mean (numbers (group_values [i; c] v f [x; y])))); assumption.
Qed.

Lemma pivot_mean_absent i c v f a b :
  a < List.length (row_labels (pivot_mean i c v f)) ->
  b < List.length (col_labels (pivot_mean i c v f)) ->
  no_row_with [i; c] [nth a (row_labels (pivot_mean i c v f)) NA;
                      nth b (col_labels (pivot_mean i c v f)) NA] f = true ->
  entry a b (pivot_mean i c v f) = NA.
Proof.
  intros Ha Hb H. rewrite pivot_mean_entry by assumption.
  unfold group_values. now rewrite (absent_group _ _ _ H).
Qed.

Lemma fillna0_entry m a b :
  a < List.length (entries m) ->
  b < List.length (nth a (entries m) []) ->
  entry a b (fillna0 m)
  = if is_na (entry a b m) then Num 0 else entry a b m.
Proof.
  intros Ha Hb. unfold entry. cbn [fillna0 entries].
  set (g := fun x => if is_na x then Num 0 else x).
  rewrite (nth_indep _ [] (map g [])) by (now rewrite length_map).
  rewrite (map_nth (map g)).
  rewrite (nth_indep _ NA (g NA)) by (now rewrite length_map).
  now rewrite map_nth.
Qed.

Lemma pivot_mean_shape i c v f a :
  a < List.length (row_labels (pivot_mean i c v f)) ->
  List.length (entries (pivot_mean i c v f)) = List.length (row_labels (pivot_mean i c v f))
  /\ List.length (nth a (entries (pivot_mean i c v f)) [])
     = List.length (col_labels (pivot_mean i c v f)).
Proof.
  intros Ha. cbn [pivot_mean entries row_labels col_labels] in *.
  split; [now rewrite length_map|].
  set (cs := cell_sort (unique (series f c))) in *.
  set (F := fun x => map (fun y => mean (numbers (group_values [i; c] v f [x; y]))) cs).
  rewrite (nth_indep _ [] (F NA)) by (now rewrite length_map).
  rewrite (map_nth F). unfold F. now rewrite length_map.
Qed.

End Means.

(** The heatmap of [plot_keyword_score_heatmap] has one row per keyword and
    one column per event of the complete rows, each in sorted order.  No
    entry is NaN: a keyword that an event never had is drawn as 0, as if
    its mean score were 0. *)
Theorem keyword_score_heatmap_fills_absent_pairs_with_zero :
  forall (config : Config) (df : nat)
         (keyword_col score_col filename title : string) (w : World),
    let d := nth df (heap w) (mkDF [] []) in
    let f := dropna [keyword_col; "event_name"; score_col] d in
    String.eqb keyword_col "event_name" = false ->
    forallb (has_column d) [keyword_col; "event_name"; score_col] = true ->
    empty f = false ->
    numeric_column f score_col = true ->
    writable w (PyStr.path_join (FIGURES_DIR config) filename) = true ->
    exists means,
      disk (exec (plot_keyword_score_heatmap config df keyword_col score_col filename
                    title) w)
      = (PyStr.path_join (FIGURES_DIR config) filename,
         PngFile (mkFigure (12, 8) [Heatmap means ".1f"] title EmptyString EmptyString) 300)
        :: disk w
      /\ row_labels means = cell_sort (unique (series f keyword_col))
      /\ col_labels means = cell_sort (unique (series f "event_name"))
      /\ forall a b,
           a < List.length (row_labels means) -> b < List.length (col_labels means) ->
           is_na (entry a b means) = false
           /\ (no_row_with [keyword_col; "event_name"]
                 [nth a (row_labels means) NA; nth b (col_labels means) NA] f = true ->
               entry a b means = Num 0).
Proof.
  intros config df keyword_col score_col filename title w d f _ Hc He Hn Hw.
  exists (fillna0 (pivot_mean keyword_col "event_name" score_col f)).
  split; [|split; [reflexivity|split; [reflexivity|]]].
  - unfold exec.
    rewrite (keyword_score_heatmap_drawn config df keyword_col score_col filename title w
               Hc He Hn Hw).
    reflexivity.
  - intros a b Ha Hb.
    change (row_labels (fillna0 (pivot_mean keyword_col "event_name" score_col f)))
      with (row_labels (pivot_mean keyword_col "event_name" score_col f)) in *.
    change (col_labels (fillna0 (pivot_mean keyword_col "event_name" score_col f)))
      with (col_labels (pivot_mean keyword_col "event_name" score_col f)) in *.
    destruct (pivot_mean_shape keyword_col "event_name" score_col f a Ha) as [H1 H2].
    rewrite fillna0_entry by (rewrite ?H1, ?H2; assumption).
    split.
    + destruct (is_na (entry a b _)) eqn:Hna; [reflexivity | exact Hna].
    + intros Habs. now rewrite (pivot_mean_absent _ _ _ _ a b Ha Hb Habs).
Qed.

Lemma keyword_score_heatmap_fills_absent_pairs_with_zero_witness :
  let f := dropna ["post_type"; "event_name"; "comment_score"] Sample.comments in
  exists means,
    disk (exec (plot_keyword_score_heatmap Sample.config 0 "post_type"
                  "comment_score" "scores.png" "Scores") Sample.w0)
    = ("figures/scores.png",
       PngFile (mkFigure (12, 8) [Heatmap means ".1f"] "Scores" EmptyString EmptyString) 300)
      :: disk Sample.w0
    /\ row_labels means = cell_sort (unique (series f "post_type"))
    /\ col_labels means = cell_sort (unique (series f "event_name"))
    /\ forall a b,
         a < List.length (row_labels means) -> b < List.length (col_labels means) ->
         is_na (entry a b means) = false
         /\ (no_row_with ["post_type"; "event_name"]
               [nth a (row_labels means) NA; nth b (col_labels means) NA] f = true ->
             entry a b means = Num 0).
Proof.
  apply (keyword_score_heatmap_fills_absent_pairs_with_zero Sample.config
           0 "post_type" "comment_score" "scores.png" "Scores" Sample.w0); reflexivity.
Defined.

(** The heatmap of [plot_eventwise_heatmap] has one row per index value and
    one column per event of the complete rows, each in sorted order, and it
    is not filled: the entry of an index value that an event never had is
    NaN, which the heatmap leaves blank. *)
Theorem eventwise_heatmap_leaves_absent_pairs_blank :
  forall (config : Config) (df : nat)
         (index_col value_col title filename : string) (w : World),
    let d := nth df (heap w) (mkDF [] []) in
    let f := dropna [index_col; "event_name"; value_col] d in
    String.eqb index_col "event_name" = false ->
    forallb (has_column d) [index_col; "event_name"; value_col] = true ->
    empty f = false ->
    numeric_column f value_col = true ->
    writable w (PyStr.path_join (FIGURES_DIR config) filename) = true ->
    exists means,
      disk (exec (plot_eventwise_heatmap config df index_col value_col title filename) w)
      = (PyStr.path_join (FIGURES_DIR config) filename,
         PngFile (mkFigure (10, 6) [Heatmap means ".2f"] title EmptyString EmptyString) 300)
        :: disk w
      /\ row_labels means = cell_sort (unique (series f index_col))
      /\ col_labels means = cell_sort (unique (series f "event_name"))
      /\ forall a b,
           a < List.length (row_labels means) -> b < List.length (col_labels means) ->
           entry a b means
           = mean (numbers (group_values [index_col; "event_name"] value_col f
                              [nth a (row_labels means) NA; nth b (col_labels means) NA]))
           /\ (no_row_with [index_col; "event_name"]
                 [nth a (row_labels means) NA; nth b (col_labels means) NA] f = true ->
               entry a b means = NA).
Proof.
  intros config df index_col value_col title filename w d f _ Hc He Hn Hw.
  exists (pivot_mean index_col "event_name" value_col f).
  split; [|split; [reflexivity|split; [reflexivity|]]].
  - unfold exec.
    rewrite (eventwise_heatmap_drawn config df index_col value_col title filename w
               Hc He Hn Hw).
    reflexivity.
  - intros a b Ha Hb. split.
    + now apply pivot_mean_entry.
    + intros Habs. now apply pivot_mean_absent.
Qed.

Lemma eventwise_heatmap_leaves_absent_pairs_blank_witness :
  let f := dropna ["post_type"; "event_name"; "comment_score"] Sample.comments in
  exists means,
    disk (exec (plot_eventwise_heatmap Sample.config 0 "post_type"
                  "comment_score" "Scores" "scores.png") Sample.w0)
    = ("figures/scores.png",
       PngFile (mkFigure (10, 6) [Heatmap means ".2f"] "Scores" EmptyString EmptyString) 300)
      :: disk Sample.w0
    /\ row_labels means = cell_sort (unique (series f "post_type"))
    /\ col_labels means = cell_sort (unique (series f "event_name"))
    /\ forall a b,
         a < List.length (row_labels means) -> b < List.length (col_labels means) ->
         entry a b means
         = mean (numbers (group_values ["post_type"; "event_name"] "comment_score" f
                            [nth a (row_labels means) NA; nth b (col_labels means) NA]))
         /\ (no_row_with ["post_type"; "event_name"]
               [nth a (row_labels means) NA; nth b (col_labels means) NA] f = true ->
             entry a b means = NA).
Proof.
  apply (eventwise_heatmap_leaves_absent_pairs_blank Sample.config
           0 "post_type" "comment_score" "Scores" "scores.png" Sample.w0); reflexivity.
Defined.

(* ================================================================== *)
(** ** The rows the filtering views keep *)

Section Kept.

Lemma dropna_rows subset d r :
  In r (rows (dropna subset d))
  <-> In r (rows d) /\ forall c, In c subset -> is_na (get d r c) = false.
Proof.
  unfold dropna, row_complete. cbn [rows]. rewrite filter_In, forallb_forall.
  split; intros [H1 H2]; (split; [exact H1|]); intros c Hc; specialize (H2 c Hc).
  - now apply negb_true_iff in H2.
  - now apply negb_true_iff.
Qed.

Lemma dropna_series subset d c :
  In c subset -> Forall (fun x => is_na x = false) (series (dropna subset d) c).
Proof.
  intros Hc. apply Forall_forall. intros x Hx.
  apply in_map_iff in Hx as (r & <- & Hr).
  apply dropna_rows in Hr as [_ H]. exact (H c Hc).
Qed.

End Kept.

(** [plot_dual_distribution] draws its two histograms from the same rows,
    those with a value in both features: the two series are as long as
    each other and hold no NaN, and the value a row has in one feature is
    left out when the row has none in the other. *)
Theorem dual_distribution_histograms_share_rows :
  forall (config : Config) (df : nat) (feature1 feature2 title filename : string)
         (w : World),
    let d := nth df (heap w) (mkDF [] []) in
    forallb (has_column d) [feature1; feature2] = true ->
    empty (dropna [feature1; feature2] d) = false ->
    writable w (PyStr.path_join (FIGURES_DIR config) filename) = true ->
    exists kept,
      (forall r, In r kept <->
                 In r (rows d) /\ is_na (get d r feature1) = false
                 /\ is_na (get d r feature2) = false)
      /\ disk (exec (plot_dual_distribution config df feature1 feature2 title filename) w)
         = (PyStr.path_join (FIGURES_DIR config) filename,
            PngFile (mkFigure (12, 6)
                       [HistSeries (map (fun r => get d r feature1) kept) 30
                          (Some feature1);
                        HistSeries (map (fun r => get d r feature2) kept) 30
                          (Some feature2)]
                       title EmptyString EmptyString) 300)
           :: disk w
      /\ List.length (map (fun r => get d r feature1) kept)
         = List.length (map (fun r => get d r feature2) kept)
      /\ Forall (fun x => is_na x = false) (map (fun r => get d r feature1) kept)
      /\ Forall (fun x => is_na x = false) (map (fun r => get d r feature2) kept).
Proof.
  intros config df feature1 feature2 title filename w d Hc He Hw.
  exists (rows (dropna [feature1; feature2] d)).
  split; [|split; [|split; [|split]]].
  - intros r. rewrite dropna_rows. split.
    + intros [H1 H2]. split; [exact H1|]. split; apply H2; cbn; auto.
    + intros (H1 & H2 & H3). split; [exact H1|].
      intros c [<- | [<- | []]]; assumption.
  - unfold exec.
    rewrite (dual_distribution_drawn config df feature1 feature2 title filename w Hc He Hw).
    reflexivity.
  - now rewrite !length_map.
  - apply (dropna_series [feature1; feature2] d feature1). now left.
  - apply (dropna_series [feature1; feature2] d feature2). right. now left.
Qed.

Lemma dual_distribution_histograms_share_rows_witness :
  let d := Sample.comments in
  exists kept,
    (forall r, In r kept <->
               In r (rows d) /\ is_na (get d r "comment_score") = false
               /\ is_na (get d r "word_count") = false)
    /\ disk (exec (plot_dual_distribution Sample.config 0 "comment_score" "word_count"
                     "Both" "dual.png") Sample.w0)
       = ("figures/dual.png",
          PngFile (mkFigure (12, 6)
                     [HistSeries (map (fun r => get d r "comment_score") kept) 30
                        (Some "comment_score");
                      HistSeries (map (fun r => get d r "word_count") kept) 30
                        (Some "word_count")]
                     "Both" EmptyString EmptyString) 300)
         :: disk Sample.w0
    /\ List.length (map (fun r => get d r "comment_score") kept)
       = List.length (map (fun r => get d r "word_count") kept)
    /\ Forall (fun x => is_na x = false) (map (fun r => get d r "comment_score") kept)
    /\ Forall (fun x => is_na x = false) (map (fun r => get d r "word_count") kept).
Proof.
  apply (dual_distribution_histograms_share_rows Sample.config 0 "comment_score"
           "word_count" "Both" "dual.png" Sample.w0); reflexivity.
Defined.

(** [plot_boxplot_with_stats] hands seaborn the caller's columns and those
    of the caller's rows that have a value in all three of [x], [y] and
    [hue]; it computes no statistic of its own and writes no table. *)
Theorem boxplot_draws_complete_rows :
  forall (config : Config) (df : nat) (x y hue title filename : string) (w : World),
    let d := nth df (heap w) (mkDF [] []) in
    forallb (has_column d) [x; y; hue] = true ->
    empty (dropna [x; y; hue] d) = false ->
    writable w (PyStr.path_join (FIGURES_DIR config) filename) = true ->
    exists f,
      disk (exec (plot_boxplot_with_stats config df x y hue title filename) w)
      = (PyStr.path_join (FIGURES_DIR config) filename,
         PngFile (mkFigure (12, 6) [BoxPlot f x y hue] title EmptyString EmptyString) 300)
        :: disk w
      /\ columns f = columns d
      /\ (forall r, In r (rows f) <->
                    In r (rows d) /\ is_na (get d r x) = false
                    /\ is_na (get d r y) = false /\ is_na (get d r hue) = false).
Proof.
  intros config df x y hue title filename w d Hc He Hw.
  exists (dropna [x; y; hue] d). split; [|split; [reflexivity|]].
  - unfold exec.
    rewrite (boxplot_drawn config df x y hue title filename w Hc He Hw). reflexivity.
  - intros r. rewrite dropna_rows. split.
    + intros [H1 H2]. split; [exact H1|]. repeat split; apply H2; cbn; auto.
    + intros (H1 & H2 & H3 & H4). split; [exact H1|].
      intros c [<- | [<- | [<- | []]]]; assumption.
Qed.

Lemma boxplot_draws_complete_rows_witness :
  let d := Sample.comments in
  exists f,
    disk (exec (plot_boxplot_with_stats Sample.config 0 "post_type" "comment_score"
                  "event_name" "Scores" "box.png") Sample.w0)
    = ("figures/box.png",
       PngFile (mkFigure (12, 6) [BoxPlot f "post_type" "comment_score" "event_name"]
                  "Scores" EmptyString EmptyString) 300)
      :: disk Sample.w0
    /\ columns f = columns d
    /\ (forall r, In r (rows f) <->
                  In r (rows d) /\ is_na (get d r "post_type") = false
                  /\ is_na (get d r "comment_score") = false
                  /\ is_na (get d r "event_name") = false).
Proof.
  apply (boxplot_draws_complete_rows Sample.config 0 "post_type" "comment_score"
           "event_name" "Scores" "box.png" Sample.w0); reflexivity.
Defined.

(* ================================================================== *)
(** ** Group keys: sorted, distinct, one for every row *)

Section GroupKeys.

Lemma cell_eqb_sym a b : cell_eqb a b = cell_eqb b a.
Proof.
  destruct a, b; cbn; auto.
  - apply Qeq_bool_comm.
  - apply String.eqb_sym.
  - now destruct b, b0.
  - apply Z.eqb_sym.
Qed.

Lemma cell_eqb_trans a b c :
  cell_eqb a b = true -> cell_eqb b c = true -> cell_eqb a c = true.
Proof.
  destruct a, b; cbn; try discriminate; destruct c; cbn; try discriminate; auto.
  - apply Qeq_bool_trans.
  - intros H1 H2. apply String.eqb_eq in H1, H2. subst. apply String.eqb_refl.
  - intros H1 H2. apply Bool.eqb_prop in H1, H2. subst. apply Bool.eqb_reflx.
  - intros H1 H2. apply Z.eqb_eq in H1, H2. subst. apply Z.eqb_refl.
Qed.

Lemma key_eqb_refl k : key_eqb k k = true.
Proof. induction k as [|c k IH]; cbn; [reflexivity|]. now rewrite cell_eqb_refl. Qed.

Lemma key_eqb_sym a b : key_eqb a b = key_eqb b a.
Proof.
  revert b. induction a as [|x a IH]; intros [|y b]; cbn; auto.
  now rewrite cell_eqb_sym, IH.
Qed.

Lemma key_eqb_trans a b c :
  key_eqb a b = true -> key_eqb b c = true -> key_eqb a c = true.
Proof.
  revert b c. induction a as [|x a IH]; intros [|y b] [|z c]; cbn; try discriminate; auto.
  intros H1 H2. apply andb_true_iff in H1 as [H1 H1'], H2 as [H2 H2'].
  rewrite (cell_eqb_trans _ _ _ H1 H2). cbn. eapply IH; eassumption.
Qed.

(** Equal keys select the same rows. *)
Lemma group_rows_eqb by_cols f a b :
  key_eqb a b = true -> group_rows by_cols f a = group_rows by_cols f b.
Proof.
  intros H. unfold group_rows. apply filter_ext. intros r.
  destruct (key_eqb (row_key f by_cols r) a) eqn:Ha.
  - symmetry. eapply key_eqb_trans; eassumption.
  - destruct (key_eqb (row_key f by_cols r) b) eqn:Hb; [|reflexivity].
    rewrite key_eqb_sym in H. rewrite (key_eqb_trans _ _ _ Hb H) in Ha. discriminate.
Qed.

Lemma cell_leb_total a b : cell_leb a b = false -> cell_leb b a = true.
Proof.
  destruct a, b; cbn; try discriminate; auto.
  - intros H. apply Qle_bool_iff.
    destruct (Qlt_le_dec q0 q) as [Hlt | Hle].
    + now apply Qlt_le_weak.
    + apply Qle_bool_iff in Hle. congruence.
  - intros H. destruct (String.leb_total s s0) as [H1 | H1]; congruence.
  - now destruct b, b0.
  - intros H. apply Z.leb_le. apply Z.leb_gt in H. lia.
Qed.

Lemma key_leb_total a b : key_leb a b = false -> key_leb b a = true.
Proof.
  revert b. induction a as [|x a IH]; intros [|y b]; cbn; try discriminate; auto.
  rewrite (cell_eqb_sym y x). destruct (cell_eqb x y); [apply IH | apply cell_leb_total].
Qed.

Lemma ascending_insert x l : ascending l = true -> ascending (key_insert x l) = true.
Proof.
  induction l as [|y l IH]; [reflexivity|]. intros H.
  cbn [key_insert]. destruct (key_leb x y) eqn:Hxy.
  - cbn [ascending]. now rewrite Hxy.
  - apply key_leb_total in Hxy. destruct l as [|z l].
    + cbn. now rewrite Hxy.
    + cbn [ascending] in H. apply andb_true_iff in H as [Hyz H].
      specialize (IH H). cbn [key_insert] in *.
      destruct (key_leb x z); cbn [ascending] in *.
      * now rewrite Hxy, IH.
      * now rewrite Hyz, IH.
Qed.

Lemma ascending_sort l : ascending (key_sort l) = true.
Proof. induction l as [|x l IH]; [reflexivity|]. now apply ascending_insert. Qed.

Lemma key_mem_insert k x l :
  key_mem k (key_insert x l) = key_eqb k x || key_mem k l.
Proof.
  induction l as [|y l IH]; cbn; [reflexivity|].
  destruct (key_leb x y); cbn; [reflexivity|].
  unfold key_mem in IH. rewrite IH.
  destruct (key_eqb k x), (key_eqb k y); reflexivity.
Qed.

Lemma key_mem_sort k l : key_mem k (key_sort l) = key_mem k l.
Proof.
  induction l as [|x l IH]; [reflexivity|].
  cbn [key_sort fold_right]. fold (key_sort l). rewrite key_mem_insert, IH. reflexivity.
Qed.

Lemma distinct_insert x l :
  key_mem x l = false -> distinct_keys l = true -> distinct_keys (key_insert x l) = true.
Proof.
  induction l as [|y l IH]; cbn [key_insert distinct_keys]; intros Hx Hl.
  - reflexivity.
  - cbn in Hx. apply orb_false_iff in Hx as [Hxy Hx].
    apply andb_true_iff in Hl as [Hy Hl].
    destruct (key_leb x y); cbn [distinct_keys].
    + cbn. now rewrite Hxy, Hx, Hy, Hl.
    + rewrite key_mem_insert, (key_eqb_sym y x), Hxy, IH by assumption.
      cbn. now rewrite Hy.
Qed.

Lemma distinct_sort l : distinct_keys l = true -> distinct_keys (key_sort l) = true.
Proof.
  induction l as [|x l IH]; [reflexivity|]. cbn [distinct_keys]. intros H.
  apply andb_true_iff in H as [Hx Hl]. apply negb_true_iff in Hx.
  cbn [key_sort fold_right]. fold (key_sort l).
  apply distinct_insert; [now rewrite key_mem_sort | now apply IH].
Qed.

Lemma key_mem_false k l :
  key_mem k l = false <-> forall x, In x l -> key_eqb k x = false.
Proof.
  unfold key_mem. induction l as [|y l IH]; cbn.
  - split; [intros _ x [] | reflexivity].
  - rewrite orb_false_iff, IH. split.
    + intros [H1 H2] x [<- | Hx]; auto.
    + intros H. split; [apply H; now left | intros x Hx; apply H; now right].
Qed.

Lemma distinct_from_seen seen l k :
  In k (distinct_from seen l) -> key_mem k seen = false.
Proof.
  revert seen. induction l as [|x l IH]; intros seen; cbn; [tauto|].
  destruct (key_mem x seen) eqn:Hx; [apply IH|].
  intros [<- | H]; [exact Hx|].
  specialize (IH _ H). cbn in IH. now apply orb_false_iff in IH.
Qed.

Lemma distinct_from_distinct seen l : distinct_keys (distinct_from seen l) = true.
Proof.
  revert seen. induction l as [|x l IH]; intros seen; cbn; [reflexivity|].
  destruct (key_mem x seen); [apply IH|].
  cbn [distinct_keys]. rewrite IH, andb_true_r. apply negb_true_iff, key_mem_false.
  intros y Hy. apply distinct_from_seen in Hy. cbn in Hy.
  apply orb_false_iff in Hy as [Hy _]. now rewrite key_eqb_sym.
Qed.

Lemma distinct_from_rep k seen l :
  In k l -> key_mem k seen = true \/ key_mem k (distinct_from seen l) = true.
Proof.
  revert seen. induction l as [|x l IH]; intros seen Hin; [destruct Hin|].
  cbn [distinct_from]. destruct Hin as [<- | Hin].
  - destruct (key_mem x seen) eqn:Hm; [now left|].
    right. cbn. now rewrite key_eqb_refl.
  - destruct (key_mem x seen) eqn:Hm; [now apply IH|].
    destruct (IH (x :: seen) Hin) as [H | H].
    + cbn in H. apply orb_true_iff in H as [H | H]; [|now left].
      right. cbn. now rewrite H.
    + right. unfold key_mem in *. cbn [existsb]. rewrite H. apply orb_true_r.
Qed.

(** The group keys are in ascending order. *)
Lemma group_keys_ascending by_cols f : ascending (group_keys by_cols f) = true.
Proof. apply ascending_sort. Qed.

(** No two group keys are equal. *)
Lemma group_keys_distinct by_cols f : distinct_keys (group_keys by_cols f) = true.
Proof. apply distinct_sort, distinct_from_distinct. Qed.

(** Every row without NaN in its key columns has its group key. *)
Lemma group_keys_complete by_cols f r :
  In r (rows f) -> complete_key (row_key f by_cols r) = true ->
  key_mem (row_key f by_cols r) (group_keys by_cols f) = true.
Proof.
  intros Hr Hc. unfold group_keys. rewrite key_mem_sort.
  destruct (distinct_from_rep (row_key f by_cols r) []
              (filter complete_key (map (row_key f by_cols) (rows f)))) as [H | H].
  - apply filter_In. split; [|exact Hc]. now apply in_map.
  - discriminate.
  - exact H.
Qed.

(** A group is not empty. *)
Lemma group_rows_inhabited by_cols f k :
  In k (group_keys by_cols f) -> 1 <= List.length (group_rows by_cols f k).
Proof.
  intros H. apply group_keys_in in H as (r & Hr & ->).
  assert (Hin : In r (group_rows by_cols f (row_key f by_cols r))).
  { apply filter_In. split; [exact Hr | apply key_eqb_refl]. }
  destruct (group_rows _ _ _); [destruct Hin | cbn; lia].
Qed.

End GroupKeys.

(* ================================================================== *)
(** ** The statistics table of the distribution comparison *)

Section ComparisonTable.

Context {E : Estimators} (config : Config).

Lemma series_dropna_all l :
  Forall (fun x => is_na x = false) l -> series_dropna l = l.
Proof.
  unfold series_dropna. induction 1 as [|x l Hx _ IH]; [reflexivity|].
  cbn [filter]. rewrite Hx. cbn [negb]. now rewrite IH.
Qed.

(** In data without NaN in [value], the count of a group is its size. *)
Lemma count_group subset d by_cols value k :
  In value subset ->
  count (group_values by_cols value (dropna subset d) k)
  = Num (inject_Z (Z.of_nat (List.length (group_rows by_cols (dropna subset d) k)))).
Proof.
  intros Hv. unfold count, group_values. rewrite series_dropna_all.
  - now rewrite length_map.
  - apply Forall_forall. intros x Hx. apply in_map_iff in Hx as (r & <- & Hr).
    apply filter_In in Hr as [Hr _]. apply dropna_rows in Hr as [_ H]. exact (H value Hv).
Qed.

(** The rows of the comparison table, one per group key. *)
Lemma comparison_table_rows feature f :
  rows (comparison_table feature f)
  = map (fun k =>
           let vals := group_values ["event_name"] feature f k in
           (k ++ [count vals; mean (numbers vals); median (numbers vals);
                  std (numbers vals); Qmin_list (numbers vals); Qmax_list (numbers vals);
                  cell_sub (mean (numbers vals)) (std (numbers vals));
                  cell_add (mean (numbers vals)) (std (numbers vals))])%list)
        (group_keys ["event_name"] f).
Proof.
  unfold comparison_table.
  rewrite with_bounds_rows by (apply rect_groupby_agg || reflexivity).
  cbn [rows].
  change (rows (groupby_agg ["event_name"] feature
                  [Count; Mean; Median; StdDev; Min; Max] f))
    with (map (fun k => (k ++ map (fun s => aggregate s
                                     (group_values ["event_name"] feature f k))
                               [Count; Mean; Median; StdDev; Min; Max])%list)
              (group_keys ["event_name"] f)).
  rewrite map_map. apply map_ext_in. intros k Hk. cbv zeta.
  pose proof (key_length ["event_name"] f k Hk) as Hlen.
  destruct k as [|e [|? ?]]; try discriminate Hlen.
  reflexivity.
Qed.

(** Once the data has passed the checks, the table is written, whatever
    the mode and whatever becomes of the image. *)
Lemma comparison_table_written df feature title y_label prefix plot_type w :
  let d := nth df (heap w) (mkDF [] []) in
  let f := dropna [feature; "event_name"] d in
  forallb (has_column d) [feature; "event_name"] = true ->
  empty f = false ->
  numeric_column f feature = true ->
  writable w (comparison_txt config prefix feature plot_type) = true ->
  exists newer,
    disk (exec (plot_distribution_comparison config df feature title y_label prefix
                  plot_type) w)
    = (newer ++ (comparison_txt config prefix feature plot_type,
                 TextFile (comparison_header feature plot_type)
                   (comparison_table feature f)) :: disk w)%list.
Proof.
  intros d f Hc He Hn Htxt.
  destruct (comparison_writes config df feature title y_label prefix plot_type w)
    as [H | [H | [fig H]]]; fold d in H; fold f in H.
  - exfalso. revert H. unfold exec, plot_distribution_comparison.
    step. fold d. rewrite Hc. cbn [negb].
    rewrite run_filtered. cbv zeta. fold d. fold f. step. rewrite He.
    unfold require_numeric. rewrite Hn.
    step. rewrite run_bounds.
    rewrite (run_save_text config) by exact Htxt.
    step.
    assert (Hneq : forall (x : string * file) l, x :: l <> l).
    { intros x l Hx. apply (f_equal (@List.length _)) in Hx. cbn in Hx. lia. }
    destruct (String.eqb plot_type "violin"); [|destruct (String.eqb plot_type "box")].
    + repeat draw_step.
      destruct (writable w (PyStr.path_join (FIGURES_DIR config)
                  (prefix ++ feature ++ "_" ++ plot_type ++ "_extended.png"))) eqn:Hpng.
      * erewrite save_plot_done; [|reflexivity|exact Hpng].
        cbn [snd]. world_simpl. intros Hd.
        apply (f_equal (@List.length _)) in Hd. cbn in Hd. lia.
      * erewrite save_plot_refused; [|reflexivity|exact Hpng].
        cbn [snd]. world_simpl. apply Hneq.
    + repeat draw_step.
      destruct (writable w (PyStr.path_join (FIGURES_DIR config)
                  (prefix ++ feature ++ "_" ++ plot_type ++ "_extended.png"))) eqn:Hpng.
      * erewrite save_plot_done; [|reflexivity|exact Hpng].
        cbn [snd]. world_simpl. intros Hd.
        apply (f_equal (@List.length _)) in Hd. cbn in Hd. lia.
      * erewrite save_plot_refused; [|reflexivity|exact Hpng].
        cbn [snd]. world_simpl. apply Hneq.
    + step. cbn [snd]. world_simpl. apply Hneq.
  - exists []. exact H.
  - eexists [_]. exact H.
Qed.

End ComparisonTable.

(** The statistics table of [plot_distribution_comparison] has exactly one
    row for each event of the complete rows: the rows are keyed by the
    events in ascending order, no event has two rows, every event of the
    data has its row, and the count of a row is the number of complete rows
    of that event, which is at least 1. *)
Theorem comparison_table_has_one_row_per_event :
  forall (E : Estimators) (config : Config) (df : nat)
         (feature title y_label prefix plot_type : string) (w : World),
    let d := nth df (heap w) (mkDF [] []) in
    let f := dropna [feature; "event_name"] d in
    String.eqb feature "event_name" = false ->
    forallb (has_column d) [feature; "event_name"] = true ->
    empty f = false ->
    numeric_column f feature = true ->
    writable w (comparison_txt config prefix feature plot_type) = true ->
    exists newer header table events,
      disk (exec (plot_distribution_comparison config df feature title y_label prefix
                    plot_type) w)
      = (newer ++ (comparison_txt config prefix feature plot_type,
                   TextFile header table) :: disk w)%list
      /\ map (firstn 1) (rows table) = events
      /\ ascending events = true
      /\ distinct_keys events = true
      /\ (forall r, In r (rows f) -> key_mem [get f r "event_name"] events = true)
      /\ (forall i k, nth_error events i = Some k ->
            exists statistics,
              nth_error (rows table) i
              = Some (k ++ Num (inject_Z (Z.of_nat
                                   (List.length (group_rows ["event_name"] f k))))
                         :: statistics)%list
              /\ 1 <= List.length (group_rows ["event_name"] f k)).
Proof.
  intros E config df feature title y_label prefix plot_type w d f _ Hc He Hn Htxt.
  destruct (comparison_table_written config df feature title y_label prefix plot_type w
              Hc He Hn Htxt) as [newer Hd].
  fold d in Hd. fold f in Hd.
  exists newer, (comparison_header feature plot_type), (comparison_table feature f),
    (group_keys ["event_name"] f).
  split; [exact Hd|]. split; [|split; [|split; [|split]]].
  - rewrite comparison_table_rows, map_map.
    rewrite <- (map_id (group_keys _ f)) at 2. apply map_ext_in. intros k Hk.
    cbv zeta. apply firstn_key. exact (key_length ["event_name"] f k Hk).
  - apply group_keys_ascending.
  - apply group_keys_distinct.
  - intros r Hr.
    apply (group_keys_complete ["event_name"] f r Hr).
    unfold complete_key, row_key. cbn [map forallb].
    apply dropna_rows in Hr as [_ H].
    rewrite (get_same_columns f d r "event_name" eq_refl).
    rewrite (H "event_name") by (right; now left). reflexivity.
  - intros i k Hi. eexists. split.
    + rewrite comparison_table_rows, nth_error_map. unfold key in *.
      rewrite Hi. cbn [option_map]. cbv zeta.
      unfold f at 1. rewrite (count_group [feature; "event_name"] d) by now left.
      reflexivity.
    + apply group_rows_inhabited. eapply nth_error_In, Hi.
Qed.

Lemma comparison_table_has_one_row_per_event_witness :
  let f := dropna ["comment_score"; "event_name"] Sample.comments in
  exists newer header table events,
    disk (exec (@plot_distribution_comparison Sample.estimators Sample.config 0
                  "comment_score" "Scores" "Score" "cmp_" "violin") Sample.w0)
    = (newer ++ (comparison_txt Sample.config "cmp_" "comment_score" "violin",
                 TextFile header table) :: disk Sample.w0)%list
    /\ map (firstn 1) (rows table) = events
    /\ ascending events = true
    /\ distinct_keys events = true
    /\ (forall r, In r (rows f) -> key_mem [get f r "event_name"] events = true)
    /\ (forall i k, nth_error events i = Some k ->
          exists statistics,
            nth_error (rows table) i
            = Some (k ++ Num (inject_Z (Z.of_nat
                                 (List.length (group_rows ["event_name"] f k))))
                       :: statistics)%list
            /\ 1 <= List.length (group_rows ["event_name"] f k)).
Proof.
  apply (comparison_table_has_one_row_per_event Sample.estimators Sample.config 0
           "comment_score" "Scores" "Score" "cmp_" "violin" Sample.w0); reflexivity.
Defined.

(* ================================================================== *)
(** ** The rows of the reindexed tables that the data has *)

Section Present.

Context {E : Estimators}.

Lemma present_row by_cols k f :
  no_row_with by_cols k f = false ->
  exists r, In r (rows f) /\ key_eqb (row_key f by_cols r) k = true.
Proof.
  unfold no_row_with. induction (rows f) as [|r l IH]; cbn; [discriminate|].
  destruct (key_eqb (row_key f by_cols r) k) eqn:Hk; cbn.
  - intros _. exists r. split; [now left | exact Hk].
  - intros H. destruct (IH H) as (r0 & Hr0 & Hk0). exists r0. split; [now right | exact Hk0].
Qed.

Lemma key_mem_true k l :
  key_mem k l = true -> exists x, In x l /\ key_eqb k x = true.
Proof. unfold key_mem. intros H. apply existsb_exists in H. exact H. Qed.

(** A key some complete row has is the key of a group, up to equality. *)
Lemma present_group by_cols k f :
  (forall r, In r (rows f) -> complete_key (row_key f by_cols r) = true) ->
  no_row_with by_cols k f = false ->
  exists k', In k' (group_keys by_cols f) /\ key_eqb k' k = true.
Proof.
  intros Hf Hk. destruct (present_row by_cols k f Hk) as (r & Hr & Hrk).
  destruct (key_mem_true _ _ (group_keys_complete by_cols f r Hr (Hf r Hr)))
    as (k' & Hk' & He).
  exists k'. split; [exact Hk'|].
  rewrite key_eqb_sym in He. eapply key_eqb_trans; eassumption.
Qed.

(** The rows of the grouped table with its bounds, one per group key. *)
Lemma grouped_rows c1 value f :
  In c1 ["time_period"; "post_type"] ->
  with_bounds (groupby_agg [c1; "event_name"] value [Mean; StdDev; Median; Count] f)
  = mkDF ((columns (groupby_agg [c1; "event_name"] value [Mean; StdDev; Median; Count] f)
           ++ [("lower_bound", DFloat)]) ++ [("upper_bound", DFloat)])
         (map (fun k => (k ++ six_statistics (group_values [c1; "event_name"] value f k))%list)
              (group_keys [c1; "event_name"] f)).
Proof.
  intros Hc1.
  rewrite with_bounds_rows
    by (apply rect_groupby_agg || (destruct Hc1 as [<- | [<- | []]]; reflexivity)).
  f_equal.
  change (rows (groupby_agg [c1; "event_name"] value [Mean; StdDev; Median; Count] f))
    with (map (fun k => (k ++ map (fun s => aggregate s
                                     (group_values [c1; "event_name"] value f k))
                               [Mean; StdDev; Median; Count])%list)
              (group_keys [c1; "event_name"] f)).
  rewrite map_map. apply map_ext_in. intros k Hk.
  pose proof (key_length [c1; "event_name"] f k Hk) as Hlen.
  destruct k as [|a [|b [|? ?]]]; try discriminate Hlen.
  destruct Hc1 as [<- | [<- | []]]; reflexivity.
Qed.

Lemma group_values_eqb by_cols value f a b :
  key_eqb a b = true -> group_values by_cols value f a = group_values by_cols value f b.
Proof. intros H. unfold group_values. now rewrite (group_rows_eqb by_cols f a b H). Qed.

(** Reindexing finds the group of a key that the data has. *)
Lemma reindexed_present c1 value f idx i k :
  In c1 ["time_period"; "post_type"] ->
  (forall r, In r (rows f) -> complete_key (row_key f [c1; "event_name"] r) = true) ->
  nth_error idx i = Some k ->
  no_row_with [c1; "event_name"] k f = false ->
  nth_error (rows (reindex [c1; "event_name"] idx
                     (with_bounds (groupby_agg [c1; "event_name"] value
                                     [Mean; StdDev; Median; Count] f)))) i
  = Some (k ++ six_statistics (group_values [c1; "event_name"] value f k))%list.
Proof.
  intros Hc1 Hf Hi Hk. rewrite (grouped_rows c1 value f Hc1).
  set (g := mkDF _ _).
  unfold reindex. cbn [rows]. rewrite nth_error_map, Hi. cbn [option_map]. f_equal.
  destruct (present_group [c1; "event_name"] k f Hf Hk) as (k' & Hk' & He).
  destruct (find _ (rows g)) as [r'|] eqn:Hfind.
  - apply find_some in Hfind as [Hin Hp].
    unfold g in Hin. cbn [rows] in Hin. apply in_map_iff in Hin as (k2 & <- & Hk2).
    pose proof (key_length [c1; "event_name"] f k2 Hk2) as Hlen.
    destruct k2 as [|a [|b [|? ?]]]; try discriminate Hlen.
    f_equal.
    assert (Hab : key_eqb [a; b] k = true).
    { destruct Hc1 as [<- | [<- | []]]; exact Hp. }
    rewrite <- (group_values_eqb _ value f _ _ Hab).
    destruct Hc1 as [<- | [<- | []]]; reflexivity.
  - exfalso.
    pose proof (key_length [c1; "event_name"] f k' Hk') as Hlen.
    assert (Hin : In (k' ++ six_statistics (group_values [c1; "event_name"] value f k'))%list
                     (rows g)).
    { unfold g. cbn [rows].
      apply (in_map (fun k => (k ++ six_statistics
                                 (group_values [c1; "event_name"] value f k))%list)).
      exact Hk'. }
    pose proof (find_none _ _ Hfind _ Hin) as Hn. cbv beta in Hn.
    destruct k' as [|a [|b [|? ?]]]; try discriminate Hlen.
    assert (Hab : key_eqb (row_key g [c1; "event_name"]
                             ([a; b] ++ six_statistics
                                (group_values [c1; "event_name"] value f [a; b]))) k
                  = true).
    { destruct Hc1 as [<- | [<- | []]]; exact He. }
    congruence.
Qed.

End Present.

Section PresentRows.

Context {E : Estimators}.

(** The row of a key that the complete rows have, spelled out. *)
Lemma reindexed_present_row c1 value subset d (f : DataFrame) idx i k :
  In c1 ["time_period"; "post_type"] ->
  In value subset -> In c1 subset -> In "event_name" subset ->
  columns f = columns (dropna subset d) ->
  incl (rows f) (rows (dropna subset d)) ->
  nth_error idx i = Some k ->
  no_row_with [c1; "event_name"] k f = false ->
  let vals := numbers (group_values [c1; "event_name"] value f k) in
  nth_error (rows (reindex [c1; "event_name"] idx
                     (with_bounds (groupby_agg [c1; "event_name"] value
                                     [Mean; StdDev; Median; Count] f)))) i
  = Some (k ++ [mean vals; std vals; median vals;
                Num (inject_Z (Z.of_nat
                       (List.length (group_rows [c1; "event_name"] f k))));
                cell_sub (mean vals) (std vals); cell_add (mean vals) (std vals)])%list.
Proof.
  intros Hc1 Hv Hs1 Hs2 Hcols Hrows Hi Hk vals.
  assert (Hna : forall r c, In r (rows f) -> In c subset -> is_na (get f r c) = false).
  { intros r c Hr Hc. rewrite (get_same_columns f (dropna subset d) r c Hcols).
    apply Hrows, dropna_rows in Hr as [_ H]. exact (H c Hc). }
  rewrite (reindexed_present c1 value f idx i k Hc1); [|intros r Hr|exact Hi|exact Hk].
  - unfold six_statistics. fold vals. do 5 f_equal.
    unfold count, group_values. rewrite series_dropna_all.
    + now rewrite length_map.
    + apply Forall_forall. intros x Hx. apply in_map_iff in Hx as (r & <- & Hr).
      apply filter_In in Hr as [Hr _]. exact (Hna r value Hr Hv).
  - unfold complete_key, row_key. cbn [map forallb].
    now rewrite (Hna r c1 Hr Hs1), (Hna r "event_name" Hr Hs2).
Qed.

End PresentRows.

(** In the table of [plot_average_metric_by_time_and_event], the row of a
    period and an event that some complete row has holds the statistics of
    the metric over the complete rows of that period and event: their mean,
    standard deviation and median, their number, and the two bounds. *)
Theorem time_event_row_holds_group_statistics :
  forall (E : Estimators) (config : Config) (df : nat)
         (metric prefix title y_label : string) (w : World),
    let d := nth df (heap w) (mkDF [] []) in
    let f := dropna [metric; "event_name"; "time_period"] d in
    String.eqb metric "event_name" = false ->
    String.eqb metric "time_period" = false ->
    forallb (has_column d) [metric; "event_name"; "time_period"] = true ->
    empty f = false ->
    numeric_column f metric = true ->
    writable w (time_event_txt config prefix) = true ->
    writable w (time_event_png config prefix) = true ->
    exists table,
      disk (exec (plot_average_metric_by_time_and_event config df metric prefix title
                    y_label) w)
      = (time_event_png config prefix,
         PngFile (time_event_figure title y_label table) 300)
        :: (time_event_txt config prefix, TextFile (time_event_header metric) table)
        :: disk w
      /\ forall i k,
           nth_error (time_event_index f) i = Some k ->
           no_row_with ["time_period"; "event_name"] k f = false ->
           let vals := numbers (group_values ["time_period"; "event_name"] metric f k) in
           nth_error (rows table) i
           = Some (k ++ [mean vals; std vals; median vals;
                         Num (inject_Z (Z.of_nat
                                (List.length
                                   (group_rows ["time_period"; "event_name"] f k))));
                         cell_sub (mean vals) (std vals);
                         cell_add (mean vals) (std vals)])%list.
Proof.
  intros E config df metric prefix title y_label w d f _ _ Hc He Hn Htxt Hpng.
  exists (time_event_table metric f). split.
  - unfold exec.
    rewrite (time_event_drawn config df metric prefix title y_label w Hc He Hn Htxt Hpng).
    reflexivity.
  - intros i k Hi Hk. unfold time_event_table.
    apply (reindexed_present_row "time_period" metric
             [metric; "event_name"; "time_period"] d f);
      try reflexivity; try assumption; cbn; auto.
    intros r Hr. exact Hr.
Qed.

Lemma time_event_row_holds_group_statistics_witness :
  let f := dropna ["comment_score"; "event_name"; "time_period"] Sample.comments in
  exists table,
    disk (exec (@plot_average_metric_by_time_and_event Sample.estimators Sample.config 0
                  "comment_score" "avg" "Scores" "Score") Sample.w0)
    = (time_event_png Sample.config "avg",
       PngFile (time_event_figure "Scores" "Score" table) 300)
      :: (time_event_txt Sample.config "avg",
          TextFile (time_event_header "comment_score") table)
      :: disk Sample.w0
    /\ forall i k,
         nth_error (time_event_index f) i = Some k ->
         no_row_with ["time_period"; "event_name"] k f = false ->
         let vals := numbers (group_values ["time_period"; "event_name"]
                                "comment_score" f k) in
         nth_error (rows table) i
         = Some (k ++ [mean vals; @std Sample.estimators vals; median vals;
                       Num (inject_Z (Z.of_nat
                              (List.length
                                 (group_rows ["time_period"; "event_name"] f k))));
                       cell_sub (mean vals) (@std Sample.estimators vals);
                       cell_add (mean vals) (@std Sample.estimators vals)])%list.
Proof.
  apply (time_event_row_holds_group_statistics Sample.estimators Sample.config 0
           "comment_score" "avg" "Scores" "Score" Sample.w0); reflexivity.
Defined.

(** The same holds in the table of [plot_metric_by_event_and_type], over
    the complete rows of an allowed post type: the row of a post type and
    an event that some such row has holds the statistics of the metric
    over the rows of that post type and event. *)
Theorem type_event_row_holds_group_statistics :
  forall (E : Estimators) (config : Config) (df : nat) (metric title filename : string)
         (selected_types : option (list string)) (w : World),
    let d := nth df (heap w) (mkDF [] []) in
    let f := type_event_rows metric selected_types d in
    String.eqb metric "event_name" = false ->
    String.eqb metric "post_type" = false ->
    forallb (has_column d) [metric; "event_name"; "post_type"] = true ->
    empty f = false ->
    numeric_column d metric = true ->
    writable w (type_event_txt config metric) = true ->
    writable w (PyStr.path_join (FIGURES_DIR config) filename) = true ->
    exists table,
      disk (exec (plot_metric_by_event_and_type config df metric title filename
                    selected_types) w)
      = (PyStr.path_join (FIGURES_DIR config) filename,
         PngFile (type_event_figure metric title table) 300)
        :: (type_event_txt config metric, TextFile (type_event_header metric) table)
        :: disk w
      /\ forall i k,
           nth_error (type_event_index f) i = Some k ->
           no_row_with ["post_type"; "event_name"] k f = false ->
           let vals := numbers (group_values ["post_type"; "event_name"] metric f k) in
           nth_error (rows table) i
           = Some (k ++ [mean vals; std vals; median vals;
                         Num (inject_Z (Z.of_nat
                                (List.length
                                   (group_rows ["post_type"; "event_name"] f k))));
                         cell_sub (mean vals) (std vals);
                         cell_add (mean vals) (std vals)])%list.
Proof.
  intros E config df metric title filename sel w d f _ _ Hc He Hn Htxt Hpng.
  exists (type_event_table metric f). split.
  - unfold exec.
    rewrite (type_event_drawn config df metric title filename sel w Hc He Hn Htxt Hpng).
    reflexivity.
  - intros i k Hi Hk. unfold type_event_table.
    apply (reindexed_present_row "post_type" metric
             [metric; "event_name"; "post_type"] d f);
      try assumption; cbn; auto.
    + unfold f, type_event_rows. now destruct (truthy sel).
    + unfold f, type_event_rows. destruct (truthy sel); intros r Hr; [|exact Hr].
      cbn [filter_isin rows] in Hr. now apply filter_In in Hr.
Qed.

Lemma type_event_row_holds_group_statistics_witness :
  let f := type_event_rows "comment_score" (Some ["Other"]) Sample.comments in
  exists table,
    disk (exec (@plot_metric_by_event_and_type Sample.estimators Sample.config 0
                  "comment_score" "Scores" "scores.png" (Some ["Other"])) Sample.w0)
    = ("figures/scores.png",
       PngFile (type_event_figure "comment_score" "Scores" table) 300)
      :: (type_event_txt Sample.config "comment_score",
          TextFile (type_event_header "comment_score") table)
      :: disk Sample.w0
    /\ forall i k,
         nth_error (type_event_index f) i = Some k ->
         no_row_with ["post_type"; "event_name"] k f = false ->
         let vals := numbers (group_values ["post_type"; "event_name"]
                                "comment_score" f k) in
         nth_error (rows table) i
         = Some (k ++ [mean vals; @std Sample.estimators vals; median vals;
                       Num (inject_Z (Z.of_nat
                              (List.length
                                 (group_rows ["post_type"; "event_name"] f k))));
                       cell_sub (mean vals) (@std Sample.estimators vals);
                       cell_add (mean vals) (@std Sample.estimators vals)])%list.
Proof.
  apply (type_event_row_holds_group_statistics Sample.estimators Sample.config 0
           "comment_score" "Scores" "scores.png" (Some ["Other"]) Sample.w0); reflexivity.
Defined.

(* ================================================================== *)
(** ** The allow-list of post types *)

Section AllowList.

Context {E : Estimators}.

Lemma mem_Str c l : mem c (map Str l) = true -> exists s, In s l /\ c = Str s.
Proof.
  unfold mem. intros H. apply existsb_exists in H as (x & Hx & He).
  apply in_map_iff in Hx as (s & <- & Hs). exists s. split; [exact Hs|].
  destruct c; try discriminate He. cbn in He. apply String.eqb_eq in He. now subst.
Qed.

Lemma from_product_in a b k :
  In k (from_product a b) -> exists x y, k = [x; y] /\ In x a /\ In y b.
Proof.
  unfold from_product. intros H. apply in_map_iff in H as ([x y] & <- & H).
  apply in_prod_iff in H. exists x, y. now split.
Qed.

(** Every row of the table is keyed by a post type of the kept rows. *)
Lemma type_event_table_types metric f row :
  In row (rows (type_event_table metric f)) ->
  exists r, In r (rows f) /\ nth 0 row NA = get f r "post_type".
Proof.
  intros Hrow.
  pose proof (proj1 (type_event_table_covers metric f)) as Hkeys.
  assert (Hk : In (firstn 2 row) (type_event_index f)).
  { rewrite <- Hkeys. now apply in_map. }
  apply from_product_in in Hk as (x & y & Hxy & Hx & _).
  apply unique_from_in, in_map_iff in Hx as (r & Hr & Hin).
  exists r. split; [exact Hin|]. rewrite Hr.
  destruct row as [|c row]; [discriminate Hxy|].
  destruct row; cbn in Hxy; now injection Hxy.
Qed.

End AllowList.

(** The allow-list of [plot_metric_by_event_and_type] restricts the post
    types of the table and the chart: with a list that is not empty, every
    row is keyed by a post type of the list.  An empty list restricts
    nothing: the view then runs as it does without a list. *)
Theorem allow_list_restricts_post_types :
  forall (E : Estimators) (config : Config) (df : nat) (metric title filename : string)
         (allowed : list string) (w : World),
    let d := nth df (heap w) (mkDF [] []) in
    let f := filter_isin "post_type" allowed
               (dropna [metric; "event_name"; "post_type"] d) in
    allowed <> [] ->
    forallb (has_column d) [metric; "event_name"; "post_type"] = true ->
    empty f = false ->
    numeric_column d metric = true ->
    writable w (type_event_txt config metric) = true ->
    writable w (PyStr.path_join (FIGURES_DIR config) filename) = true ->
    (exists table,
        disk (exec (plot_metric_by_event_and_type config df metric title filename
                      (Some allowed)) w)
        = (PyStr.path_join (FIGURES_DIR config) filename,
           PngFile (type_event_figure metric title table) 300)
          :: (type_event_txt config metric, TextFile (type_event_header metric) table)
          :: disk w
        /\ forall row, In row (rows table) ->
             exists s, In s allowed /\ nth 0 row NA = Str s)
    /\ plot_metric_by_event_and_type config df metric title filename (Some []) w
       = plot_metric_by_event_and_type config df metric title filename None w.
Proof.
  intros E config df metric title filename allowed w d f Ha Hc He Hn Htxt Hpng.
  split; [|reflexivity].
  assert (Hf : type_event_rows metric (Some allowed) d = f).
  { unfold type_event_rows. destruct allowed; [contradiction | reflexivity]. }
  exists (type_event_table metric f). split.
  - unfold exec.
    rewrite (type_event_drawn config df metric title filename (Some allowed) w Hc);
      fold d; rewrite ?Hf; try assumption.
    cbn [snd disk]. reflexivity.
  - intros row Hrow.
    destruct (type_event_table_types metric f row Hrow) as (r & Hr & Hget).
    unfold f in Hr. cbn [filter_isin rows] in Hr. apply filter_In in Hr as [_ Hm].
    apply mem_Str in Hm as (s & Hs & Heq). exists s. split; [exact Hs|].
    rewrite Hget. exact Heq.
Qed.

Lemma allow_list_restricts_post_types_witness :
  (exists table,
      disk (exec (@plot_metric_by_event_and_type Sample.estimators Sample.config 0
                    "comment_score" "Scores" "scores.png" (Some ["Other"])) Sample.w0)
      = ("figures/scores.png",
         PngFile (type_event_figure "comment_score" "Scores" table) 300)
        :: (type_event_txt Sample.config "comment_score",
            TextFile (type_event_header "comment_score") table)
        :: disk Sample.w0
      /\ forall row, In row (rows table) ->
           exists s, In s ["Other"] /\ nth 0 row NA = Str s)
  /\ @plot_metric_by_event_and_type Sample.estimators Sample.config 0 "comment_score"
       "Scores" "scores.png" (Some []) Sample.w0
     = @plot_metric_by_event_and_type Sample.estimators Sample.config 0 "comment_score"
         "Scores" "scores.png" None Sample.w0.
Proof.
  apply (allow_list_restricts_post_types Sample.estimators Sample.config 0
           "comment_score" "Scores" "scores.png" ["Other"] Sample.w0);
    [discriminate | reflexivity..].
Defined.

(* ================================================================== *)
(** ** The bars of the day-of-week view *)

Section DayBars.

Context {E : Estimators}.

Lemma nth_set_nth i v r : nth i (set_nth i v r) NA = v.
Proof.
  revert r. induction i as [|i IH]; intros [|c r]; cbn; auto.
Qed.

Lemma index_of_set_dtype name d c cols :
  index_of c (map fst (set_dtype name d cols)) = index_of c (map fst cols).
Proof.
  unfold set_dtype. rewrite map_map. f_equal. apply map_ext. intros [n t]. cbn.
  destruct (String.eqb name n) eqn:Hn; [|reflexivity].
  apply String.eqb_eq in Hn. now subst.
Qed.

(** After [df[name] = values], a row holds one of the values under [name]. *)
Lemma get_assigned name d values g r :
  In r (rows (assign name d values g)) ->
  In (get (assign name d values g) r name) values.
Proof.
  unfold assign, get, column_names.
  destruct (index_of name (map fst (columns g))) as [i|] eqn:Hi; cbn [rows columns].
  - rewrite index_of_set_dtype, Hi. intros H.
    apply in_map_iff in H as ([r0 v] & <- & H). cbn [fst snd].
    rewrite nth_set_nth. eapply in_combine_r, H.
  - rewrite map_app. cbn [map fst]. rewrite (index_of_app_none _ _ _ Hi).
    cbn [index_of]. rewrite String.eqb_refl. cbn [option_map].
    rewrite Nat.add_0_r, length_map. intros H.
    apply in_map_iff in H as ([r0 v] & <- & H). cbn [fst snd].
    rewrite nth_set_nth. eapply in_combine_r, H.
Qed.

(** A day name is missing or one of the seven. *)
Lemma day_name_cases c :
  day_name c = NA \/ exists s, In s day_names /\ day_name c = Str s.
Proof.
  destruct c; cbn [day_name]; auto. right.
  set (n := Z.to_nat ((t / 86400 + 3) mod 7)).
  assert (Hn : n < 7).
  { unfold n. pose proof (Z.mod_pos_bound (t / 86400 + 3) 7 ltac:(lia)). lia. }
  exists (nth n day_names "Monday"). split; [|reflexivity].
  apply nth_In. exact Hn.
Qed.

Lemma group_keys_complete_key by_cols f k :
  In k (group_keys by_cols f) -> complete_key k = true.
Proof.
  unfold group_keys. intros H.
  apply key_sort_in, distinct_from_in, filter_In in H as [_ H]. exact H.
Qed.

(** Every bar of the day-of-week table stands on one of the seven days. *)
Lemma day_bars_on_axis time_col times engagement_col f row :
  In row (rows (groupby_mean ["day_of_week"; "event_name"] engagement_col
                  (with_day_of_week time_col times f))) ->
  exists s, In s day_names /\ nth 0 row NA = Str s.
Proof.
  unfold groupby_mean. cbn [rows]. intros H.
  apply in_map_iff in H as (k & <- & Hk).
  pose proof (group_keys_complete_key _ _ _ Hk) as Hc.
  apply group_keys_in in Hk as (r & Hr & ->).
  unfold row_key in *. cbn [map app nth complete_key forallb] in *.
  apply andb_true_iff in Hc as [Hc _].
  unfold with_day_of_week in *. cbv zeta in *.
  apply get_assigned in Hr. apply in_map_iff in Hr as (c & Hd & _).
  destruct (day_name_cases c) as [Hna | (s & Hs & Heq)].
  - rewrite <- Hd, Hna in Hc. discriminate.
  - exists s. split; [exact Hs|]. now rewrite <- Hd.
Qed.

End DayBars.

(** In the table that [plot_engagement_per_day] draws, no two rows have the
    same day and event, the rows are in ascending order of day name and
    event, and every row stands on one of the seven day names of the axis:
    the fixed order of the axis leaves no bar out. *)
Theorem day_of_week_bars_stand_on_the_axis :
  forall (E : Estimators) (config : Config)
         (df : nat) (time_col engagement_col filename : string) (w : World),
    forallb (has_column (nth df (heap w) (mkDF [] [])))
            [time_col; engagement_col; "event_name"] = true ->
    empty (dropna [time_col; engagement_col; "event_name"]
             (nth df (heap w) (mkDF [] []))) = false ->
    outcome (plot_engagement_per_day config df time_col engagement_col filename) w
      = Ok tt ->
    exists bars title,
      disk (exec (plot_engagement_per_day config df time_col engagement_col filename) w)
      = (PyStr.path_join (FIGURES_DIR config) filename,
         PngFile (mkFigure (12, 6)
                    [BarPlot bars "day_of_week" engagement_col "event_name"
                       (Some day_names)]
                    title EmptyString EmptyString) 300) :: disk w
      /\ distinct_keys (map (firstn 2) (rows bars)) = true
      /\ ascending (map (firstn 2) (rows bars)) = true
      /\ forall row, In row (rows bars) ->
           exists s, In s day_names /\ nth 0 row NA = Str s.
Proof.
  intros E config df time_col engagement_col filename w Hc He Hok.
  destruct (engagement_per_day_returned config df time_col engagement_col filename w
              Hc He Hok) as (times & Ht & Hn & Hw).
  unfold exec.
  rewrite (engagement_per_day_drawn config df time_col engagement_col filename times w
             Hc He Ht Hn Hw).
  cbn [snd disk]. eexists. eexists. split; [reflexivity|].
  set (g := with_day_of_week time_col times _).
  assert (Hkeys : map (firstn 2) (rows (groupby_mean ["day_of_week"; "event_name"]
                                          engagement_col g))
                  = group_keys ["day_of_week"; "event_name"] g).
  { unfold groupby_mean. cbn [rows]. rewrite map_map.
    rewrite <- (map_id (group_keys _ g)) at 2. apply map_ext_in. intros k Hk.
    apply firstn_key. exact (key_length _ g k Hk). }
  rewrite Hkeys. split; [apply group_keys_distinct|]. split; [apply group_keys_ascending|].
  intros row Hrow. exact (day_bars_on_axis time_col times engagement_col _ row Hrow).
Qed.

Lemma day_of_week_bars_stand_on_the_axis_witness :
  let m := @plot_engagement_per_day Sample.estimators Sample.config 0
             "created_utc" "comment_score" "days.png" in
  outcome m Sample.w0 = Ok tt
  /\ exists bars title,
       disk (exec m Sample.w0)
       = (PyStr.path_join (FIGURES_DIR Sample.config) "days.png",
          PngFile (mkFigure (12, 6)
                     [BarPlot bars "day_of_week" "comment_score" "event_name"
                        (Some day_names)]
                     title EmptyString EmptyString) 300) :: disk Sample.w0
       /\ distinct_keys (map (firstn 2) (rows bars)) = true
       /\ ascending (map (firstn 2) (rows bars)) = true
       /\ forall row, In row (rows bars) ->
            exists s, In s day_names /\ nth 0 row NA = Str s.
Proof.
  split; [reflexivity|].
  exact (day_of_week_bars_stand_on_the_axis Sample.estimators Sample.config 0
           "created_utc" "comment_score" "days.png" Sample.w0
           eq_refl eq_refl eq_refl).
Defined.

(* ================================================================== *)
(** ** The histogram of the feature distribution *)

Section Histogram.

Context {E : Estimators} (config : Config).

Lemma save_kde_curve_heap values feature prefix w :
  heap (exec (save_kde_curve config values feature prefix) w) = heap w.
Proof.
  unfold exec, save_kde_curve.
  destruct (1 <? List.length values); [|reflexivity].
  rewrite !run_lift.
  destruct (gaussian_kde (numbers values)) as [kde|e]; [|reflexivity].
  destruct (Qmin_list (numbers values)) as [|lo| | |]; try reflexivity.
  destruct (Qmax_list (numbers values)) as [|hi| | |]; try reflexivity.
  unfold _save_dataframe_as_text, bind, write_file.
  now destruct (writable w _).
Qed.

(** The image of the histogram, when the file system takes it. *)
Lemma feature_histogram_figure df values feature title x_label bins prefix w :
  let d := nth df (heap w) (mkDF [] []) in
  values = series_dropna (series d feature) ->
  writable w (histogram_png config prefix feature) = true ->
  disk (exec (feature_histogram config df d values feature title x_label bins prefix) w)
  = (histogram_png config prefix feature,
     PngFile (mkFigure (10, 6) [histogram_chart d feature bins] title x_label "Count") 300)
    :: disk w.
Proof.
  intros d -> Hw. unfold exec, feature_histogram, histogram_chart. step.
  destruct (has_column d "event_name" && (1 <? nunique (series d "event_name")));
    cbn [andb].
  - unfold df_dropna, df_copy. repeat step. fold d.
    destruct (empty (dropna [feature; "event_name"] d)); cbn [negb].
    + repeat step. repeat draw_step.
      erewrite save_plot_done; [|reflexivity|exact Hw]. reflexivity.
    + repeat draw_step.
      erewrite save_plot_done; [|reflexivity|exact Hw]. reflexivity.
  - repeat draw_step.
    erewrite save_plot_done; [|reflexivity|exact Hw]. reflexivity.
Qed.

Lemma feature_histogram_refused df d values feature title x_label bins prefix w :
  writable w (histogram_png config prefix feature) = false ->
  outcome (feature_histogram config df d values feature title x_label bins prefix) w
  = Raise (OSError (histogram_png config prefix feature)).
Proof.
  intros Hw. unfold outcome, feature_histogram. step.
  destruct (has_column d "event_name" && (1 <? nunique (series d "event_name"))).
  - unfold df_dropna, df_copy. repeat step.
    destruct (negb (empty _)).
    + repeat draw_step. erewrite save_plot_refused; [|reflexivity|exact Hw].
      reflexivity.
    + repeat step. repeat draw_step.
      erewrite save_plot_refused; [|reflexivity|exact Hw]. reflexivity.
  - repeat draw_step. erewrite save_plot_refused; [|reflexivity|exact Hw].
    reflexivity.
Qed.

End Histogram.

(** When [plot_feature_distribution] returns on a feature that has
    observations, the newest file is its histogram.  The histogram is split
    by event when the dataset names more than one event and some row has
    both the feature and an event; otherwise it is the single series of the
    observations. *)
Theorem feature_histogram_is_split_by_event :
  forall (E : Estimators) (config : Config) (df : nat) (feature title x_label : string)
         (bin_count : nat) (prefix : string) (w : World),
    let d := nth df (heap w) (mkDF [] []) in
    has_column d feature = true ->
    series_dropna (series d feature) <> [] ->
    outcome (plot_feature_distribution config df feature title x_label bin_count prefix) w
      = Ok tt ->
    exists older,
      disk (exec (plot_feature_distribution config df feature title x_label bin_count
                    prefix) w)
      = (histogram_png config prefix feature,
         PngFile (mkFigure (10, 6) [histogram_chart d feature bin_count]
                    title x_label "Count") 300)
        :: older.
Proof.
  intros E config df feature title x_label bins prefix w d Hc Hv.
  unfold outcome, exec, plot_feature_distribution.
  step. fold d. rewrite Hc. cbn [negb]. cbv zeta.
  destruct (series_dropna (series d feature)) as [|v values] eqn:Hvals; [contradiction|].
  cbn [List.length Nat.eqb].
  unfold require_numeric. destruct (numeric_column d feature); [|discriminate].
  step.
  match goal with
  | |- context [_save_dataframe_as_text config ?t ?f ?h] =>
      destruct (writable w (PyStr.path_join (REPORTS_DIR config) f)) eqn:Htxt;
      [ rewrite !(run_save_text config) by exact Htxt
      | rewrite !(run_save_text_refused config) by exact Htxt; discriminate ]
  end.
  unfold bind.
  match goal with
  | |- context [save_kde_curve config ?vs feature prefix ?w1] =>
      pose proof (save_kde_curve_heap config vs feature prefix w1) as Hheap;
      unfold exec in Hheap;
      destruct (save_kde_curve config vs feature prefix w1) as [[[]|e] w2]
  end; [|discriminate].
  cbn [snd] in Hheap. cbn [heap with_log with_disk] in Hheap.
  destruct (writable w2 (histogram_png config prefix feature)) eqn:Hpng.
  - intros _.
    pose proof (feature_histogram_figure config df (v :: values) feature title x_label
                  bins prefix w2) as Hfig.
    cbv zeta in Hfig. rewrite Hheap in Hfig. fold d in Hfig.
    specialize (Hfig (eq_sym Hvals) Hpng). unfold exec in Hfig.
    rewrite Hfig. eauto.
  - intros Hok.
    pose proof (feature_histogram_refused config df d (v :: values) feature title x_label
                  bins prefix w2 Hpng) as Hr.
    unfold outcome in Hr. rewrite Hr in Hok. discriminate.
Qed.

Lemma feature_histogram_is_split_by_event_witness :
  let m := @plot_feature_distribution Sample.estimators Sample.config 0 "comment_score"
             "Scores" "Score" 50 "dist_" in
  has_column Sample.comments "comment_score" = true
  /\ series_dropna (series Sample.comments "comment_score") <> []
  /\ outcome m Sample.w0 = Ok tt
  /\ exists older,
       disk (exec m Sample.w0)
       = (histogram_png Sample.config "dist_" "comment_score",
          PngFile (mkFigure (10, 6) [histogram_chart Sample.comments "comment_score" 50]
                     "Scores" "Score" "Count") 300)
         :: older.
Proof.
  split; [reflexivity|]. split; [discriminate|]. split; [reflexivity|].
  apply (feature_histogram_is_split_by_event Sample.estimators Sample.config 0
           "comment_score" "Scores" "Score" 50 "dist_" Sample.w0);
    [reflexivity | discriminate | reflexivity].
Defined.

(* ================================================================== *)
(** ** The two modes of the distribution comparison *)

Section ComparisonModes.

Context {E : Estimators} (config : Config).

Lemma comparison_drawn df feature title y_label prefix plot_type w :
  let d := nth df (heap w) (mkDF [] []) in
  let f := dropna [feature; "event_name"] d in
  let png := PyStr.path_join (FIGURES_DIR config)
               (prefix ++ feature ++ "_" ++ plot_type ++ "_extended.png") in
  forallb (has_column d) [feature; "event_name"] = true ->
  empty f = false ->
  numeric_column f feature = true ->
  writable w (comparison_txt config prefix feature plot_type) = true ->
  writable w png = true ->
  plot_type = "violin" \/ plot_type = "box" ->
  disk (exec (plot_distribution_comparison config df feature title y_label prefix
                plot_type) w)
  = (png,
     PngFile (mkFigure (10, 6)
                [if String.eqb plot_type "violin"
                 then ViolinPlot f "event_name" feature
                 else BoxPlot f "event_name" feature "event_name"]
                title "Event Name" y_label) 300)
    :: (comparison_txt config prefix feature plot_type,
        TextFile (comparison_header feature plot_type) (comparison_table feature f))
    :: disk w.
Proof.
  intros d f png Hc He Hn Htxt Hpng Hmode.
  unfold exec, plot_distribution_comparison.
  step. fold d. rewrite Hc. cbn [negb].
  rewrite run_filtered. cbv zeta. fold d. fold f. step. rewrite He.
  unfold require_numeric. rewrite Hn.
  step. rewrite run_bounds.
  rewrite (run_save_text config) by exact Htxt.
  step. fold png.
  destruct Hmode as [-> | ->]; cbn [String.eqb Ascii.eqb Bool.eqb andb].
  - repeat draw_step. erewrite save_plot_done; [|reflexivity|exact Hpng]. reflexivity.
  - repeat draw_step. erewrite save_plot_done; [|reflexivity|exact Hpng]. reflexivity.
Qed.

End ComparisonModes.

(** With one of its two modes, [plot_distribution_comparison] writes its
    table and then its image.  The mode selects the chart, a violin plot or
    a box plot; either is drawn from the complete rows themselves, by
    event, not from the table of statistics. *)
Theorem comparison_mode_selects_chart :
  forall (E : Estimators) (config : Config) (df : nat)
         (feature title y_label prefix plot_type : string) (w : World),
    let d := nth df (heap w) (mkDF [] []) in
    let f := dropna [feature; "event_name"] d in
    let png := PyStr.path_join (FIGURES_DIR config)
                 (prefix ++ feature ++ "_" ++ plot_type ++ "_extended.png") in
    forallb (has_column d) [feature; "event_name"] = true ->
    empty f = false ->
    numeric_column f feature = true ->
    writable w (comparison_txt config prefix feature plot_type) = true ->
    writable w png = true ->
    plot_type = "violin" \/ plot_type = "box" ->
    exists chart,
      disk (exec (plot_distribution_comparison config df feature title y_label prefix
                    plot_type) w)
      = (png, PngFile (mkFigure (10, 6) [chart] title "Event Name" y_label) 300)
        :: (comparison_txt config prefix feature plot_type,
            TextFile (comparison_header feature plot_type) (comparison_table feature f))
        :: disk w
      /\ (plot_type = "violin" -> chart = ViolinPlot f "event_name" feature)
      /\ (plot_type = "box" -> chart = BoxPlot f "event_name" feature "event_name")
      /\ chart_rows chart = rows f.
Proof.
  intros E config df feature title y_label prefix plot_type w d f png
    Hc He Hn Htxt Hpng Hmode.
  eexists. split.
  - exact (comparison_drawn config df feature title y_label prefix plot_type w
             Hc He Hn Htxt Hpng Hmode).
  - destruct Hmode as [-> | ->]; cbn [String.eqb Ascii.eqb Bool.eqb andb];
      repeat split; intros; try reflexivity; discriminate.
Qed.

Lemma comparison_mode_selects_chart_witness :
  let f := dropna ["comment_score"; "event_name"] Sample.comments in
  exists chart,
    disk (exec (@plot_distribution_comparison Sample.estimators Sample.config 0
                  "comment_score" "Scores" "Score" "cmp_" "box") Sample.w0)
    = ("figures/cmp_comment_score_box_extended.png",
       PngFile (mkFigure (10, 6) [chart] "Scores" "Event Name" "Score") 300)
      :: (comparison_txt Sample.config "cmp_" "comment_score" "box",
          TextFile (comparison_header "comment_score" "box")
            (@comparison_table Sample.estimators "comment_score" f))
      :: disk Sample.w0
    /\ ("box" = "violin" -> chart = ViolinPlot f "event_name" "comment_score")
    /\ ("box" = "box" -> chart = BoxPlot f "event_name" "comment_score" "event_name")
    /\ chart_rows chart = rows f.
Proof.
  apply (comparison_mode_selects_chart Sample.estimators Sample.config 0
           "comment_score" "Scores" "Score" "cmp_" "box" Sample.w0);
    try reflexivity. right. reflexivity.
Defined.



(* ================================================================== *)
(** ** The two helpers that write *)

Section Helpers.

Lemma read_file_newest path c d : read_file path ((path, c) :: d) = Some c.
Proof. cbn. now rewrite String.eqb_refl. Qed.


Lemma repeat_char_length c n : String.length (PyStr.repeat_char c n) = n.
Proof. induction n; cbn; congruence. Qed.

Lemma repeat_char_get c n i x :
  String.get i (PyStr.repeat_char c n) = Some x -> x = c.
Proof.
  revert i. induction n as [|n IH]; intros i; cbn; [discriminate|].
  destruct i; [congruence | apply IH].
Qed.

End Helpers.



(** [_save_dataframe_as_text] writes the table under a header at the path
    in the reports directory, and the path then reads back as that header
    and that table.  The header is empty for an empty title; otherwise it
    is the title, a line of as many [=] as the title has characters (not
    bytes: a letter with an accent counts once), and a blank line.  When
    the file system refuses, the call raises, and nothing is written or
    logged. *)
Theorem save_dataframe_as_text_writes_header_and_table :
  forall (config : Config) (table : DataFrame) (filename title : string) (w : World),
    let path := PyStr.path_join (REPORTS_DIR config) filename in
    (writable w path = true ->
     exists header,
       outcome (_save_dataframe_as_text config table filename title) w = Ok tt
       /\ read_file path (disk (exec (_save_dataframe_as_text config table filename title) w))
          = Some (TextFile header table)
       /\ log (exec (_save_dataframe_as_text config table filename title) w)
          = (INFO, "Table data saved to: " ++ path) :: log w
       /\ (title = EmptyString -> header = EmptyString)
       /\ (title <> EmptyString ->
           exists underline,
             header = title ++ nl ++ underline ++ nl ++ nl
             /\ String.length underline = PyStr.len title
             /\ forall i c, String.get i underline = Some c -> c = "="%char))
    /\ (writable w path = false ->
        _save_dataframe_as_text config table filename title w = (Raise (OSError path), w)).
Proof.
  intros config table filename title w path. split; intros Hw.
  - exists (report_header title).
    unfold outcome, exec, _save_dataframe_as_text, bind, write_file. fold path.
    rewrite Hw. cbn [fst snd logger with_log with_disk disk log].
    rewrite read_file_newest. repeat split.
    + intros ->. reflexivity.
    + intros Ht. exists (PyStr.repeat_char "="%char (PyStr.len title)).
      split; [|split].
      * unfold report_header. destruct title; [contradiction | reflexivity].
      * apply repeat_char_length.
      * intros i c. apply repeat_char_get.
  - unfold _save_dataframe_as_text, bind, write_file. fold path. now rewrite Hw.
Qed.

Lemma save_dataframe_as_text_writes_header_and_table_witness :
  String.length Sample.cafe = 5
  /\ exists header,
       outcome (_save_dataframe_as_text Sample.config Sample.single_score "one.txt"
                  Sample.cafe) Sample.w0 = Ok tt
       /\ read_file "reports/one.txt"
            (disk (exec (_save_dataframe_as_text Sample.config Sample.single_score
                           "one.txt" Sample.cafe) Sample.w0))
          = Some (TextFile header Sample.single_score)
       /\ exists underline,
            header = Sample.cafe ++ nl ++ underline ++ nl ++ nl
            /\ String.length underline = 4.
Proof.
  split; [reflexivity|].
  destruct (save_dataframe_as_text_writes_header_and_table Sample.config
              Sample.single_score "one.txt" Sample.cafe Sample.w0) as [H _].
  destruct (H eq_refl) as (header & H1 & H2 & _ & _ & H5).
  exists header. split; [exact H1|]. split; [exact H2|].
  destruct (H5 ltac:(discriminate)) as (underline & Hh & Hl & _).
  exists underline. split; [exact Hh | exact Hl].
Defined.

(* ================================================================== *)
(** ** A refused write in the middle of a view *)

Section Refused.

Context {E : Estimators} (config : Config).

Lemma time_event_table_refused df metric prefix title y_label w :
  let d := nth df (heap w) (mkDF [] []) in
  let f := dropna [metric; "event_name"; "time_period"] d in
  forallb (has_column d) [metric; "event_name"; "time_period"] = true ->
  empty f = false ->
  numeric_column f metric = true ->
  writable w (time_event_txt config prefix) = false ->
  exists frames,
    plot_average_metric_by_time_and_event config df metric prefix title y_label w
    = (Raise (OSError (time_event_txt config prefix)), with_heap (heap w ++ frames) w).
Proof.
  intros d f Hc He Hn Htxt.
  unfold plot_average_metric_by_time_and_event.
  step. fold d. rewrite Hc. cbn [negb].
  rewrite run_filtered. cbv zeta. fold d. fold f.
  step. rewrite He. cbv zeta.
  unfold require_numeric. rewrite Hn.
  step. rewrite run_bounds. repeat step.
  rewrite (run_save_text_refused config) by exact Htxt.
  eexists. rewrite <- !app_assoc. reflexivity.
Qed.

Lemma time_event_image_refused df metric prefix title y_label w :
  let d := nth df (heap w) (mkDF [] []) in
  let f := dropna [metric; "event_name"; "time_period"] d in
  forallb (has_column d) [metric; "event_name"; "time_period"] = true ->
  empty f = false ->
  numeric_column f metric = true ->
  writable w (time_event_txt config prefix) = true ->
  writable w (time_event_png config prefix) = false ->
  exists frames,
    plot_average_metric_by_time_and_event config df metric prefix title y_label w
    = (Raise (OSError (time_event_png config prefix)),
       mkWorld (heap w ++ frames)
         ((time_event_txt config prefix,
           TextFile (time_event_header metric) (time_event_table metric f)) :: disk w)
         ((INFO, "Table data saved to: " ++ time_event_txt config prefix) :: log w)
         ((next_fig w, time_event_figure title y_label (time_event_table metric f))
          :: figures w)
         (S (next_fig w)) (writable w)).
Proof.
  intros d f Hc He Hn Htxt Hpng.
  unfold plot_average_metric_by_time_and_event.
  step. fold d. rewrite Hc. cbn [negb].
  rewrite run_filtered. cbv zeta. fold d. fold f.
  step. rewrite He. cbv zeta.
  unfold require_numeric. rewrite Hn.
  step. rewrite run_bounds. repeat step.
  fold (time_event_index f). fold (time_event_table metric f).
  rewrite (run_save_text config) by exact Htxt. fold (time_event_txt config prefix).
  repeat step. repeat draw_step.
  erewrite save_plot_refused; [|reflexivity|exact Hpng].
  eexists. world_simpl. rewrite <- !app_assoc. reflexivity.
Qed.

End Refused.

(** [plot_average_metric_by_time_and_event] writes its table before it
    opens its figure, and nothing undoes a write.  When the file system
    refuses the table, the view raises with nothing written and no figure
    opened.  When it takes the table and refuses the image, the view raises
    with the table on disk and confirmed in the log, and with its figure,
    fully drawn, left open. *)
Theorem refused_write_leaves_partial_output :
  forall (E : Estimators) (config : Config) (df : nat)
         (metric prefix title y_label : string) (w : World),
    let d := nth df (heap w) (mkDF [] []) in
    let f := dropna [metric; "event_name"; "time_period"] d in
    let m := plot_average_metric_by_time_and_event config df metric prefix title y_label in
    forallb (has_column d) [metric; "event_name"; "time_period"] = true ->
    empty f = false ->
    numeric_column f metric = true ->
    (writable w (time_event_txt config prefix) = false ->
     outcome m w = Raise (OSError (time_event_txt config prefix))
     /\ disk (exec m w) = disk w
     /\ log (exec m w) = log w
     /\ figures (exec m w) = figures w)
    /\ (writable w (time_event_txt config prefix) = true ->
        writable w (time_event_png config prefix) = false ->
        outcome m w = Raise (OSError (time_event_png config prefix))
        /\ disk (exec m w)
           = (time_event_txt config prefix,
              TextFile (time_event_header metric) (time_event_table metric f)) :: disk w
        /\ log (exec m w)
           = (INFO, "Table data saved to: " ++ time_event_txt config prefix) :: log w
        /\ figures (exec m w)
           = (next_fig w, time_event_figure title y_label (time_event_table metric f))
             :: figures w).
Proof.
  intros E config df metric prefix title y_label w d f m Hc He Hn. split.
  - intros Htxt.
    destruct (time_event_table_refused config df metric prefix title y_label w
                Hc He Hn Htxt) as [frames H].
    unfold m, outcome, exec. rewrite H. repeat split.
  - intros Htxt Hpng.
    destruct (time_event_image_refused config df metric prefix title y_label w
                Hc He Hn Htxt Hpng) as [frames H].
    unfold m, outcome, exec. rewrite H. repeat split.
Qed.

Lemma refused_write_leaves_partial_output_witness :
  let w := Sample.world [Sample.comments] (fun p => PyStr.starts_with "reports" p) in
  let m := @plot_average_metric_by_time_and_event Sample.estimators Sample.config 0
             "comment_score" "avg" "Scores" "Score" in
  outcome m w = Raise (OSError "figures/avg_by_time_period_and_event_extended.png")
  /\ List.length (disk (exec m w)) = 1
  /\ open_figures (exec m w) = [1].
Proof.
  destruct (refused_write_leaves_partial_output Sample.estimators Sample.config 0
              "comment_score" "avg" "Scores" "Score"
              (Sample.world [Sample.comments] (fun p => PyStr.starts_with "reports" p))
              eq_refl eq_refl eq_refl) as [_ H].
  destruct (H eq_refl eq_refl) as (H1 & H2 & _ & H4).
  split; [exact H1|]. split.
  - rewrite H2. reflexivity.
  - unfold open_figures. rewrite H4. reflexivity.
Defined.
